(* ===== verification/_CoqProject ===== *)
-Q . S2P
Prelude.v
GoLib.v
Pagination.v
Store.v
Validation.v
AuthorModel.v
BookModel.v
Handlers.v
Server.v
Contract.v
