(* ===== verification/Prelude.v ===== *)
(** * Bookies: a verification development of kasfil/bookies

    The program is a Go HTTP service (gin + pgx) that stores authors and
    their books in PostgreSQL.  A request flows Router -> Handler ->
    Validation -> data access -> Pool -> store, and the result flows back
    to the handler, which alone maps errors to HTTP statuses.  Its parts:

    - [src/pkg/database/pool.go]: a process-wide pool built once by
      [sync.Once] ([GetConnection]); [Ping] forwards to the pool.
    - [src/pkg/validators/validname.go], [src/pkg/utilities/error.go] and
      the [binding] tags of [src/pkg/models/*.go]: the validation of the
      payloads and the messages of [ParseValidationError].
    - [src/pkg/models/author.go], [src/pkg/models/book.go]: the data access
      layer; per entity [Insert], [Detail], [Update], [Delete] and the
      paginated [Fetch].  Writes run in a transaction; [Fetch] counts the
      rows, derives the page total, clamps the page, computes prev/next and
      reads one window ordered by id descending.
    - [src/pkg/handlers/author.go], [book.go]: one gin handler per route.
    - [src/pkg/handlers/handler.go], [src/pkg/app/rest_server.go],
      [src/cmd/server/main.go]: the route table and the start-up;
      [src/test/author_test.go]: the one integration test.

    ** Files of the development (in dependency order)

    - [Prelude] (this file): the Go errors the code observes ([goerr],
      including the SQLSTATEs it tests), the [result] type with its bind
      notation [x <-? c ;; k] (scope [bookies_scope]), Go's 64-bit [int] as
      [Z] with [wrap] and [fits_int], strings as lists of runes
      ([gstring]), the hint databases [bookies] and [bookies_rw], the
      tactics [go_lia], [go_cases], [bool_facts], and list lemmas on
      sorting and filtering shared by the listings.
    - [GoLib]: the Go library functions whose behaviour the properties
      depend on: [strconv.Atoi] (module [Atoi]) and [time.Parse] with the
      layout [2006-01-02] and its formatting (module [Time]).
    - [Pagination]: the arithmetic of both [Fetch] methods and the SQL
      [LIMIT/OFFSET] window ([page_total], [paginate], [offset],
      [fetch_window]).
    - [Store]: the database as two [gmap]s keyed by id with their id
      sequences ([db]), the conversions PostgreSQL applies to the
      parameters ([pg_date_in], [pg_int8_in]), the statements shared by
      both models, pgx's row collection, [ROLLBACK], and the invariant [wf]
      (ids within their sequence, every book's author present, emails
      unique) with one lemma per kind of write, and the frames
      [author_row_only] and [book_row_only] (a store differs from another
      at most in one row of one table).
    - [Validation]: the [validname] rule over the interface [CharClasses]
      (the Unicode letter class and the email syntax), the validator's
      tag semantics ([check_rules], [check_field]: fields in order, the
      first failing tag per field, [omitempty] by the validator's
      [hasValue], for which a non-nil [*string] has a value even when
      empty) and [ParseValidationError].
    - [AuthorModel], [BookModel]: the Go structs, the effect of each SQL
      statement, and each method as the code composes it; the state a
      method returns is the committed store (the transaction's state, or
      the state before it on a rollback).  [BookModel.Insert] and [Update]
      read the embedded author through [AuthorModel.Detail] on the state
      before the transaction, as the code does through a second pool
      connection.
    - [Handlers]: every handler as a function from the store and the
      request (the [:id] segment, the [page]/[limit] values, the decoded
      body) to the store and the response (status and body; a handler that
      writes nothing leaves 200 with an empty body; a panic is gin's 500).
    - [Server]: [Router] (the route table [IncludeHandlers], dispatch, a run
      of the server as a sequence of requests), [Pool] ([GetConnection] on
      the package globals, and [sync.Once] under concurrent callers as the
      step relation [step]), [Main] (the start-up sequence) and [Test]
      ([TestMain], [TestFetchAuthors]).  [Pool.Ping] forwards to the
      pool and panics on the nil pool a failed construction leaves.
    - [Contract]: what a client of the HTTP API may rely on.  The
      abstract repository [repo] (a [gmap] from author id to the
      author's name, email, birth date and biography, [abs] of the store)
      with the step [repo_step] of one request: a write the request asked
      for ([write_of]: POST /authors, PUT or DELETE /authors/:id) and the
      response acknowledged is applied, anything else leaves the
      repository as it was; and [row_target], the one row a request may
      write, read off its method and path.

    ** What the theorems show

    - Pagination (C1-C5): the page total is the ceiling of total/limit; the
      metadata contract (clamped page, prev/next); the offset addresses the
      table without overflow; the pages partition the ordered rows; on an
      empty table the offset is negative and the query fails.
    - Author data access (C6-C8, C12): each author write changes at most
      its own row (the drawn id, or the receiver's id), never the book
      table, and nothing on an error; insert then detail gives the row
      back; a duplicate email is rejected and still draws an id; the
      listing is exactly the authors by descending id.
    - Contract (C9): any run of the server refines the abstract
      repository ([repo_trace] from [abs] of the first store to [abs] of
      the last, with the responses the run gave).
    - Book writes (C10, C11, C13-C16): PUT /books/:id that moves a book
      answers with the new author's stale book total; an author id beyond
      int8 or a year-0 date makes POST /books write nothing; each book
      write changes at most its own row and nothing on an error; a new
      book embeds a stale book total of its author; an unknown author is
      rejected and still draws a book id; the author's book listing is
      exactly that author's books by descending id.
    - Termination (C17): whatever the interleaving, the concurrent callers
      of [GetConnection] have no infinite run.
    - Validation and dates (C18-C21): the exact condition under which an
      author payload binds; the validname message blames digits also for
      names without any; the birth date POST /authors answers with prints
      as the submitted string.
    - Handlers (C22-C33, C35): the status and body of each error path
      (409, 422, 404, 500, and the empty 200 when the store rejects a
      year-0 date the validator accepted), add-then-get, update-then-get
      and delete-then-get at the HTTP level, the update that stores an
      undecoded body unvalidated, the accepted page/limit of a 200
      listing.
    - Server (C34, C36-C40): each request writes at most the row its
      method and path name; the route table realizes the API's routes;
      under concurrent callers [pgxpool.New] runs at most once, all
      callers get the same instance and all of them can return; a failed
      construction is cached; [main]'s pool error check is dead and a
      failed construction panics at [Ping].

    ** Modelling choices, bounds

    - A Go [int] is 64 bits wide; its arithmetic is written with [wrap],
      and the theorems show where the wrap is the identity.
    - [math.Ceil(float64(t)/float64(l))] is the exact ceiling: the float
      quotient is exact enough for every [t < 2^53] since [l <= 100], far
      above any row count.
    - Strings are lists of code points ([gstring]); the validator counts
      runes, which is [length].
    - [time.Parse]'s four-digit year takes no sign (its first byte must be
      a digit); PostgreSQL's date input refuses year 0, which Go accepts.
    - [pgxscan.ScanOne] reports an empty result as [pgx.ErrNoRows] (it
      wraps it), which is how [scan_one] treats it.
    - There is no fuel: every definition is structurally recursive; the
      concurrent callers of the pool terminate because each step lowers a
      weight (two per caller that has not called, one per caller inside
      or waiting on [Do]), so the reverse step relation is well founded.

    ** Not modelled

    The HTTP transport and JSON encoding (a request carries its decoded
    body), gin's router tree beyond the route table (trailing-slash
    redirects), the pgx wire protocol, logging, and the content of the
    [.env] file (start-up takes its outcome and the environment as inputs).
    The concurrency of the handlers themselves is not modelled: a run of
    the server serves requests one after the other, so interleavings of
    two requests inside one data access method are not covered. *)

From stdpp Require Export base list gmap strings sorting.
From Stdlib Require Export ZArith Lia.

Open Scope Z_scope.

Declare Scope bookies_scope.
Delimit Scope bookies_scope with bk.

(** ** Errors the program observes *)

(** The error values that flow from the data access layer to the handlers:
    [*pgconn.PgError] with its SQLSTATE, [pgx.ErrNoRows],
    [pgx.ErrTooManyRows] and the program's own [ErrTooManyAffectedRows]
    (src/pkg/utilities/error.go); [ErrScan] is a driver error when a
    column value does not fit the Go field it is scanned into. *)
Inductive goerr : Type :=
| PgError (code : string)
| ErrNoRows
| ErrTooManyRows
| ErrTooManyAffectedRows
| ErrScan.

#[export] Instance goerr_eq_dec : EqDecision goerr.
Proof. solve_decision. Defined.

(** The SQLSTATE codes the model produces. *)
Definition unique_violation : string := "23505".
Definition foreign_key_violation : string := "23503".
Definition invalid_datetime_format : string := "22007".
Definition datetime_field_overflow : string := "22008".
Definition numeric_value_out_of_range : string := "22003".
Definition invalid_row_count_in_result_offset_clause : string := "2201X".

(** [errors.As(err, &pgErr)] *)
Definition is_pg_error (e : goerr) : bool :=
  match e with PgError _ => true | _ => false end.

(** ** The result of a fallible Go call: [(v, nil)] or [(_, err)] *)

Inductive result (A : Type) : Type :=
| Ok (a : A)
| Err (e : goerr).
Arguments Ok {A} a.
Arguments Err {A} e.

Definition bind {A B} (r : result A) (k : A -> result B) : result B :=
  match r with
  | Ok a => k a
  | Err e => Err e
  end.

Notation "x <-? c ;; k" := (bind c (fun x => k))
  (at level 100, c at next level, right associativity) : bookies_scope.

Open Scope bookies_scope.

Lemma bind_Ok_inv {A B} (r : result A) (k : A -> result B) (b : B) :
  bind r k = Ok b -> exists a, r = Ok a /\ k a = Ok b.
Proof. destruct r; simpl; [eauto | discriminate]. Qed.

Lemma bind_Err_inv {A B} (r : result A) (k : A -> result B) (e : goerr) :
  bind r k = Err e -> r = Err e \/ exists a, r = Ok a /\ k a = Err e.
Proof. destruct r; simpl; [right; eauto | left; congruence]. Qed.

(** ** Go's [int] on a 64-bit platform *)

Definition min_int : Z := - 2 ^ 63.
Definition max_int : Z := 2 ^ 63 - 1.

(** Two's complement wrap-around of a mathematical result to 64 bits. *)
Definition wrap (z : Z) : Z := (z + 2 ^ 63) mod 2 ^ 64 - 2 ^ 63.

Definition fits_int (z : Z) : Prop := min_int <= z <= max_int.

#[export] Instance fits_int_dec z : Decision (fits_int z).
Proof. unfold fits_int. apply _. Defined.

Create HintDb bookies.
Create Rewrite HintDb bookies_rw.

Ltac go_lia := unfold fits_int, min_int, max_int in *; lia.
Ltac go_nia := unfold fits_int, min_int, max_int in *; nia.

(** Case analysis on every [match] of the goal and the hypotheses, keeping
    the equations and discharging the contradictory branches. *)
Ltac go_cases := repeat (case_match; simplify_eq/=).

Lemma wrap_id (z : Z) : fits_int z -> wrap z = z.
Proof.
  unfold wrap. intros H.
  rewrite Z.mod_small by go_lia. lia.
Qed.

Lemma wrap_in_int (z : Z) : fits_int (wrap z).
Proof.
  unfold wrap, fits_int, min_int, max_int.
  pose proof (Z.mod_pos_bound (z + 2 ^ 63) (2 ^ 64)). lia.
Qed.

#[export] Hint Resolve wrap_in_int : bookies.

(** Turn boolean comparisons of the hypotheses into propositions, case
    splitting on disjunctions. *)
Ltac bool_facts :=
  repeat match goal with
  | H : _ && _ = true |- _ => apply andb_true_iff in H as [? ?]
  | H : _ || _ = false |- _ => apply orb_false_iff in H as [? ?]
  | H : _ && _ = false |- _ => apply andb_false_iff in H as [?|?]
  | H : _ || _ = true |- _ => apply orb_true_iff in H as [?|?]
  | H : negb _ = true |- _ => apply negb_true_iff in H
  | H : negb _ = false |- _ => apply negb_false_iff in H
  | H : (_ =? _) = true |- _ => apply Z.eqb_eq in H
  | H : (_ =? _) = false |- _ => apply Z.eqb_neq in H
  | H : (_ <=? _) = true |- _ => apply Z.leb_le in H
  | H : (_ <=? _) = false |- _ => apply Z.leb_gt in H
  | H : forallb _ (_ :: _) = _ |- _ => simpl in H
  end.

(** ** Strings as sequences of runes *)

Abbreviation gstring := (list Z).

(** The runes of a Rocq string literal (ASCII), for concrete inputs. *)
Definition gs (s : string) : gstring :=
  map (fun c => Z.of_N (Ascii.N_of_ascii c)) (String.list_ascii_of_string s).

Definition is_digit (c : Z) : bool := (48 <=? c) && (c <=? 57).

Lemma digit_bounds (c : Z) : is_digit c = true -> 48 <= c <= 57.
Proof. unfold is_digit. intros H. bool_facts. lia. Qed.

(** Value of a string of decimal digits. *)
Definition digits_value (s : gstring) : Z :=
  fold_left (fun acc c => acc * 10 + (c - 48)) s 0.

Lemma digits_value_app (s t : gstring) :
  digits_value (s ++ t) = fold_left (fun acc c => acc * 10 + (c - 48)) t (digits_value s).
Proof. unfold digits_value. by rewrite fold_left_app. Qed.

Lemma fold_digits_nonneg (s : gstring) (acc : Z) :
  0 <= acc -> forallb is_digit s = true ->
  0 <= fold_left (fun acc c => acc * 10 + (c - 48)) s acc.
Proof.
  revert acc. induction s as [|c s IH]; intros acc Hacc Hd; simpl in *; [done|].
  apply andb_true_iff in Hd as [Hc Hs]. unfold is_digit in Hc.
  apply andb_true_iff in Hc as [H1 H2]. apply Z.leb_le in H1, H2.
  apply IH; [lia | done].
Qed.

Lemma digits_value_nonneg (s : gstring) :
  forallb is_digit s = true -> 0 <= digits_value s.
Proof. intros. by apply fold_digits_nonneg. Qed.

(** ** Lists of results *)

(** Collect a list of results, failing on the first error. *)
Fixpoint all_ok {A} (rs : list (result A)) : result (list A) :=
  match rs with
  | [] => Ok []
  | r :: rs' => a <-? r ;; l <-? all_ok rs' ;; Ok (a :: l)
  end.

Lemma all_ok_map_Ok {A B} (f : A -> B) (xs : list A) :
  all_ok (map (fun x => Ok (f x)) xs) = Ok (map f xs).
Proof. induction xs as [|x xs IH]; simpl; [done | by rewrite IH]. Qed.

Lemma all_ok_map_ext {A B} (f : A -> result B) (g : A -> B) (xs : list A) :
  (forall x, x ∈ xs -> f x = Ok (g x)) ->
  all_ok (map f xs) = Ok (map g xs).
Proof.
  induction xs as [|x xs IH]; intros H; simpl; [done|].
  rewrite H by set_solver. simpl. rewrite IH by set_solver. done.
Qed.

(** ** Sorted slices *)

Lemma StronglySorted_drop {A} (R : A -> A -> Prop) (n : nat) (l : list A) :
  StronglySorted R l -> StronglySorted R (drop n l).
Proof.
  revert l. induction n as [|n IH]; intros l H; [done|].
  destruct l; simpl; [constructor|]. apply IH. by inversion H.
Qed.

Lemma StronglySorted_take {A} (R : A -> A -> Prop) (n : nat) (l : list A) :
  StronglySorted R l -> StronglySorted R (take n l).
Proof.
  revert l. induction n as [|n IH]; intros l H; simpl; [constructor|].
  destruct l as [|x l]; simpl; [constructor|]. inversion H as [|? ? Hs Hf]; subst.
  constructor; [by apply IH|]. by apply Forall_take.
Qed.

Lemma StronglySorted_map {A B} (R : B -> B -> Prop) (f : A -> B) (l : list A) :
  StronglySorted (fun x y => R (f x) (f y)) l -> StronglySorted R (map f l).
Proof.
  induction 1 as [|x l Hs IH Hf]; simpl; constructor; [done|].
  by apply Forall_map.
Qed.

(** A sorted list of pairs with distinct first components is strictly
    sorted on them. *)
Lemma StronglySorted_strict {A} (l : list (Z * A)) :
  StronglySorted (fun x y : Z * A => y.1 <= x.1) l -> NoDup l.*1 ->
  StronglySorted (fun x y : Z * A => y.1 < x.1) l.
Proof.
  induction 1 as [|x l Hs IH Hf]; simpl; intros Hnd; constructor.
  - apply IH. by inversion Hnd.
  - inversion Hnd as [|? ? Hnin Hnd']; subst. rewrite Forall_forall in Hf |- *.
    intros y Hy. specialize (Hf y Hy). destruct (decide (y.1 = x.1)) as [He|]; [|lia].
    exfalso. apply Hnin. rewrite <- He. apply list_elem_of_fmap. exists y.
    by split.
Qed.

Lemma Forall_filter_of {A} (Q : A -> Prop) (P : A -> Prop) `{!forall x, Decision (P x)}
    (l : list A) :
  Forall Q l -> Forall Q (filter P l).
Proof.
  induction 1; simpl; [constructor|]. rewrite filter_cons. case_decide; [constructor|]; done.
Qed.

Lemma StronglySorted_impl {A} (R R' : A -> A -> Prop) (l : list A) :
  (forall x y, R x y -> R' x y) -> StronglySorted R l -> StronglySorted R' l.
Proof.
  intros HR. induction 1; constructor; [done|]. eapply Forall_impl; eauto.
Qed.

(** Elements kept by a filter satisfy its predicate. *)
Lemma Forall_filter_of' {A} (P : A -> Prop) `{!forall x, Decision (P x)} (l : list A) (Q : A -> Prop) :
  Forall (fun x => P x -> Q x) l -> Forall Q (filter P l).
Proof.
  induction 1; simpl; [constructor|]. rewrite filter_cons. case_decide; [constructor|]; auto.
Qed.

Lemma StronglySorted_filter {A} (R : A -> A -> Prop) (P : A -> Prop) `{!forall x, Decision (P x)}
    (l : list A) :
  StronglySorted R l -> StronglySorted R (filter P l).
Proof.
  induction 1 as [|x l Hs IH Hf]; simpl; [constructor|].
  rewrite filter_cons. case_decide; [|done]. constructor; [done|]. by apply Forall_filter_of.
Qed.

(** What holds of every value a list of results carries holds of the list
    [all_ok] collects. *)
Lemma all_ok_Forall {A} (P : A -> Prop) (rs : list (result A)) (xs : list A) :
  Forall (fun r => forall x, r = Ok x -> P x) rs -> all_ok rs = Ok xs -> Forall P xs.
Proof.
  revert xs. induction rs as [|r rs IH]; intros xs Hf H; simpl in H; [by simplify_eq|].
  inversion Hf as [|? ? Hr Hrs]; subst.
  destruct r as [x|]; simpl in H; [|done].
  destruct (all_ok rs) as [ys|] eqn:E; simpl in H; simplify_eq. constructor; eauto.
Qed.

Lemma all_ok_StronglySorted {A} (R : A -> A -> Prop) (rs : list (result A)) (xs : list A) :
  StronglySorted (fun r1 r2 => forall x y, r1 = Ok x -> r2 = Ok y -> R x y) rs ->
  all_ok rs = Ok xs -> StronglySorted R xs.
Proof.
  revert xs. induction rs as [|r rs IH]; intros xs Hs H; simpl in H; [simplify_eq; constructor|].
  inversion Hs as [|? ? Hs' Hf]; subst.
  destruct r as [x|]; simpl in H; [|done].
  destruct (all_ok rs) as [ys|] eqn:E; simpl in H; simplify_eq. constructor; [eauto|].
  eapply all_ok_Forall; [|exact E]. eapply Forall_impl; [exact Hf|]. simpl. eauto.
Qed.
