(* ===== verification/GoLib.v ===== *)
(** * GoLib: the Go library functions whose results the program branches on

    The handlers parse query and path parameters with [strconv.Atoi]; the
    validator's [datetime=2006-01-02] rule is [time.Parse] with that layout;
    a [pgtype.Date] is printed in JSON with the same layout.  These are
    library code, not code of the repository: they are modelled from their
    documented behaviour (Go 1.21 sources of [strconv] and [time]) so that
    the handlers' theorems can be stated on concrete strings. *)

From S2P Require Import Prelude.

Module Atoi.

(** The [*strconv.NumError] kinds [Atoi] reports. *)
Inductive atoi_error : Type := ErrSyntax | ErrRange.

#[export] Instance atoi_error_eq_dec : EqDecision atoi_error.
Proof. solve_decision. Defined.

Definition is_sign (c : Z) : bool := (c =? 43) || (c =? 45).

(** The digits after an optional sign, and whether the sign was [-]. *)
Definition split_sign (s : gstring) : bool * gstring :=
  match s with
  | c :: r => if c =? 45 then (true, r) else if c =? 43 then (false, r) else (false, s)
  | [] => (false, [])
  end.

(** [strconv.Atoi(s)] on a 64-bit platform: a non-empty run of decimal
    digits after an optional sign; out of range the result saturates at the
    bound with [ErrRange]; on a syntax error the value is 0. *)
Definition atoi (s : gstring) : Z * option atoi_error :=
  let '(neg, ds) := split_sign s in
  if negb (bool_decide (ds = [])) && forallb is_digit ds then
    let v := if neg then - digits_value ds else digits_value ds in
    if bool_decide (fits_int v) then (v, None)
    else ((if neg then min_int else max_int), Some ErrRange)
  else (0, Some ErrSyntax).

Lemma split_sign_digits (s : gstring) :
  forallb is_digit s = true -> split_sign s = (false, s).
Proof.
  destruct s as [|c r]; [done|]. simpl. intros [Hc _]%andb_true_iff.
  unfold is_digit in Hc. apply andb_true_iff in Hc as [H1%Z.leb_le H2%Z.leb_le].
  destruct (Z.eqb_spec c 45); [lia|]. destruct (Z.eqb_spec c 43); [lia|]. done.
Qed.

(** On a non-empty string of digits [Atoi] returns its value, saturated at
    [max_int] with [ErrRange] when it does not fit. *)
Lemma atoi_digits (s : gstring) :
  s <> [] -> forallb is_digit s = true ->
  atoi s = if bool_decide (fits_int (digits_value s)) then (digits_value s, None)
           else (max_int, Some ErrRange).
Proof.
  intros Hne Hd. unfold atoi. rewrite split_sign_digits by done.
  rewrite bool_decide_false by done. rewrite Hd. done.
Qed.

(** [Atoi] succeeds with value [v] only on a well-formed numeral. *)
Lemma atoi_ok_inv (s : gstring) (v : Z) :
  atoi s = (v, None) ->
  let '(neg, ds) := split_sign s in
  ds <> [] /\ forallb is_digit ds = true /\ fits_int v /\
  v = (if neg then - digits_value ds else digits_value ds).
Proof.
  unfold atoi. destruct (split_sign s) as [neg ds].
  destruct (negb (bool_decide (ds = [])) && forallb is_digit ds) eqn:E; [|done].
  apply andb_true_iff in E as [E1 E2]. apply negb_true_iff, bool_decide_eq_false in E1.
  case_bool_decide; intros [= <-]; done.
Qed.

End Atoi.

Module Time.

(** A calendar date (the fields of a [time.Time] a date layout sets, and
    the value of a PostgreSQL [date]). *)
Record date : Type := mk_date { year : Z; month : Z; day : Z }.

#[export] Instance date_eq_dec : EqDecision date.
Proof. solve_decision. Defined.

(** [time.isLeap]; Go's [%] truncates. *)
Definition is_leap (y : Z) : bool :=
  (Z.rem y 4 =? 0) && (negb (Z.rem y 100 =? 0) || (Z.rem y 400 =? 0)).

(** [time.daysIn] *)
Definition days_in (m y : Z) : Z :=
  if m =? 2 then (if is_leap y then 29 else 28)
  else if (m =? 4) || (m =? 6) || (m =? 9) || (m =? 11) then 30
  else 31.


(** The [2006] element of a layout ([stdLongYear] of [time.Parse]): four
    bytes whose first is a digit, read by [time]'s internal [atoi]; as the
    first byte is a digit, [atoi] takes no sign and needs four digits. *)
Definition parse_year (y1 y2 y3 y4 : Z) : option Z :=
  if forallb is_digit [y1; y2; y3; y4] then Some (digits_value [y1; y2; y3; y4]) else None.

(** [time.Parse("2006-01-02", s)]: fixed-width fields, the separators, no
    extra text, month in 1..12, then the day checked against [daysIn]. *)
Definition parse_date (s : gstring) : option date :=
  match s with
  | [y1; y2; y3; y4; c5; m1; m2; c8; d1; d2] =>
      match parse_year y1 y2 y3 y4 with
      | Some y =>
          if (c5 =? 45) && is_digit m1 && is_digit m2 && (c8 =? 45)
             && is_digit d1 && is_digit d2 then
            let m := digits_value [m1; m2] in
            let d := digits_value [d1; d2] in
            if (1 <=? m) && (m <=? 12) && (1 <=? d) && (d <=? days_in m y)
            then Some (mk_date y m d) else None
          else None
      | None => None
      end
  | _ => None
  end.

(** [t.Format("2006-01-02")] for a year in 0..9999: zero-padded fields. *)
Definition pad2 (n : Z) : gstring := [48 + n / 10; 48 + n mod 10].
Definition pad4 (n : Z) : gstring := [48 + n / 1000; 48 + (n / 100) mod 10;
                                      48 + (n / 10) mod 10; 48 + n mod 10].
Definition format_date (d : date) : gstring :=
  pad4 (year d) ++ [45] ++ pad2 (month d) ++ [45] ++ pad2 (day d).

End Time.
