(* ===== verification/Pagination.v ===== *)
(** * Pagination: the listing arithmetic of both [Fetch] methods

    [FetchAuthorDBModel.Fetch] (src/pkg/models/author.go, lines 226-257)
    and [FetchBookDBModel.Fetch] (src/pkg/models/book.go, lines 256-287)
    share one computation: from the requested page, the limit and the
    record total they derive the page total, clamp the page, set the
    previous/next pointers, and read the window [LIMIT limit OFFSET
    limit * (page - 1)] of the rows ordered by id descending.  This file
    models that computation on Go's 64-bit [int] and proves its contract. *)

From S2P Require Import Prelude.

Module Pagination.

(** The metadata fields of [FetchAuthorDBModel] / [FetchBookDBModel]; a
    nil [*int] is [None]. *)
Record page_meta : Type := mk_meta {
  Page : Z;
  Limit : Z;
  Next : option Z;
  Prev : option Z;
  RecordTotal : Z;
  PageTotal : Z
}.

(** [int(math.Ceil(float64(t) / float64(l)))], exact below [2^53]. *)
Definition ceil_f64_div (t l : Z) : Z := - ((- t) / l).

(** [if m.RecordTotal%m.Limit > 0 { ceil } else { m.RecordTotal / m.Limit }];
    Go's [%] and [/] truncate, as [Z.rem] and [Z.quot] do. *)
Definition page_total (t l : Z) : Z :=
  if Z.rem t l >? 0 then ceil_f64_div t l else Z.quot t l.

(** The metadata after the page-total, clamping and prev/next steps. *)
Definition paginate (page limit total : Z) : page_meta :=
  let pt := page_total total limit in
  let p := if page >? pt then pt else page in
  {| Page := p;
     Limit := limit;
     Prev := if p <? 2 then None else Some (wrap (p - 1));
     Next := if p =? pt then None else Some (wrap (p + 1));
     RecordTotal := total;
     PageTotal := pt |}.

(** The query argument ["offset": m.Limit * (m.Page - 1)]. *)
Definition offset (m : page_meta) : Z := wrap (Limit m * wrap (Page m - 1)).

(** PostgreSQL's [LIMIT l OFFSET o] on rows already in query order: a
    negative offset or limit is an error of the statement. *)
Definition limit_offset {A} (rows : list A) (l o : Z) : result (list A) :=
  if o <? 0 then Err (PgError invalid_row_count_in_result_offset_clause)
  else if l <? 0 then Err (PgError "2201W")
  else Ok (take (Z.to_nat l) (drop (Z.to_nat o) rows)).

(** The part of [Fetch] after the count query: metadata, then the window
    of the ordered rows. *)
Definition fetch_window {A} (page limit total : Z) (rows : list A)
    : result (page_meta * list A) :=
  let m := paginate page limit total in
  data <-? limit_offset rows (Limit m) (offset m) ;;
  Ok (m, data).

(** The data of every page from 1 to the page total, in order. *)
Definition all_pages {A} (limit : Z) (rows : list A) : result (list (list A)) :=
  let t := Z.of_nat (length rows) in
  all_ok (map (fun p => mw <-? fetch_window p limit t rows ;; Ok mw.2)
              (map Z.of_nat (seq 1 (Z.to_nat (page_total t limit))))).

(** ** Arithmetic of the page total *)

Section PageTotal.
Context (t l : Z) (Ht : 0 <= t) (Hl : 0 < l).

Lemma page_total_eq : page_total t l = (t + l - 1) / l.
Proof.
  unfold page_total, ceil_f64_div.
  rewrite Z.rem_mod_nonneg, Z.quot_div_nonneg by lia.
  destruct (Z.gtb_spec (t mod l) 0);
    Z.to_euclidean_division_equations; nia.
Qed.

Lemma page_total_bounds : l * (page_total t l - 1) < t <= l * page_total t l \/
                          (t = 0 /\ page_total t l = 0).
Proof.
  rewrite page_total_eq.
  destruct (Z.eq_dec t 0) as [->|]; [right; split; [done|] |left];
    Z.to_euclidean_division_equations; nia.
Qed.

Lemma page_total_nonneg : 0 <= page_total t l.
Proof. rewrite page_total_eq. apply Z.div_pos; lia. Qed.

Lemma page_total_le : page_total t l <= t.
Proof. rewrite page_total_eq. Z.to_euclidean_division_equations; nia. Qed.

Lemma page_total_pos : 1 <= t -> 1 <= page_total t l.
Proof. intros. rewrite page_total_eq. Z.to_euclidean_division_equations; nia. Qed.
End PageTotal.

(** ** The metadata on the inputs the handlers accept *)

(** The handlers pass [page >= 1] and [5 <= limit <= 100], both Go [int]s;
    the count of a table is a non-negative [int]. *)
Definition handler_inputs (page limit total : Z) : Prop :=
  1 <= page <= max_int /\ 5 <= limit <= 100 /\ 0 <= total <= max_int.

Section HandlerInputs.
Context (page limit total : Z) (H : handler_inputs page limit total).

Lemma paginate_page : Page (paginate page limit total) = Z.min page (page_total total limit).
Proof. unfold paginate; simpl. destruct (Z.gtb_spec page (page_total total limit)); lia. Qed.

Lemma paginate_offset :
  offset (paginate page limit total) = limit * (Page (paginate page limit total) - 1).
Proof.
  destruct H as (Hp & Hl & Ht).
  pose proof (page_total_bounds total limit ltac:(lia) ltac:(lia)).
  pose proof (page_total_nonneg total limit ltac:(lia) ltac:(lia)).
  unfold offset. rewrite paginate_page. simpl.
  rewrite (wrap_id (_ - 1)) by go_lia. apply wrap_id.
  destruct (Z.min_spec page (page_total total limit)) as [[? ->]|[? ->]]; go_nia.
Qed.
End HandlerInputs.

#[export] Hint Rewrite paginate_page paginate_offset using assumption : bookies_rw.

(** On a non-empty table the window is read at a non-negative offset. *)
Lemma fetch_window_ok {A} (page limit : Z) (rows : list A) :
  let t := Z.of_nat (length rows) in
  handler_inputs page limit t -> 1 <= t ->
  fetch_window page limit t rows =
    Ok (paginate page limit t,
        take (Z.to_nat limit)
             (drop (Z.to_nat (limit * (Page (paginate page limit t) - 1))) rows)).
Proof.
  intros t Hadm Ht. pose proof Hadm as (Hp & Hl & Htt).
  pose proof (page_total_pos t limit ltac:(lia) ltac:(lia) Ht).
  unfold fetch_window, limit_offset.
  rewrite paginate_offset by done. rewrite paginate_page by done. simpl.
  destruct (Z.ltb_spec (limit * (Z.min page (page_total t limit) - 1)) 0); [nia|].
  destruct (Z.ltb_spec limit 0); [lia|]. done.
Qed.

(** A successful window is a slice of the rows. *)
Lemma fetch_window_Ok_slice {A} (page limit total : Z) (rows : list A) (m : page_meta) (d : list A) :
  fetch_window page limit total rows = Ok (m, d) ->
  m = paginate page limit total /\ exists n k, d = take n (drop k rows).
Proof.
  unfold fetch_window, limit_offset. intros H. go_cases. eauto.
Qed.

(** On a total of 0 the page is clamped to 0 and the offset is [-limit]. *)
Lemma paginate_zero (page limit : Z) :
  handler_inputs page limit 0 ->
  Page (paginate page limit 0) = 0 /\ offset (paginate page limit 0) = - limit.
Proof.
  intros Hadm. pose proof Hadm as (Hp & Hl & Htt).
  assert (Hpt : page_total 0 limit = 0) by (rewrite page_total_eq by lia; apply Z.div_small; lia).
  assert (Hpg : Page (paginate page limit 0) = 0) by (rewrite paginate_page by done; lia).
  split; [done|]. rewrite paginate_offset, Hpg by done. lia.
Qed.

Lemma fetch_window_zero {A} (page limit : Z) (rows : list A) :
  handler_inputs page limit 0 ->
  fetch_window page limit 0 rows = Err (PgError invalid_row_count_in_result_offset_clause).
Proof.
  intros Hadm. destruct (paginate_zero page limit Hadm) as [_ Ho].
  unfold fetch_window, limit_offset. rewrite Ho.
  destruct (Z.ltb_spec (- limit) 0); [done | destruct Hadm; lia].
Qed.

(** A window holds at most [limit] rows. *)
Lemma fetch_window_Ok_length {A} (page limit total : Z) (rows : list A) (m : page_meta) (d : list A) :
  fetch_window page limit total rows = Ok (m, d) -> (length d <= Z.to_nat limit)%nat.
Proof. unfold fetch_window, limit_offset. intros H. go_cases. rewrite length_take. simpl. lia. Qed.

(** Consecutive windows of width [l] cover a prefix of the rows. *)
Lemma concat_windows {A} (l n : nat) (rows : list A) :
  concat (map (fun j => take l (drop (l * j) rows)) (seq 0 n)) = take (l * n) rows.
Proof.
  induction n as [|n IH]; [by rewrite Nat.mul_0_r|].
  rewrite seq_S, map_app, concat_app, IH. simpl. rewrite app_nil_r.
  rewrite take_take_drop. f_equal. lia.
Qed.

(** ** Properties *)

(** C1. The page total equals the ceiling of record total over limit: the
    float-ceiling branch and the exact-quotient branch of the code together
    compute [ceil(t / l)] for every non-negative total and positive limit.
    This includes a remainder of 1, which adds a page although the comment
    above the test says a page is added only when the remainder is > 1. *)
Theorem page_total_is_ceiling (t l : Z) :
  0 <= t -> 0 < l -> page_total t l = (t + l - 1) / l.
Proof. intros. by apply page_total_eq. Qed.

Lemma page_total_is_ceiling_witness :
  (0 <= 6 /\ 0 < 5) /\ page_total 6 5 = (6 + 5 - 1) / 5 /\ (6 + 5 - 1) / 5 = 2.
Proof. split; [lia|]. split; [apply page_total_is_ceiling; lia | reflexivity]. Defined.

(** C2. For a non-empty table and the inputs the handlers accept, the page
    returned is the requested page clamped to the page total, lies in
    [1, page_total], [prev] is null exactly on page 1 and is [page - 1]
    otherwise, and [next] is null exactly on the last page and is
    [page + 1] otherwise. *)
Theorem paginate_contract (page limit total : Z) :
  handler_inputs page limit total -> 1 <= total ->
  let m := paginate page limit total in
  Page m = Z.min page (PageTotal m) /\
  1 <= Page m <= PageTotal m /\
  (Prev m = None <-> Page m = 1) /\
  (Next m = None <-> Page m = PageTotal m) /\
  (forall p, Prev m = Some p -> p = Page m - 1) /\
  (forall n, Next m = Some n -> n = Page m + 1).
Proof.
  intros Hadm Ht m. pose proof Hadm as (Hp & Hl & Htt).
  pose proof (page_total_pos total limit ltac:(lia) ltac:(lia) Ht).
  pose proof (page_total_le total limit ltac:(lia) ltac:(lia)).
  assert (Hpg : Page m = Z.min page (page_total total limit)) by (by apply paginate_page).
  subst m. unfold paginate in *; simpl in *. rewrite Hpg.
  destruct (Z.gtb_spec page (page_total total limit)) as [Hg|Hg];
    repeat split; intros;
    repeat match goal with
    | H : context [?a <? ?b] |- _ => destruct (Z.ltb_spec a b)
    | |- context [?a <? ?b] => destruct (Z.ltb_spec a b)
    | H : context [?a =? ?b] |- _ => destruct (Z.eqb_spec a b)
    | |- context [?a =? ?b] => destruct (Z.eqb_spec a b)
    end; simplify_eq; try rewrite wrap_id; by go_lia || done.
Qed.

Lemma paginate_contract_witness :
  (handler_inputs 3 5 12 /\ 1 <= 12) /\
  let m := paginate 3 5 12 in
  Page m = Z.min 3 (PageTotal m) /\ 1 <= Page m <= PageTotal m /\
  (Prev m = None <-> Page m = 1) /\ (Next m = None <-> Page m = PageTotal m) /\
  (forall p, Prev m = Some p -> p = Page m - 1) /\
  (forall n, Next m = Some n -> n = Page m + 1).
Proof.
  assert (H : handler_inputs 3 5 12 /\ 1 <= 12) by (repeat split; go_lia).
  split; [exact H|]. apply paginate_contract; apply H.
Defined.

(** C3. On a non-empty table and accepted inputs, the offset sent to the
    store is [limit * (page - 1)] computed without overflow and addresses a
    row of the table, and the window read is that slice of the ordered rows:
    the page returned is never empty. *)
Theorem fetch_window_reads_slice {A} (page limit : Z) (rows : list A) :
  let t := Z.of_nat (length rows) in
  handler_inputs page limit t -> 1 <= t ->
  let m := paginate page limit t in
  offset m = limit * (Page m - 1) /\ 0 <= offset m < t /\
  fetch_window page limit t rows =
    Ok (m, take (Z.to_nat limit) (drop (Z.to_nat (offset m)) rows)) /\
  (0 < length (take (Z.to_nat limit) (drop (Z.to_nat (offset m)) rows)))%nat.
Proof.
  intros t Hadm Ht m. pose proof Hadm as (Hp & Hl & Htt).
  pose proof (page_total_pos t limit ltac:(lia) ltac:(lia) Ht).
  pose proof (page_total_bounds t limit ltac:(lia) ltac:(lia)).
  assert (Ho : offset m = limit * (Page m - 1)) by (by apply paginate_offset).
  assert (Hpg : Page m = Z.min page (page_total t limit)) by (by apply paginate_page).
  assert (0 <= offset m < t).
  { rewrite Ho, Hpg. destruct (Z.min_spec page (page_total t limit)) as [[? ->]|[? ->]]; nia. }
  split; [done|]. split; [done|]. split.
  - rewrite Ho. by apply fetch_window_ok.
  - rewrite length_take, length_drop. lia.
Qed.

Lemma fetch_window_reads_slice_witness :
  (handler_inputs 3 5 (Z.of_nat (length (seq 0 12))) /\ 1 <= Z.of_nat (length (seq 0 12))) /\
  let m := paginate 3 5 12 in
  offset m = 5 * (Page m - 1) /\ 0 <= offset m < 12 /\
  fetch_window 3 5 12 (seq 0 12) = Ok (m, take 5 (drop (Z.to_nat (offset m)) (seq 0 12))) /\
  (0 < length (take 5 (drop (Z.to_nat (offset m)) (seq 0 12))))%nat.
Proof.
  assert (H : handler_inputs 3 5 (Z.of_nat (length (seq 0 12))) /\
              1 <= Z.of_nat (length (seq 0 12))) by (vm_compute; repeat split; congruence).
  split; [exact H|]. exact (fetch_window_reads_slice 3 5 (seq 0 12) (proj1 H) (proj2 H)).
Defined.

(** C4. On an empty table (record total 0) the code clamps the page to the
    page total 0, so the offset becomes [-limit] and PostgreSQL rejects the
    query: listing an empty table fails instead of returning an empty page. *)
Theorem fetch_window_empty_table_fails {A} (page limit : Z) (rows : list A) :
  handler_inputs page limit 0 ->
  Page (paginate page limit 0) = 0 /\ offset (paginate page limit 0) = - limit /\
  fetch_window page limit 0 rows = Err (PgError invalid_row_count_in_result_offset_clause).
Proof.
  intros Hadm. destruct (paginate_zero page limit Hadm) as [Hpg Ho].
  split; [done|]. split; [done|]. by apply fetch_window_zero.
Qed.

Lemma fetch_window_empty_table_fails_witness :
  handler_inputs 1 10 0 /\
  Page (paginate 1 10 0) = 0 /\ offset (paginate 1 10 0) = - 10 /\
  fetch_window 1 10 0 (@nil Z) = Err (PgError invalid_row_count_in_result_offset_clause).
Proof.
  assert (H : handler_inputs 1 10 0) by (repeat split; go_lia).
  split; [exact H|]. exact (fetch_window_empty_table_fails 1 10 [] H).
Defined.

(** C5. Paging through a table visits every row exactly once and in order:
    for an accepted limit, requesting pages 1 to the page total succeeds on
    each page, every page is non-empty and holds at most [limit] rows, and
    their concatenation is the ordered row sequence. *)
Theorem all_pages_partition {A} (limit : Z) (rows : list A) :
  5 <= limit <= 100 -> Z.of_nat (length rows) <= max_int ->
  exists ds, all_pages limit rows = Ok ds /\ concat ds = rows /\
    Z.of_nat (length ds) = page_total (Z.of_nat (length rows)) limit /\
    Forall (fun d => 0 < length d <= Z.to_nat limit)%nat ds.
Proof.
  intros Hl Hmax. set (t := Z.of_nat (length rows)).
  set (n := Z.to_nat (page_total t limit)). set (L := Z.to_nat limit).
  pose proof (page_total_bounds t limit ltac:(lia) ltac:(lia)) as Hb.
  pose proof (page_total_nonneg t limit ltac:(lia) ltac:(lia)).
  pose proof (page_total_le t limit ltac:(lia) ltac:(lia)).
  set (g := fun i : nat => take L (drop (L * (i - 1)) rows)).
  assert (Hall : all_pages limit rows = Ok (map g (seq 1 n))).
  { unfold all_pages. fold t n. rewrite map_map. apply all_ok_map_ext.
    intros i Hi. apply elem_of_seq in Hi. unfold t.
    rewrite fetch_window_ok by (repeat split; go_lia). simpl. unfold g. do 3 f_equal.
    destruct (Z.gtb_spec (Z.of_nat i) (page_total (Z.of_nat (length rows)) limit));
      unfold L, n, t in *; nia. }
  exists (map g (seq 1 n)). split; [done|]. split; [|split].
  - rewrite <- seq_shift, map_map.
    replace (map (fun x => g (S x)) (seq 0 n)) with
      (map (fun j => take L (drop (L * j) rows)) (seq 0 n))
      by (apply map_ext; intros j; unfold g; do 3 f_equal; lia).
    rewrite concat_windows. apply take_ge. unfold L, n, t in *. nia.
  - rewrite length_map, length_seq. lia.
  - apply Forall_map, Forall_forall. intros i Hi%elem_of_seq.
    unfold g. rewrite length_take, length_drop. unfold L, n, t in *. nia.
Qed.

Lemma all_pages_partition_witness :
  (5 <= 5 <= 100 /\ Z.of_nat (length (seq 0 12)) <= max_int) /\
  exists ds, all_pages 5 (seq 0 12) = Ok ds /\ concat ds = seq 0 12 /\
    Z.of_nat (length ds) = page_total (Z.of_nat (length (seq 0 12))) 5 /\
    Forall (fun d => 0 < length d <= Z.to_nat 5)%nat ds.
Proof.
  assert (H : 5 <= 5 <= 100 /\ Z.of_nat (length (seq 0 12)) <= max_int)
    by (vm_compute; repeat split; discriminate).
  split; [exact H|]. exact (all_pages_partition 5 (seq 0 12) (proj1 H) (proj2 H)).
Defined.

End Pagination.
