(* ===== verification/Store.v ===== *)
(** * Store: the PostgreSQL database the models talk to

    The schema is not part of the repository; the spec (section 6) gives it:
    [authors(id, name, email unique, birth_date nullable, bio nullable)] and
    [books(id, title, description nullable, publish_date, author_id
    references authors)], ids drawn from a sequence.  This file holds the
    tables as finite maps keyed by id, the input conversions PostgreSQL
    applies to the text parameters the code sends ([date], [bigint]), the
    order [ORDER BY id DESC], the effect of [ROLLBACK] and the store
    invariant: ids within the sequence, the foreign key and the unique
    email.  The statements each model issues are in [AuthorModel] and
    [BookModel]. *)

From S2P Require Import Prelude GoLib.
From stdpp Require Import sorting.
Import Time.
Open Scope Z_scope.
Open Scope bookies_scope.

Module Store.

Record author_row : Type := mk_author_row {
  ar_name : gstring;
  ar_email : gstring;
  ar_birth_date : option date;
  ar_bio : option gstring
}.

Record book_row : Type := mk_book_row {
  br_title : gstring;
  br_desc : option gstring;
  br_publish_date : date;
  br_author_id : Z
}.

(** The database: both tables and the last value of each id sequence. *)
Record db : Type := mk_db {
  authors : gmap Z author_row;
  books : gmap Z book_row;
  authors_seq : Z;
  books_seq : Z
}.

Definition empty_db : db := mk_db ∅ ∅ 0 0.

(** ** Input conversion of text parameters *)

(** [date_in] on the strings the program sends: the ISO form [YYYY-MM-DD]
    with an unsigned year is read; year 0, a month outside 1..12 or a day
    outside the month is out of range (22008); any other string is taken as
    malformed (22007).  PostgreSQL reads a few more spellings of a date;
    they are only reachable on paths that skip validation. *)
Definition pg_date_in (s : gstring) : result date :=
  match s with
  | [y1; y2; y3; y4; c5; m1; m2; c8; d1; d2] =>
      if forallb is_digit [y1; y2; y3; y4; m1; m2; d1; d2] && (c5 =? 45) && (c8 =? 45) then
        let y := digits_value [y1; y2; y3; y4] in
        let m := digits_value [m1; m2] in
        let d := digits_value [d1; d2] in
        if (y =? 0) || negb ((1 <=? m) && (m <=? 12)) || negb ((1 <=? d) && (d <=? days_in m y))
        then Err (PgError datetime_field_overflow)
        else Ok (mk_date y m d)
      else Err (PgError invalid_datetime_format)
  | _ => Err (PgError invalid_datetime_format)
  end.

(** A nullable date parameter: a nil [*string] is SQL [NULL]. *)
Definition pg_date_opt (o : option gstring) : result (option date) :=
  match o with
  | None => Ok None
  | Some s => d <-? pg_date_in s ;; Ok (Some d)
  end.

(** [int8in] on a text parameter: optional sign and digits; out of the
    64-bit range is 22003, anything else malformed is 22P02. *)
Definition pg_int8_in (s : gstring) : result Z :=
  let '(neg, ds) := Atoi.split_sign s in
  if negb (bool_decide (ds = [])) && forallb is_digit ds then
    let v := if neg then - digits_value ds else digits_value ds in
    if bool_decide (fits_int v) then Ok v else Err (PgError numeric_value_out_of_range)
  else Err (PgError "22P02").

(** ** Statements shared by both tables *)

(** The order of [ORDER BY id DESC] on rows with their id. *)
Definition id_desc {A} : relation (Z * A) := fun x y => y.1 <= x.1.

#[export] Instance id_desc_dec {A} : RelDecision (@id_desc A).
Proof. intros x y. unfold id_desc. apply _. Defined.

(** [ORDER BY id DESC] over a table. *)
Definition desc_by_id {A} (m : gmap Z A) : list (Z * A) :=
  merge_sort id_desc (map_to_list m).

(** [SELECT COUNT(id) FROM books WHERE author_id = a] *)
Definition book_count (st : db) (a : Z) : Z :=
  Z.of_nat (size (filter (fun kv : Z * book_row => br_author_id kv.2 = a) (books st))).

(** Is [email] used by an author other than [except]? *)
Definition email_taken (st : db) (email : gstring) (except : option Z) : bool :=
  existsb (fun kv : Z * author_row =>
             bool_decide (ar_email kv.2 = email) && negb (bool_decide (Some kv.1 = except)))
          (map_to_list (authors st)).

(** [ROLLBACK]: the tables return to their state at [BEGIN]; the values a
    statement drew from a sequence stay drawn. *)
Definition rollback (orig tx : db) : db :=
  mk_db (authors orig) (books orig) (authors_seq tx) (books_seq tx).

(** ** What one write may change *)

(** [st'] differs from [st] at most in the author row [id]; the book
    table is untouched. *)
Definition author_row_only (st st' : db) (id : Z) : Prop :=
  books st' = books st /\ forall i, i <> id -> authors st' !! i = authors st !! i.

(** [st'] differs from [st] at most in the book row [id]; the author
    table is untouched. *)
Definition book_row_only (st st' : db) (id : Z) : Prop :=
  authors st' = authors st /\ forall i, i <> id -> books st' !! i = books st !! i.

(** ** How pgx turns result rows into a Go value or an error *)

(** [pgx.CollectExactlyOneRow] *)
Definition collect_exactly_one {A} (rows : list A) : result A :=
  match rows with
  | [] => Err ErrNoRows
  | [x] => Ok x
  | _ => Err ErrTooManyRows
  end.

(** [tx.QueryRow(...).Scan(...)]: the first row, or [ErrNoRows]. *)
Definition query_row {A} (rows : list A) : result A :=
  match rows with
  | [] => Err ErrNoRows
  | x :: _ => Ok x
  end.

(** ** The store invariant *)

Record wf (st : db) : Prop := {
  wf_author_ids : forall i r, authors st !! i = Some r -> 1 <= i <= authors_seq st;
  wf_book_ids : forall i b, books st !! i = Some b -> 1 <= i <= books_seq st;
  wf_book_author : forall i b, books st !! i = Some b -> is_Some (authors st !! br_author_id b);
  wf_email_unique : forall i j r s, authors st !! i = Some r -> authors st !! j = Some s ->
                    ar_email r = ar_email s -> i = j;
  wf_seq_nonneg : 0 <= authors_seq st /\ 0 <= books_seq st
}.

Lemma wf_empty : wf empty_db.
Proof. split; simpl; intros *; rewrite ?lookup_empty; try discriminate; lia. Qed.

(** ** Lemmas *)

(** The next value of a sequence is a fresh id. *)
Lemma wf_author_fresh (st : db) : wf st -> authors st !! (authors_seq st + 1) = None.
Proof.
  intros Hwf. destruct (authors st !! _) eqn:E; [|done].
  apply (wf_author_ids _ Hwf) in E. lia.
Qed.

Lemma wf_book_fresh (st : db) : wf st -> books st !! (books_seq st + 1) = None.
Proof.
  intros Hwf. destruct (books st !! _) eqn:E; [|done].
  apply (wf_book_ids _ Hwf) in E. lia.
Qed.

(** An author no book refers to has a book count of 0. *)
Lemma book_count_0 (st : db) (a : Z) :
  (forall i b, books st !! i = Some b -> br_author_id b <> a) -> book_count st a = 0.
Proof.
  intros H. unfold book_count.
  rewrite (proj2 (map_empty_filter _ _)); [done|].
  intros i b Hb Heq. by apply (H i b).
Qed.

Lemma email_taken_spec (st : db) (email : gstring) (except : option Z) :
  email_taken st email except = true <->
  exists i r, authors st !! i = Some r /\ ar_email r = email /\ Some i <> except.
Proof.
  unfold email_taken. rewrite existsb_exists. split.
  - intros ([i r] & Hin & Hb). apply andb_true_iff in Hb as [H1 H2].
    apply bool_decide_eq_true in H1. apply negb_true_iff, bool_decide_eq_false in H2.
    exists i, r. split; [|done]. by apply elem_of_map_to_list, list_elem_of_In.
  - intros (i & r & Hl & He & Hne). exists (i, r). split.
    + by apply list_elem_of_In, elem_of_map_to_list.
    + simpl. rewrite bool_decide_eq_true_2 by done. simpl.
      by rewrite bool_decide_eq_false_2.
Qed.

Lemma desc_by_id_sorted {A} (m : gmap Z A) :
  Sorted id_desc (desc_by_id m).
Proof. apply Sorted_merge_sort. intros [x ?] [y ?]; unfold id_desc; simpl; lia. Qed.

Lemma elem_of_desc_by_id {A} (m : gmap Z A) (i : Z) (a : A) :
  (i, a) ∈ desc_by_id m <-> m !! i = Some a.
Proof.
  unfold desc_by_id. rewrite <- elem_of_map_to_list.
  by rewrite (merge_sort_Permutation id_desc (map_to_list m)).
Qed.

Lemma length_desc_by_id {A} (m : gmap Z A) : length (desc_by_id m) = size m.
Proof. unfold desc_by_id. by rewrite merge_sort_Permutation, length_map_to_list. Qed.

Lemma book_count_0_iff (st : db) (a : Z) :
  book_count st a = 0 <-> forall i b, books st !! i = Some b -> br_author_id b <> a.
Proof.
  split; [|apply book_count_0]. unfold book_count. intros H i b Hb Heq.
  assert (Hs : size (filter (fun kv : Z * book_row => br_author_id kv.2 = a) (books st)) = 0%nat) by lia.
  apply map_size_empty_iff in Hs.
  by apply (map_filter_empty_not_lookup _ _ i b Hs).
Qed.

(** An email that is not taken is used at most by the excepted id. *)
Lemma email_taken_false (st : db) (email : gstring) (except : option Z) (j : Z) (r : author_row) :
  email_taken st email except = false -> authors st !! j = Some r -> ar_email r = email ->
  Some j = except.
Proof.
  intros Hfree Hj He. destruct (decide (Some j = except)) as [|Hne]; [done|].
  exfalso. apply not_true_iff_false in Hfree. apply Hfree, email_taken_spec. eauto.
Qed.

(** ** The store invariant under each kind of write *)

Section WfWrites.
Context (st : db) (Hwf : wf st).

Lemma wf_bump_authors_seq : wf (mk_db (authors st) (books st) (authors_seq st + 1) (books_seq st)).
Proof.
destruct Hwf. split; simpl; try done; [|lia].
intros i r H. specialize (wf_author_ids0 i r H). lia.
Qed.

Lemma wf_bump_books_seq : wf (mk_db (authors st) (books st) (authors_seq st) (books_seq st + 1)).
Proof.
destruct Hwf. split; simpl; try done; [|lia].
intros i b H. specialize (wf_book_ids0 i b H). lia.
Qed.

Lemma wf_add_author (r : author_row) :
  email_taken st (ar_email r) None = false ->
  wf (mk_db (<[authors_seq st + 1 := r]> (authors st)) (books st) (authors_seq st + 1) (books_seq st)).
Proof.
intros Hfree. pose proof (wf_author_fresh st Hwf) as Hfresh.
destruct Hwf as [Ha Hb Hfk Hu Hs]. split; simpl; [| done | | | lia].
- intros i r' H. rewrite lookup_insert in H. case_decide; [lia|].
  specialize (Ha i r' H). lia.
- intros i b H. destruct (Hfk i b H) as [x Hx].
  rewrite lookup_insert. case_decide; eauto.
- intros i j r1 r2 H1 H2 He. rewrite lookup_insert in H1, H2.
  destruct (decide (authors_seq st + 1 = i)), (decide (authors_seq st + 1 = j));
    simplify_eq; try done.
  + by pose proof (email_taken_false _ _ _ _ _ Hfree H2 (eq_sym He)).
  + by pose proof (email_taken_false _ _ _ _ _ Hfree H1 He).
  + by apply (Hu i j r1 r2).
Qed.

Lemma wf_replace_author (id : Z) (r : author_row) :
  is_Some (authors st !! id) -> email_taken st (ar_email r) (Some id) = false ->
  wf (mk_db (<[id := r]> (authors st)) (books st) (authors_seq st) (books_seq st)).
Proof.
intros [old Hold] Hfree.
destruct Hwf as [Ha Hb Hfk Hu Hs]. split; simpl; [| done | | | lia].
- intros i r' H. rewrite lookup_insert in H. case_decide; simplify_eq; eauto.
- intros i b H. destruct (Hfk i b H) as [x Hx].
  rewrite lookup_insert. case_decide; eauto.
- intros i j r1 r2 H1 H2 He. rewrite lookup_insert in H1, H2.
  destruct (decide (id = i)), (decide (id = j)); simplify_eq; try done.
  + pose proof (email_taken_false _ _ _ _ _ Hfree H2 (eq_sym He)). congruence.
  + pose proof (email_taken_false _ _ _ _ _ Hfree H1 He). congruence.
  + by apply (Hu i j r1 r2).
Qed.

Lemma wf_remove_author (id : Z) :
  book_count st id = 0 ->
  wf (mk_db (delete id (authors st)) (books st) (authors_seq st) (books_seq st)).
Proof.
intros Hc. rewrite book_count_0_iff in Hc. destruct Hwf as [Ha Hb Hfk Hu Hs].
split; simpl; [| done | | | lia].
- intros i r H. rewrite lookup_delete in H. case_decide; [done|]. eauto.
- intros i b H. rewrite lookup_delete. case_decide; [|eauto]. exfalso. by apply (Hc i b).
- intros i j r1 r2 H1 H2. rewrite lookup_delete in H1, H2.
  repeat case_decide; try done. eauto.
Qed.

Lemma wf_rollback (tx : db) :
  authors_seq st <= authors_seq tx -> books_seq st <= books_seq tx -> wf (rollback st tx).
Proof.
intros H1 H2. destruct Hwf as [Ha Hb Hfk Hu Hs]. unfold rollback.
split; simpl; [| | done | done | lia].
- intros i r H. specialize (Ha i r H). lia.
- intros i b H. specialize (Hb i b H). lia.
Qed.
Lemma wf_add_book (b : book_row) :
  is_Some (authors st !! br_author_id b) ->
  wf (mk_db (authors st) (<[books_seq st + 1 := b]> (books st)) (authors_seq st) (books_seq st + 1)).
Proof.
intros Ha. destruct Hwf as [Hai Hbi Hfk Hu Hs]. split; simpl; [done | | | done | lia].
- intros i b' H. rewrite lookup_insert in H. case_decide; [lia|].
  specialize (Hbi i b' H). lia.
- intros i b' H. rewrite lookup_insert in H. case_decide; simplify_eq; eauto.
Qed.

Lemma wf_replace_book (id : Z) (b : book_row) :
  is_Some (books st !! id) -> is_Some (authors st !! br_author_id b) ->
  wf (mk_db (authors st) (<[id := b]> (books st)) (authors_seq st) (books_seq st)).
Proof.
intros [old Hold] Ha. destruct Hwf as [Hai Hbi Hfk Hu Hs]. split; simpl; [done | | | done | lia].
- intros i b' H. rewrite lookup_insert in H. case_decide; simplify_eq; eauto.
- intros i b' H. rewrite lookup_insert in H. case_decide; simplify_eq; eauto.
Qed.

Lemma wf_remove_book (id : Z) :
  wf (mk_db (authors st) (delete id (books st)) (authors_seq st) (books_seq st)).
Proof.
destruct Hwf as [Hai Hbi Hfk Hu Hs]. split; simpl; [done | | | done | lia].
- intros i b H. rewrite lookup_delete in H. case_decide; [done|]. eauto.
- intros i b H. rewrite lookup_delete in H. case_decide; [done|]. eauto.
Qed.
End WfWrites.

(** [ORDER BY id DESC] on a table lists distinct ids strictly descending. *)
Lemma desc_by_id_strict {A} (m : gmap Z A) :
  StronglySorted (fun x y : Z * A => y.1 < x.1) (desc_by_id m).
Proof.
  apply StronglySorted_strict.
  - apply Sorted_StronglySorted; [|apply desc_by_id_sorted].
    intros [x ?] [y ?] [z ?]; unfold id_desc; simpl; lia.
  - unfold desc_by_id. rewrite (merge_sort_Permutation id_desc (map_to_list m)).
    apply NoDup_fst_map_to_list.
Qed.

(** Adding a book under a fresh id counts it for its author only. *)
Lemma book_count_add (st : db) (A : gmap Z author_row) (s1 s2 id : Z) (b : book_row) (a : Z) :
  books st !! id = None ->
  book_count (mk_db A (<[id := b]> (books st)) s1 s2) a =
    book_count st a + (if bool_decide (br_author_id b = a) then 1 else 0).
Proof.
  intros Hn. unfold book_count; simpl. rewrite map_filter_insert. simpl.
  case_decide; case_bool_decide; try done.
  - rewrite map_size_insert_None; [lia|]. rewrite map_lookup_filter_None. by left.
  - rewrite delete_id; [lia|done].
Qed.

(** Replacing a book moves it from its old author's count to its new one's. *)
Lemma book_count_replace (st : db) (A : gmap Z author_row) (s1 s2 id : Z) (old b : book_row) (a : Z) :
  books st !! id = Some old ->
  book_count (mk_db A (<[id := b]> (books st)) s1 s2) a + (if bool_decide (br_author_id old = a) then 1 else 0) =
    book_count st a + (if bool_decide (br_author_id b = a) then 1 else 0).
Proof.
  intros Hold. set (st0 := mk_db A (delete id (books st)) s1 s2).
  assert (Hn : books st0 !! id = None) by apply lookup_delete_eq.
  assert (E1 : <[id := b]> (books st) = <[id := b]> (books st0)) by (symmetry; apply insert_delete_eq).
  assert (E2 : book_count st a = book_count (mk_db A (<[id := old]> (books st0)) s1 s2) a).
  { unfold book_count. simpl. by rewrite insert_delete_eq, insert_id. }
  rewrite E1, E2, !(book_count_add st0) by done. lia.
Qed.

(** A rollback to the same state is the identity. *)
Lemma rollback_self (st : db) : rollback st st = st.
Proof. by destruct st. Qed.

Lemma wf_rollback_self (st : db) : wf st -> wf (rollback st st).
Proof. by rewrite rollback_self. Qed.

#[export] Hint Resolve wf_rollback_self wf_bump_authors_seq wf_bump_books_seq : bookies.

(** The date conversion fails only with one of its two SQLSTATEs. *)
Lemma pg_date_in_Err (s : gstring) (e : goerr) :
  pg_date_in s = Err e ->
  e = PgError invalid_datetime_format \/ e = PgError datetime_field_overflow.
Proof. unfold pg_date_in. intros H. go_cases; auto. Qed.

(** The integer conversion fails only with one of its two SQLSTATEs. *)
Lemma pg_int8_in_Err (s : gstring) (e : goerr) :
  pg_int8_in s = Err e -> e = PgError numeric_value_out_of_range \/ e = PgError "22P02".
Proof. unfold pg_int8_in. destruct (Atoi.split_sign s). intros H. go_cases; auto. Qed.

Lemma pg_date_opt_Err (o : option gstring) (e : goerr) :
  pg_date_opt o = Err e ->
  e = PgError invalid_datetime_format \/ e = PgError datetime_field_overflow.
Proof.
  destruct o as [s|]; simpl; [|done]. destruct (pg_date_in s) eqn:E; simpl; [done|].
  intros [= <-]. by apply pg_date_in_Err with s.
Qed.
#[export] Hint Rewrite rollback_self : bookies_rw.

(** ** Dates through the store *)

Lemma pad4_digits (y1 y2 y3 y4 : Z) :
  forallb is_digit [y1; y2; y3; y4] = true ->
  pad4 (digits_value [y1; y2; y3; y4]) = [y1; y2; y3; y4].
Proof.
  intros H. simpl in H. rewrite !andb_true_iff in H.
  destruct H as (H1%digit_bounds & H2%digit_bounds & H3%digit_bounds & H4%digit_bounds & _).
  unfold pad4, digits_value; simpl. f_equal; [|f_equal; [|f_equal; [|f_equal]]];
    Z.to_euclidean_division_equations; lia.
Qed.

Lemma pad2_digits (m1 m2 : Z) :
  is_digit m1 = true -> is_digit m2 = true -> pad2 (digits_value [m1; m2]) = [m1; m2].
Proof.
  intros H1%digit_bounds H2%digit_bounds. unfold pad2, digits_value; simpl.
  f_equal; [|f_equal]; Z.to_euclidean_division_equations; lia.
Qed.

(** A date [time.Parse] reads and PostgreSQL accepts is the same date for
    both, and prints back (the JSON of a [pgtype.Date]) as the string. *)
Lemma date_roundtrip (s : gstring) (d d' : date) :
  parse_date s = Some d -> pg_date_in s = Ok d' -> d' = d /\ format_date d = s.
Proof.
  intros Hp Hpg.
  destruct s as [|y1 [|y2 [|y3 [|y4 [|c5 [|m1 [|m2 [|c8 [|d1 [|d2 [|? ?]]]]]]]]]]]; try discriminate.
  unfold parse_date, parse_year in Hp. unfold pg_date_in in Hpg.
  go_cases; bool_facts; split; try reflexivity.
  all: unfold format_date; cbn [year month day].
  all: unfold is_digit in *; bool_facts.
  all: rewrite pad4_digits, !pad2_digits
         by (unfold is_digit; simpl; repeat (apply andb_true_iff; split); try reflexivity;
             apply Z.leb_le; lia).
  all: subst; reflexivity.
Qed.

End Store.
