(* ===== verification/Validation.v ===== *)
(** * Validation: the binding rules of the payloads and their messages

    gin validates a bound struct with go-playground/validator: the fields
    in declaration order, each field's tags in order, stopping at the first
    tag that fails and recording one [FieldError] for it; [omitempty]
    ends a field's checks when the field has no value ([hasValue]: an
    empty string has none, a nil pointer has none, a pointer to an empty
    string has one).  The tags are the
    [binding:"..."] strings of src/pkg/models/author.go and book.go; the
    custom [validname] rule is src/pkg/validators/validname.go; the
    messages are [ParseValidationError] of src/pkg/utilities/error.go.

    The Unicode letter class [\p{L}] of Go's regexp and the syntax the
    validator's [email] rule accepts are library data; the development
    states them as the interface [CharClasses], whose one law is the fact
    the properties need: no ASCII digit is a letter. *)

From S2P Require Import Prelude GoLib.
From stdpp Require Import pretty.
Import Time.
Open Scope Z_scope.
Open Scope bookies_scope.

Module Validation.

(** ** The library classes the rules consult *)

Class CharClasses : Type := {
  is_letter : Z -> bool;
  is_email : gstring -> bool;
  digit_not_letter : forall c, is_digit c = true -> is_letter c = false
}.

(** An instance for concrete inputs: [\p{L}] below U+0100 (ASCII and
    Latin-1 letters), and a crude email syntax (one [@], non-empty parts). *)
Definition latin1_letter (c : Z) : bool :=
  ((65 <=? c) && (c <=? 90)) || ((97 <=? c) && (c <=? 122)) ||
  (c =? 170) || (c =? 181) || (c =? 186) ||
  ((192 <=? c) && (c <=? 255) && negb (c =? 215) && negb (c =? 247)).

Definition simple_email (s : gstring) : bool :=
  match list_find (fun c => c = 64) s with
  | Some (i, _) => negb (i =? 0)%nat && negb (bool_decide (drop (S i) s = []))
                   && negb (existsb (fun c => c =? 64) (drop (S i) s))
  | None => false
  end.

Lemma latin1_digit_not_letter (c : Z) : is_digit c = true -> latin1_letter c = false.
Proof.
  unfold is_digit. intros [H1%Z.leb_le H2%Z.leb_le]%andb_true_iff.
  assert (c = 48 \/ c = 49 \/ c = 50 \/ c = 51 \/ c = 52 \/ c = 53 \/ c = 54 \/ c = 55 \/
          c = 56 \/ c = 57) as Hc by lia.
  repeat destruct Hc as [->|Hc]; [reflexivity ..|]. by subst.
Qed.

#[export] Instance latin1_classes : CharClasses :=
  {| is_letter := latin1_letter; is_email := simple_email;
     digit_not_letter := latin1_digit_not_letter |}.

Section Rules.
Context `{CharClasses}.

(** [ValidName]: [^[\p{L} \.'\-]+$] *)
Definition name_char (c : Z) : bool :=
  is_letter c || (c =? 32) || (c =? 46) || (c =? 39) || (c =? 45).

Definition ValidName (s : gstring) : bool :=
  negb (bool_decide (s = [])) && forallb name_char s.

(** The tags of a [binding] string. *)
Inductive rule : Type :=
| Required | OmitEmpty | ValidNameTag | Gte (n : Z) | Lte (n : Z)
| EmailTag | Datetime | Number.

(** A [validator.FieldError]: field name, tag, parameter and value. *)
Record FieldError : Type := mk_fe {
  fe_field : string;
  fe_tag : string;
  fe_param : string;
  fe_value : gstring
}.

Definition tag_of (r : rule) : string * string :=
  match r with
  | Required => ("required", "")
  | OmitEmpty => ("omitempty", "")
  | ValidNameTag => ("validname", "")
  | Gte n => ("gte", pretty (Z.to_N n))
  | Lte n => ("lte", pretty (Z.to_N n))
  | EmailTag => ("email", "")
  | Datetime => ("datetime", "2006-01-02")
  | Number => ("number", "")
  end.

(** Does a non-empty string value pass a tag?  On strings [gte]/[lte]
    bound the rune count; [number] is [^[0-9]+$]; [datetime] is
    [time.Parse] with the layout. *)
Definition rule_ok (r : rule) (s : gstring) : bool :=
  match r with
  | Required => negb (bool_decide (s = []))
  | OmitEmpty => true
  | ValidNameTag => ValidName s
  | Gte n => n <=? Z.of_nat (length s)
  | Lte n => Z.of_nat (length s) <=? n
  | EmailTag => is_email s
  | Datetime => bool_decide (is_Some (parse_date s))
  | Number => negb (bool_decide (s = [])) && forallb is_digit s
  end.

(** The value of a field: a [string], or a [*string] ([None] for nil). *)
Inductive field_value : Type :=
| FStr (s : gstring)
| FPtr (p : option gstring).

(** The validator's [hasValue], which [omitempty] consults: a string has a
    value when it is not empty, a pointer when it is not nil (the string
    it points to may be empty). *)
Definition hasValue (v : field_value) : bool :=
  match v with
  | FStr s => negb (bool_decide (s = []))
  | FPtr p => bool_decide (is_Some p)
  end.

(** One field's tags in order over the string the field holds: an
    [omitempty] tag ends the checks when the field has no value, the
    first failing tag is the field's error. *)
Fixpoint check_rules (field : string) (rules : list rule) (has : bool) (s : gstring)
    : list FieldError :=
  match rules with
  | [] => []
  | OmitEmpty :: rs => if has then check_rules field rs has s else []
  | r :: rs => if rule_ok r s then check_rules field rs has s
               else [mk_fe field (tag_of r).1 (tag_of r).2 s]
  end.

(** A field: a nil pointer ends at an [omitempty] and fails on any other
    first tag; otherwise the tags run on the string held or pointed to. *)
Definition check_field (field : string) (rules : list rule) (v : field_value) : list FieldError :=
  match v with
  | FStr s => check_rules field rules (hasValue v) s
  | FPtr (Some s) => check_rules field rules (hasValue v) s
  | FPtr None =>
      match rules with
      | [] | OmitEmpty :: _ => []
      | r :: _ => [mk_fe field (tag_of r).1 (tag_of r).2 []]
      end
  end.

(** A field binds without error exactly when its value passes every tag,
    [omitempty] excusing a field without value. *)
Fixpoint rules_pass (rules : list rule) (has : bool) (s : gstring) : Prop :=
  match rules with
  | [] => True
  | OmitEmpty :: rs => has = false \/ rules_pass rs has s
  | r :: rs => rule_ok r s = true /\ rules_pass rs has s
  end.

Lemma check_rules_nil (field : string) (rules : list rule) (has : bool) (s : gstring) :
  check_rules field rules has s = [] <-> rules_pass rules has s.
Proof.
  induction rules as [|r rs IH]; simpl; [done|].
  destruct r; cbn [check_rules rules_pass];
    [destruct (rule_ok _ s) | destruct has | destruct (rule_ok _ s) .. ];
    rewrite ?IH; intuition congruence.
Qed.

End Rules.

(** Turning the boolean tests of the rules into propositions. *)
Ltac rule_simpl :=
  repeat (rewrite ?andb_true_iff, ?negb_true_iff, ?Z.leb_le, ?bool_decide_eq_false,
                  ?bool_decide_eq_true in *).

(** [ValidationErrorMsg] *)
Record ValidationErrorMsg : Type := mk_msg {
  Field : string;
  Message : string;
  Value : gstring
}.

(** [ParseValidationError]: one message per field error, in order. *)
Definition message_of (fe : FieldError) : string :=
  match fe_tag fe with
  | "required" => fe_field fe +:+ " is required"
  | "email" => "invalid email format"
  | "validname" => "invalid name (digit is not allowed)"
  | "gte" => "value must be greater or equal than " +:+ fe_param fe
  | "lte" => "value must be less or equal than " +:+ fe_param fe
  | "datetime" => "datetime format must be " +:+ fe_param fe
  | "number" => "only accept positive number"
  | _ => "invalid value"
  end%string.

Definition ParseValidationError (errs : list FieldError) : list ValidationErrorMsg :=
  map (fun fe => mk_msg (fe_field fe) (message_of fe) (fe_value fe)) errs.

End Validation.
