(* ===== verification/AuthorModel.v ===== *)
(** * AuthorModel: the author data access layer (src/pkg/models/author.go)

    The Go structs [AuthorBaseModel] and [AuthorDBModel], the effect of
    each SQL statement of the file on the [Store.db], and the five methods
    [Insert], [Detail], [Update], [Delete] and [Fetch] as the code composes
    them: the writes run in a transaction that is committed by the deferred
    [tx.Commit] or discarded by [tx.Rollback] on an error.  Every method
    returns the new database and either the value the method leaves in its
    receiver or the error it returns. *)

From S2P Require Import Prelude GoLib Pagination Store Validation.
Import Time Store Pagination Validation.
Open Scope Z_scope.
Open Scope bookies_scope.

Module AuthorModel.

(** [AuthorBaseModel]: the payload of POST and PUT. *)
Module Base.
Record AuthorBaseModel : Type := mk {
  Name : gstring;
  Email : gstring;
  BirthDate : option gstring;
  Bio : option gstring
}.
End Base.
Import Base.

(** [AuthorDBModel]: a row of the detail and list queries. *)
Module DB.
Record AuthorDBModel : Type := mk {
  ID : Z;
  Name : gstring;
  Email : gstring;
  BirthDate : option date;
  Bio : option gstring;
  BookTotal : Z
}.
End DB.
Import DB.

(** [new(models.AuthorDBModel)] *)
Definition zero_author : AuthorDBModel := DB.mk 0 [] [] None None 0.

(** [FetchAuthorDBModel]: the page metadata and the rows. *)
Record FetchAuthorDBModel : Type := mk_fetch {
  meta : page_meta;
  Data : list AuthorDBModel
}.

(** ** Binding rules *)

(** [IdentifierURI]: [binding:"required,number,gte=1"] on the [:id] segment. *)
Definition validate_uri (id : gstring) : list FieldError :=
  check_field "ID" [Required; Number; Gte 1] (FStr id).

(** The [binding] tags of [AuthorBaseModel], field by field. *)
Definition validate_author_base `{CharClasses} (a : AuthorBaseModel) : list FieldError :=
  check_field "Name" [Required; ValidNameTag; Gte 3; Lte 65] (FStr (Base.Name a)) ++
  check_field "Email" [Required; EmailTag] (FStr (Base.Email a)) ++
  check_field "BirthDate" [OmitEmpty; Datetime] (FPtr (Base.BirthDate a)).

(** ** The statements *)

(** A row of [authors] with its [COUNT(b.id) AS book_total]. *)
Definition author_view (st : db) (id : Z) (r : author_row) : AuthorDBModel :=
  DB.mk id (ar_name r) (ar_email r) (ar_birth_date r) (ar_bio r) (book_count st id).

(** [INSERT INTO authors ... RETURNING ...]: the parameters are converted,
    [nextval] draws the id, then the unique email is checked. *)
Definition sql_insert (st : db) (a : AuthorBaseModel) : db * result (Z * author_row) :=
  match pg_date_opt (Base.BirthDate a) with
  | Err e => (st, Err e)
  | Ok bd =>
      let id := authors_seq st + 1 in
      if email_taken st (Base.Email a) None then
        (mk_db (authors st) (books st) id (books_seq st), Err (PgError unique_violation))
      else
        let r := mk_author_row (Base.Name a) (Base.Email a) bd (Base.Bio a) in
        (mk_db (<[id := r]> (authors st)) (books st) id (books_seq st), Ok (id, r))
  end.

(** [SELECT ... FROM authors a LEFT JOIN books b ... WHERE a.id = @id GROUP BY a.id] *)
Definition sql_detail (st : db) (id : Z) : list AuthorDBModel :=
  match authors st !! id with
  | Some r => [author_view st id r]
  | None => []
  end.

(** [UPDATE authors SET ... WHERE id = @id RETURNING ...]: the rows
    returned (none when the id is absent). *)
Definition sql_update (st : db) (id : Z) (a : AuthorBaseModel) : db * result (list author_row) :=
  match pg_date_opt (Base.BirthDate a) with
  | Err e => (st, Err e)
  | Ok bd =>
      match authors st !! id with
      | None => (st, Ok [])
      | Some _ =>
          if email_taken st (Base.Email a) (Some id) then (st, Err (PgError unique_violation))
          else
            let r := mk_author_row (Base.Name a) (Base.Email a) bd (Base.Bio a) in
            (mk_db (<[id := r]> (authors st)) (books st) (authors_seq st) (books_seq st), Ok [r])
      end
  end.

(** [DELETE FROM authors WHERE id = $1]: the rows affected; the foreign key
    of [books] refuses to delete an author that still has books. *)
Definition sql_delete (st : db) (id : Z) : db * result Z :=
  match authors st !! id with
  | None => (st, Ok 0)
  | Some _ =>
      if bool_decide (book_count st id = 0) then
        (mk_db (delete id (authors st)) (books st) (authors_seq st) (books_seq st), Ok 1)
      else (st, Err (PgError foreign_key_violation))
  end.

(** [SELECT COUNT(id) AS total FROM authors] *)
Definition sql_count (st : db) : Z := Z.of_nat (size (authors st)).

(** The list query before [LIMIT/OFFSET]: every author, id descending. *)
Definition sql_list (st : db) : list AuthorDBModel :=
  map (fun kv => author_view st kv.1 kv.2) (desc_by_id (authors st)).

(** ** The methods *)

(** method [Insert] of [*AuthorDBModel]: on success the receiver gets the returned
    columns; its [BookTotal] is not scanned. *)
Definition Insert (st : db) (m : AuthorDBModel) (author : AuthorBaseModel)
    : db * result AuthorDBModel :=
  let '(tx, r) := sql_insert st author in
  match r with
  | Err e => (rollback st tx, Err e)
  | Ok (id, row) =>
      (tx, Ok (DB.mk id (ar_name row) (ar_email row) (ar_birth_date row) (ar_bio row)
                     (BookTotal m)))
  end.

(** method [Detail] of [*AuthorDBModel]: reads outside any transaction. *)
Definition Detail (st : db) (m : AuthorDBModel) : result AuthorDBModel :=
  collect_exactly_one (sql_detail st (ID m)).

(** method [Update] of [*AuthorDBModel] *)
Definition Update (st : db) (m : AuthorDBModel) (data : AuthorBaseModel)
    : db * result AuthorDBModel :=
  let '(tx, r) := sql_update st (ID m) data in
  match bind r query_row with
  | Err e => (rollback st tx, Err e)
  | Ok row =>
      (tx, Ok (DB.mk (ID m) (ar_name row) (ar_email row) (ar_birth_date row) (ar_bio row)
                     (BookTotal m)))
  end.

(** method [Delete] of [*AuthorDBModel]: more than one affected row is refused. *)
Definition Delete (st : db) (m : AuthorDBModel) : db * result unit :=
  let '(tx, r) := sql_delete st (ID m) in
  match r with
  | Err e => (rollback st tx, Err e)
  | Ok n => if n >? 1 then (rollback st tx, Err ErrTooManyAffectedRows) else (tx, Ok tt)
  end.

(** method [Fetch] of [*FetchAuthorDBModel] with the receiver's [Page] and [Limit]. *)
Definition Fetch (st : db) (page limit : Z) : result FetchAuthorDBModel :=
  mw <-? fetch_window page limit (sql_count st) (sql_list st) ;;
  Ok (mk_fetch mw.1 mw.2).

(** ** Lemmas *)

Lemma Insert_wf (st : db) (m : AuthorDBModel) (a : AuthorBaseModel) :
  wf st -> wf (Insert st m a).1.
Proof.
  intros Hwf. unfold Insert, sql_insert.
  destruct (pg_date_opt (Base.BirthDate a)) as [bd|e]; simpl; [|by auto with bookies].
  destruct (email_taken st (Base.Email a) None) eqn:Ht; simpl.
  - apply wf_rollback; [done|simpl; lia|simpl; lia].
  - by apply wf_add_author.
Qed.

Lemma Update_wf (st : db) (m : AuthorDBModel) (a : AuthorBaseModel) :
  wf st -> wf (Update st m a).1.
Proof.
  intros Hwf. unfold Update, sql_update.
  destruct (pg_date_opt (Base.BirthDate a)) as [bd|e]; simpl; [|by auto with bookies].
  destruct (authors st !! ID m) eqn:Hl; simpl; [|by auto with bookies].
  destruct (email_taken st (Base.Email a) (Some (ID m))) eqn:Ht; simpl; [by auto with bookies|].
  apply wf_replace_author; [done | by eexists | done].
Qed.

Lemma Delete_wf (st : db) (m : AuthorDBModel) : wf st -> wf (Delete st m).1.
Proof.
  intros Hwf. unfold Delete. case_match. unfold sql_delete in *. go_cases;
    first [done | by auto with bookies | apply wf_remove_author; first [done | by eapply bool_decide_eq_true_1]
          | apply wf_rollback; simpl; [done|lia|lia]].
Qed.

(** The writes of this file leave the book table and, on an error, the
    author table as they were. *)
Lemma author_writes_books (st : db) (m : AuthorDBModel) (a : AuthorBaseModel) :
  books (Insert st m a).1 = books st /\ books (Update st m a).1 = books st /\
  books (Delete st m).1 = books st.
Proof.
  unfold Insert, Update, Delete.
  repeat split; case_match; unfold sql_insert, sql_update, sql_delete in *; go_cases; done.
Qed.

(** A successful insert: the converted birth date, a free email, the row
    stored under the next id of the sequence, and the record returned. *)
Lemma author_Insert_Ok_inv (st st' : db) (m x : AuthorDBModel) (a : AuthorBaseModel) :
  Insert st m a = (st', Ok x) ->
  exists bd, pg_date_opt (Base.BirthDate a) = Ok bd /\ email_taken st (Base.Email a) None = false /\
    st' = mk_db (<[authors_seq st + 1 := mk_author_row (Base.Name a) (Base.Email a) bd (Base.Bio a)]>
                 (authors st)) (books st) (authors_seq st + 1) (books_seq st) /\
    x = DB.mk (authors_seq st + 1) (Base.Name a) (Base.Email a) bd (Base.Bio a) (BookTotal m).
Proof. unfold Insert, sql_insert. intros H. go_cases. eauto. Qed.

(** [Detail] reads only the receiver's [ID]. *)
Lemma Detail_by_ID (st : db) (m1 m2 : AuthorDBModel) : ID m1 = ID m2 -> Detail st m1 = Detail st m2.
Proof. unfold Detail. by intros ->. Qed.

(** An author just inserted into a well-formed store reads back as the
    record the insert returned. *)
Lemma Insert_Detail_Ok (st st' : db) (a : AuthorBaseModel) (m : AuthorDBModel) :
  wf st -> Insert st zero_author a = (st', Ok m) -> Detail st' m = Ok m.
Proof.
  intros Hwf (bd & _ & _ & -> & ->)%author_Insert_Ok_inv.
  unfold Detail, sql_detail, author_view; simpl.
  rewrite lookup_insert_eq. simpl. rewrite book_count_0; [done|].
  intros i b Hb Heq. destruct (wf_book_author _ Hwf i b Hb) as [x Hx].
  rewrite Heq, wf_author_fresh in Hx by done. congruence.
Qed.

(** A successful delete leaves no author under the receiver's id. *)
Lemma Delete_Ok_absent (st st' : db) (m : AuthorDBModel) :
  Delete st m = (st', Ok tt) -> authors st' !! ID m = None.
Proof.
  unfold Delete, sql_delete.
  destruct (authors st !! ID m) eqn:Hl; simpl.
  - case_bool_decide; simpl; [|done]. intros [= <-]. simpl. by rewrite lookup_delete_eq.
  - by intros [= <-].
Qed.

(** A successful update: the converted birth date, the row present, the
    email free but for the row itself, the row replaced. *)
Lemma author_Update_Ok_inv (st st' : db) (m x : AuthorDBModel) (d : AuthorBaseModel) :
  Update st m d = (st', Ok x) ->
  exists bd r, pg_date_opt (Base.BirthDate d) = Ok bd /\ authors st !! ID m = Some r /\
    email_taken st (Base.Email d) (Some (ID m)) = false /\
    st' = mk_db (<[ID m := mk_author_row (Base.Name d) (Base.Email d) bd (Base.Bio d)]> (authors st))
                (books st) (authors_seq st) (books_seq st) /\
    x = DB.mk (ID m) (Base.Name d) (Base.Email d) bd (Base.Bio d) (BookTotal m).
Proof. unfold Update. intros H. case_match. unfold sql_update in *. go_cases. eauto 10. Qed.

(** A successful delete removed the row, or there was none. *)
Lemma author_Delete_Ok_inv (st st' : db) (m : AuthorDBModel) :
  Delete st m = (st', Ok tt) ->
  (authors st !! ID m = None /\ st' = st) \/
  (exists r, authors st !! ID m = Some r /\
     st' = mk_db (delete (ID m) (authors st)) (books st) (authors_seq st) (books_seq st)).
Proof. unfold Delete. intros H. case_match. unfold sql_delete in *. go_cases; eauto. Qed.

(** The author writes are all-or-nothing: when [Insert], [Update] or
    [Delete] returns an error, the author table is exactly as before (only
    a sequence value an insert drew stays drawn). *)
Lemma author_write_errors_atomic (st : db) (m : AuthorDBModel) (a : AuthorBaseModel) (e : goerr) :
  ((Insert st m a).2 = Err e -> authors (Insert st m a).1 = authors st) /\
  ((Update st m a).2 = Err e -> authors (Update st m a).1 = authors st) /\
  ((Delete st m).2 = Err e -> authors (Delete st m).1 = authors st).
Proof.
  unfold Insert, Update, Delete.
  repeat split; case_match; unfold sql_insert, sql_update, sql_delete in *; go_cases; done.
Qed.

(** The row each write may change: the id an insert draws, the
    receiver's id for an update or a delete. *)
Lemma author_writes_rows (st : db) (m : AuthorDBModel) (a : AuthorBaseModel) (i : Z) :
  (i <> authors_seq st + 1 -> authors (Insert st m a).1 !! i = authors st !! i) /\
  (i <> ID m -> authors (Update st m a).1 !! i = authors st !! i) /\
  (i <> ID m -> authors (Delete st m).1 !! i = authors st !! i).
Proof.
  unfold Insert, Update, Delete.
  repeat split; intros Hi; case_match; unfold sql_insert, sql_update, sql_delete in *; go_cases;
    rewrite ?lookup_insert_ne, ?lookup_delete_ne by congruence; done.
Qed.

Lemma Insert_row_only (st : db) (m : AuthorDBModel) (a : AuthorBaseModel) :
  author_row_only st (Insert st m a).1 (authors_seq st + 1).
Proof. split; [apply author_writes_books|]. intros i Hi. by apply (author_writes_rows st m a i). Qed.

Lemma Update_row_only (st : db) (m : AuthorDBModel) (a : AuthorBaseModel) :
  author_row_only st (Update st m a).1 (ID m).
Proof. split; [apply author_writes_books|]. intros i Hi. by apply (author_writes_rows st m a i). Qed.

Lemma Delete_row_only (st : db) (m : AuthorDBModel) :
  author_row_only st (Delete st m).1 (ID m).
Proof.
  split; [apply (author_writes_books st m (Base.mk [] [] None None))|].
  intros i Hi. by apply (author_writes_rows st m (Base.mk [] [] None None) i).
Qed.

(** A concrete payload, for the witnesses. *)
Definition ann : AuthorBaseModel :=
  Base.mk (gs "Ann Lee") (gs "ann@example.org") (Some (gs "1970-05-17")) None.

(** ** Properties *)

(** C6. Each write of the author data access layer changes one author
    row and nothing else: [Insert] at most the row of the id it draws from
    the sequence, [Update] and [Delete] at most the row of the receiver's
    id; none of them touches the book table; and a write that returns an
    error leaves the author table as it was (all-or-nothing). *)
Theorem author_writes_frame (st : db) (m : AuthorDBModel) (a : AuthorBaseModel) (e : goerr) :
  author_row_only st (Insert st m a).1 (authors_seq st + 1) /\
  author_row_only st (Update st m a).1 (ID m) /\
  author_row_only st (Delete st m).1 (ID m) /\
  ((Insert st m a).2 = Err e -> authors (Insert st m a).1 = authors st) /\
  ((Update st m a).2 = Err e -> authors (Update st m a).1 = authors st) /\
  ((Delete st m).2 = Err e -> authors (Delete st m).1 = authors st).
Proof.
  destruct (author_write_errors_atomic st m a e) as (Ei & Eu & Ed).
  split; [|split; [|split]]; auto using Insert_row_only, Update_row_only, Delete_row_only.
Qed.

(** Ann's insert twice: the second fails on the duplicate email. *)
Lemma author_writes_frame_witness :
  let st1 := (Insert empty_db zero_author ann).1 in
  (Insert st1 zero_author ann).2 = Err (PgError unique_violation) /\
  authors (Insert st1 zero_author ann).1 = authors st1 /\
  author_row_only st1 (Delete st1 (DB.mk 1 [] [] None None 0)).1 1.
Proof.
  intros st1. assert (He : (Insert st1 zero_author ann).2 = Err (PgError unique_violation))
    by (vm_compute; reflexivity).
  destruct (author_writes_frame st1 (DB.mk 1 [] [] None None 0) ann (PgError unique_violation))
    as (_ & _ & Hd & _ & _ & _).
  destruct (author_writes_frame st1 zero_author ann (PgError unique_violation))
    as (_ & _ & _ & Hi & _ & _).
  split; [exact He|]. split; [exact (Hi He)|exact Hd].
Defined.

(** C7. Round trip: after a successful insert into a well-formed store,
    reading the new author back by its id gives exactly the record the
    insert returned, with the submitted name, email and bio, the submitted
    birth date as the store reads it, and a book total of 0. *)
Theorem Insert_then_Detail (st st' : db) (a : AuthorBaseModel) (m : AuthorDBModel) :
  wf st -> Insert st zero_author a = (st', Ok m) ->
  Detail st' m = Ok m /\ BookTotal m = 0 /\ DB.Name m = Base.Name a /\
  DB.Email m = Base.Email a /\ DB.Bio m = Base.Bio a /\
  pg_date_opt (Base.BirthDate a) = Ok (DB.BirthDate m).
Proof.
  intros Hwf H. split; [by eapply Insert_Detail_Ok|].
  apply author_Insert_Ok_inv in H as (bd & Hd & _ & _ & ->). by rewrite Hd.
Qed.

Lemma Insert_then_Detail_witness :
  let res := Insert empty_db zero_author ann in
  let m := DB.mk 1 (gs "Ann Lee") (gs "ann@example.org") (Some (mk_date 1970 5 17)) None 0 in
  (wf empty_db /\ res = (res.1, Ok m)) /\
  (Detail res.1 m = Ok m /\ BookTotal m = 0 /\ DB.Name m = Base.Name ann /\
   DB.Email m = Base.Email ann /\ DB.Bio m = Base.Bio ann /\
   pg_date_opt (Base.BirthDate ann) = Ok (DB.BirthDate m)).
Proof.
  intros res m. assert (H : wf empty_db /\ res = (res.1, Ok m)) by (split; [apply wf_empty | vm_compute; reflexivity]).
  split; [exact H|]. exact (Insert_then_Detail empty_db res.1 ann m (proj1 H) (proj2 H)).
Defined.

(** C8. Inserting an author whose email another author already has fails
    with the unique-violation SQLSTATE 23505 (which the handler maps to
    409): the author table and the book table are unchanged, only the id
    the statement drew from the sequence stays drawn. *)
Theorem Insert_duplicate_email (st : db) (m : AuthorDBModel) (a : AuthorBaseModel)
    (i : Z) (r : author_row) (bd : option date) :
  authors st !! i = Some r -> Base.Email a = ar_email r ->
  pg_date_opt (Base.BirthDate a) = Ok bd ->
  Insert st m a = (mk_db (authors st) (books st) (authors_seq st + 1) (books_seq st),
                   Err (PgError unique_violation)).
Proof.
  intros Hi He Hd. unfold Insert, sql_insert. rewrite Hd.
  assert (Ht : email_taken st (Base.Email a) None = true)
    by (apply email_taken_spec; exists i, r; done).
  by rewrite Ht.
Qed.

Lemma Insert_duplicate_email_witness :
  let st := (Insert empty_db zero_author ann).1 in
  (authors st !! 1 = Some (mk_author_row (gs "Ann Lee") (gs "ann@example.org") (Some (mk_date 1970 5 17)) None) /\
   Base.Email ann = gs "ann@example.org" /\
   pg_date_opt (Base.BirthDate ann) = Ok (Some (mk_date 1970 5 17))) /\
  Insert st zero_author ann = (mk_db (authors st) (books st) (authors_seq st + 1) (books_seq st),
                               Err (PgError unique_violation)).
Proof.
  intros st. assert (H : authors st !! 1 = Some (mk_author_row (gs "Ann Lee") (gs "ann@example.org")
                            (Some (mk_date 1970 5 17)) None) /\
     Base.Email ann = gs "ann@example.org" /\
     pg_date_opt (Base.BirthDate ann) = Ok (Some (mk_date 1970 5 17))) by (vm_compute; auto).
  split; [exact H|]. destruct H as (H1 & H2 & H3).
  exact (Insert_duplicate_email st zero_author ann 1 _ _ H1 H2 H3).
Defined.

(** Deleting an author and then fetching the same id reports no row
    ([pgx.ErrNoRows], which the handlers map to 404). *)
Lemma Delete_then_Detail (st st' : db) (m : AuthorDBModel) :
  Delete st m = (st', Ok tt) -> Detail st' m = Err ErrNoRows.
Proof.
  intros H. unfold Detail, sql_detail. by rewrite (Delete_Ok_absent st st' m H).
Qed.


(** [Delete]'s guard against more than one affected row never fires,
    since ids are keys; deleting an absent id succeeds silently (0 rows);
    deleting an author that still has books fails with the foreign-key
    SQLSTATE 23503 and leaves the store as it was. *)
Lemma Delete_outcomes (st : db) (m : AuthorDBModel) :
  (Delete st m).2 <> Err ErrTooManyAffectedRows /\
  (authors st !! ID m = None -> Delete st m = (st, Ok tt)) /\
  (forall r, authors st !! ID m = Some r -> book_count st (ID m) <> 0 ->
   Delete st m = (st, Err (PgError foreign_key_violation))).
Proof.
  unfold Delete, sql_delete. split; [|split].
  - destruct (authors st !! ID m); simpl; [case_bool_decide|]; simpl; done.
  - intros ->. done.
  - intros r -> Hc. rewrite bool_decide_false by done. simpl. by rewrite rollback_self.
Qed.


(** C12. A page of [GET /authors] lists existing authors, each with its
    stored fields and the number of books referring to it, strictly by
    descending id. *)
Theorem Fetch_lists_authors (st : db) (page limit : Z) (f : FetchAuthorDBModel) :
  Fetch st page limit = Ok f ->
  meta f = paginate page limit (Z.of_nat (size (authors st))) /\
  StronglySorted (fun x y => ID y < ID x) (Data f) /\
  Forall (fun x => exists r, authors st !! ID x = Some r /\ x = author_view st (ID x) r) (Data f).
Proof.
  unfold Fetch. intros H. apply bind_Ok_inv in H as ([m d] & Hw & [= <-]). simpl.
  apply fetch_window_Ok_slice in Hw as (-> & n & k & ->). split; [done|]. split.
  - apply StronglySorted_take, StronglySorted_drop. unfold sql_list.
    apply StronglySorted_map. apply desc_by_id_strict.
  - apply Forall_take, Forall_drop. unfold sql_list. apply Forall_map, Forall_forall.
    intros [i r] Hin%elem_of_desc_by_id. simpl. eauto.
Qed.

Lemma Fetch_lists_authors_witness :
  let st := (Insert empty_db zero_author ann).1 in
  Fetch st 1 10 = Ok (match Fetch st 1 10 with Ok f => f | Err _ => mk_fetch (paginate 1 10 1) [] end) /\
  let f := match Fetch st 1 10 with Ok f => f | Err _ => mk_fetch (paginate 1 10 1) [] end in
  meta f = paginate 1 10 (Z.of_nat (size (authors st))) /\
  StronglySorted (fun x y => ID y < ID x) (Data f) /\
  Forall (fun x => exists r, authors st !! ID x = Some r /\ x = author_view st (ID x) r) (Data f).
Proof.
  intros st. assert (H : Fetch st 1 10 = Ok (match Fetch st 1 10 with Ok f => f
                          | Err _ => mk_fetch (paginate 1 10 1) [] end)) by (vm_compute; reflexivity).
  split; [exact H|]. exact (Fetch_lists_authors st 1 10 _ H).
Defined.

(** ** Validation of the payload *)

Section Binding.
Context `{CharClasses}.

Lemma digit_not_name_char (c : Z) : is_digit c = true -> name_char c = false.
Proof.
  intros Hd. unfold name_char. rewrite digit_not_letter by done.
  unfold is_digit in Hd. apply andb_true_iff in Hd as [H1%Z.leb_le H2%Z.leb_le].
  repeat (apply orb_false_iff; split); try done; apply Z.eqb_neq; lia.
Qed.

(** The [validname] tag fails on a non-empty name with a character outside
    the class, and then it is the name's (first) error. *)
Lemma validname_first_error (a : AuthorBaseModel) (c : Z) :
  c ∈ Base.Name a -> name_char c = false ->
  head (ParseValidationError (validate_author_base a)) =
    Some (mk_msg "Name" "invalid name (digit is not allowed)" (Base.Name a)).
Proof.
  intros Hc Hn. unfold validate_author_base, check_field. simpl.
  assert (Hne : Base.Name a <> []) by (intros E; rewrite E in Hc; set_solver).
  rewrite bool_decide_false by done. simpl.
  assert (Hv : ValidName (Base.Name a) = false).
  { unfold ValidName. apply andb_false_iff. right. apply not_true_iff_false. intros Hall.
    rewrite forallb_forall in Hall. rewrite Hall in Hn; [done|]. by apply list_elem_of_In. }
  by rewrite Hv.
Qed.

(** C18. A name containing a digit is refused by the [validname] rule and
    reported first, on field [Name], with the message
    "invalid name (digit is not allowed)", whatever the other fields. *)
Theorem name_with_digit_rejected (a : AuthorBaseModel) (c : Z) :
  c ∈ Base.Name a -> is_digit c = true ->
  head (ParseValidationError (validate_author_base a)) =
    Some (mk_msg "Name" "invalid name (digit is not allowed)" (Base.Name a)).
Proof. intros Hc Hd. apply (validname_first_error a c Hc), digit_not_name_char, Hd. Qed.

(** C19. The same "digit is not allowed" message is given for a name with
    no digit at all when it holds any other character outside letters,
    space, period, apostrophe and hyphen (e.g. [@] or [_]). *)
Theorem validname_message_without_digit (a : AuthorBaseModel) (c : Z) :
  c ∈ Base.Name a -> Forall (fun d => is_digit d = false) (Base.Name a) ->
  is_letter c = false -> c <> 32 -> c <> 46 -> c <> 39 -> c <> 45 ->
  head (ParseValidationError (validate_author_base a)) =
    Some (mk_msg "Name" "invalid name (digit is not allowed)" (Base.Name a)).
Proof.
  intros Hc _ Hl H1 H2 H3 H4. apply (validname_first_error a c Hc).
  unfold name_char. rewrite Hl. repeat (apply orb_false_iff; split); try done; by apply Z.eqb_neq.
Qed.

(** The [BirthDate] field ([*string], [omitempty,datetime]) binds when
    the pointer is nil or points to a date [time.Parse] reads. *)
Lemma birth_date_binds (bd : option gstring) :
  check_field "BirthDate" [OmitEmpty; Datetime] (FPtr bd) = [] <->
  bd = None \/ exists s d, bd = Some s /\ parse_date s = Some d.
Proof.
  destruct bd as [s|]; cbn; [|naive_solver].
  destruct (parse_date s) eqn:E; cbn; [naive_solver|].
  split; [done|]. intros [?|(s' & d & [= <-] & ?)]; congruence.
Qed.

(** C20. The payload of [POST/PUT /authors] binds without error exactly
    when the name passes [validname] and has 3 to 65 runes, the email is
    non-empty and passes the email rule, and the birth date is absent
    (JSON null or missing) or a date [time.Parse] reads with the layout
    [2006-01-02]; a present empty birth date fails [datetime], since
    [omitempty] skips only a nil pointer. *)
Theorem author_payload_valid (a : AuthorBaseModel) :
  validate_author_base a = [] <->
  ValidName (Base.Name a) = true /\ 3 <= Z.of_nat (length (Base.Name a)) <= 65 /\
  Base.Email a <> [] /\ is_email (Base.Email a) = true /\
  (Base.BirthDate a = None \/ exists s d, Base.BirthDate a = Some s /\ parse_date s = Some d).
Proof.
  destruct a as [n e bd b]. unfold validate_author_base; cbn [Base.Name Base.Email Base.BirthDate].
  rewrite !app_nil, birth_date_binds. unfold check_field. rewrite !check_rules_nil.
  cbn [rules_pass rule_ok]. rule_simpl.
  assert (ValidName n = true -> n <> []).
  { unfold ValidName. intros [Hn _]%andb_true_iff E. by rewrite E in Hn. }
  split; [intros ((? & ? & ? & ? & _) & (? & ? & _) & ?) | intros (? & [? ?] & ? & ? & ?)];
    repeat split; auto.
Qed.

End Binding.

Definition r2d2 : AuthorBaseModel := Base.mk (gs "R2-D2") (gs "r2@example.org") None None.
Definition ann_at : AuthorBaseModel := Base.mk (gs "Ann@Lee") (gs "ann@example.org") None None.

Lemma name_with_digit_rejected_witness :
  (50 ∈ Base.Name r2d2 /\ is_digit 50 = true) /\
  head (ParseValidationError (validate_author_base r2d2)) =
    Some (mk_msg "Name" "invalid name (digit is not allowed)" (Base.Name r2d2)).
Proof.
  assert (H : 50 ∈ Base.Name r2d2 /\ is_digit 50 = true)
    by (split; [apply list_elem_of_In; simpl; tauto | reflexivity]).
  split; [exact H|]. exact (name_with_digit_rejected r2d2 50 (proj1 H) (proj2 H)).
Defined.

Lemma validname_message_without_digit_witness :
  (64 ∈ Base.Name ann_at /\ Forall (fun d => is_digit d = false) (Base.Name ann_at) /\
   is_letter 64 = false /\ 64 <> 32 /\ 64 <> 46 /\ 64 <> 39 /\ 64 <> 45) /\
  head (ParseValidationError (validate_author_base ann_at)) =
    Some (mk_msg "Name" "invalid name (digit is not allowed)" (Base.Name ann_at)).
Proof.
  assert (H : 64 ∈ Base.Name ann_at /\ Forall (fun d => is_digit d = false) (Base.Name ann_at) /\
              is_letter 64 = false /\ 64 <> 32 /\ 64 <> 46 /\ 64 <> 39 /\ 64 <> 45).
  { split; [apply list_elem_of_In; simpl; tauto|].
    split; [repeat constructor|]. split; [reflexivity|]. repeat split; lia. }
  split; [exact H|]. destruct H as (H1 & H2 & H3 & H4 & H5 & H6 & H7).
  exact (validname_message_without_digit ann_at 64 H1 H2 H3 H4 H5 H6 H7).
Defined.

End AuthorModel.
