(* ===== verification/BookModel.v ===== *)
(** * BookModel: the book data access layer (src/pkg/models/book.go)

    The Go structs [BookBaseModel], [BookDBModel] and [FetchBookDBModel],
    the effect of each SQL statement of the file, and the methods
    [Insert], [Detail], [Update], [Delete] and [Fetch].  [Insert] and
    [Update] embed the book's author by calling [AuthorModel.Detail]; that
    call takes a connection of the pool, so it reads the committed store
    and not the transaction the method still holds open.  The model makes
    that ordering explicit: the author is read from [st], the state before
    the transaction, while the method's result state is the transaction's. *)

From S2P Require Import Prelude GoLib Pagination Store Validation AuthorModel.
Import Time Store Pagination Validation AuthorModel AuthorModel.DB.
Open Scope Z_scope.
Open Scope bookies_scope.

Module BookModel.

(** [BookBaseModel]: the payload of POST and PUT. *)
Module BBase.
Record BookBaseModel : Type := mk {
  Title : gstring;
  Desc : option gstring;
  PubDate : gstring;
  AuthorID : gstring
}.
End BBase.
Import BBase.

(** [BookDBModel]: a book with its embedded author. *)
Module BDB.
Record BookDBModel : Type := mk {
  ID : Z;
  Title : gstring;
  Desc : option gstring;
  PubDate : option date;
  Author : AuthorDBModel
}.
End BDB.
Import BDB.

(** [new(models.BookDBModel)] *)
Definition zero_book : BookDBModel := BDB.mk 0 [] None None zero_author.

(** [FetchBookDBModel] *)
Record FetchBookDBModel : Type := mk_bfetch {
  bmeta : page_meta;
  BData : list BookDBModel
}.

(** The [binding] tags of [BookBaseModel], field by field. *)
Definition validate_book_base `{CharClasses} (d : BookBaseModel) : list FieldError :=
  check_field "Title" [Required; Lte 128; Gte 1] (FStr (BBase.Title d)) ++
  check_field "PubDate" [Required; Datetime] (FStr (BBase.PubDate d)) ++
  check_field "AuthorID" [Required; Number] (FStr (AuthorID d)).

(** ** The statements *)

(** A row of the book queries: the book joined with its author and the
    author's [(SELECT count(id) FROM books WHERE author_id = a.id)].  A
    [LEFT JOIN] without author would scan NULL into the author's fields. *)
Definition book_view (st : db) (id : Z) (b : book_row) : result BookDBModel :=
  match authors st !! br_author_id b with
  | Some r => Ok (BDB.mk id (br_title b) (br_desc b) (Some (br_publish_date b))
                         (author_view st (br_author_id b) r))
  | None => Err ErrScan
  end.

(** [INSERT INTO books ... RETURNING id, title, description, publish_date,
    author_id]: parameters converted, [nextval], then the foreign key. *)
Definition sql_insert (st : db) (d : BookBaseModel) : db * result (Z * book_row) :=
  match pg_date_in (BBase.PubDate d), pg_int8_in (AuthorID d) with
  | Err e, _ => (st, Err e)
  | Ok _, Err e => (st, Err e)
  | Ok pd, Ok aid =>
      let id := books_seq st + 1 in
      let b := mk_book_row (BBase.Title d) (BBase.Desc d) pd aid in
      match authors st !! aid with
      | None => (mk_db (authors st) (books st) (authors_seq st) id,
                 Err (PgError foreign_key_violation))
      | Some _ => (mk_db (authors st) (<[id := b]> (books st)) (authors_seq st) id, Ok (id, b))
      end
  end.

(** [SELECT ... FROM books b LEFT JOIN authors a ON a.id = b.author_id WHERE b.id = $1] *)
Definition sql_detail (st : db) (id : Z) : list (result BookDBModel) :=
  match books st !! id with
  | Some b => [book_view st id b]
  | None => []
  end.

(** [UPDATE books SET ... WHERE id = @id RETURNING ...] *)
Definition sql_update (st : db) (id : Z) (d : BookBaseModel) : db * result (list book_row) :=
  match pg_date_in (BBase.PubDate d), pg_int8_in (AuthorID d) with
  | Err e, _ => (st, Err e)
  | Ok _, Err e => (st, Err e)
  | Ok pd, Ok aid =>
      match books st !! id with
      | None => (st, Ok [])
      | Some _ =>
          let b := mk_book_row (BBase.Title d) (BBase.Desc d) pd aid in
          match authors st !! aid with
          | None => (st, Err (PgError foreign_key_violation))
          | Some _ => (mk_db (authors st) (<[id := b]> (books st)) (authors_seq st) (books_seq st),
                       Ok [b])
          end
      end
  end.

(** [DELETE FROM books WHERE id = $1]: the rows affected. *)
Definition sql_delete (st : db) (id : Z) : db * result Z :=
  match books st !! id with
  | None => (st, Ok 0)
  | Some _ => (mk_db (authors st) (delete id (books st)) (authors_seq st) (books_seq st), Ok 1)
  end.

(** Does a book pass the [WHERE a.id = @author_id] of the listing? *)
Definition in_listing (st : db) (author : option Z) (b : book_row) : bool :=
  match author with
  | None => true
  | Some a => bool_decide (br_author_id b = a) && bool_decide (is_Some (authors st !! a))
  end.

(** The count query, with the author join when [authorID != nil]. *)
Definition sql_count (st : db) (author : option Z) : Z :=
  Z.of_nat (size (filter (fun kv : Z * book_row => in_listing st author kv.2 = true) (books st))).

(** The list query before [LIMIT/OFFSET], id descending. *)
Definition sql_list (st : db) (author : option Z) : list (result BookDBModel) :=
  map (fun kv => book_view st kv.1 kv.2)
      (filter (fun kv : Z * book_row => in_listing st author kv.2 = true) (desc_by_id (books st))).

(** ** The methods *)

(** method [Insert] of [*BookDBModel].  On a failed [INSERT] the method
    returns without [Rollback]; the deferred [Commit] of the aborted
    transaction rolls it back.  The author is then read by
    [author.Detail()], outside the transaction; an error there is returned
    while the deferred [Commit] keeps the inserted book. *)
Definition Insert (st : db) (m : BookDBModel) (data : BookBaseModel)
    : db * result BookDBModel :=
  let '(tx, r) := sql_insert st data in
  match r with
  | Err e => (rollback st tx, Err e)
  | Ok (id, b) =>
      match AuthorModel.Detail st (DB.mk (br_author_id b) [] [] None None 0) with
      | Err e => (tx, Err e)
      | Ok a => (tx, Ok (BDB.mk id (br_title b) (br_desc b) (Some (br_publish_date b)) a))
      end
  end.

(** [pgxscan.ScanOne]: no row is reported as [pgx.ErrNoRows] (see the
    header of [Prelude]), a row that does not scan as its error. *)
Definition scan_one {A} (rows : list (result A)) : result A :=
  match rows with
  | [] => Err ErrNoRows
  | [r] => r
  | _ => Err ErrTooManyRows
  end.

(** method [Detail] of [*BookDBModel] *)
Definition Detail (st : db) (m : BookDBModel) : result BookDBModel :=
  scan_one (sql_detail st (BDB.ID m)).

(** method [Update] of [*BookDBModel]: the author is read outside the
    transaction, before the deferred [Commit]; an error there rolls back. *)
Definition Update (st : db) (m : BookDBModel) (data : BookBaseModel)
    : db * result BookDBModel :=
  let '(tx, r) := sql_update st (BDB.ID m) data in
  match bind r query_row with
  | Err e => (rollback st tx, Err e)
  | Ok b =>
      match AuthorModel.Detail st (DB.mk (br_author_id b) [] [] None None 0) with
      | Err e => (rollback st tx, Err e)
      | Ok a => (tx, Ok (BDB.mk (BDB.ID m) (br_title b) (br_desc b) (Some (br_publish_date b)) a))
      end
  end.

(** method [Delete] of [*BookDBModel] *)
Definition Delete (st : db) (m : BookDBModel) : db * result unit :=
  let '(tx, r) := sql_delete st (BDB.ID m) in
  match r with
  | Err e => (rollback st tx, Err e)
  | Ok n => if n >? 1 then (rollback st tx, Err ErrTooManyAffectedRows) else (tx, Ok tt)
  end.

(** method [Fetch] of [*FetchBookDBModel] with the receiver's [Page] and
    [Limit]; [authorID] is nil for [GET /books]. *)
Definition Fetch (st : db) (page limit : Z) (authorID : option Z) : result FetchBookDBModel :=
  mw <-? fetch_window page limit (sql_count st authorID) (sql_list st authorID) ;;
  rows <-? all_ok mw.2 ;;
  Ok (mk_bfetch mw.1 rows).

(** ** Lemmas *)

Lemma book_Insert_wf (st : db) (m : BookDBModel) (d : BookBaseModel) :
  wf st -> wf (Insert st m d).1.
Proof.
  intros Hwf. unfold Insert. case_match. unfold sql_insert in *. go_cases;
    try (apply wf_rollback; simpl; [done|lia|lia]); by apply wf_add_book.
Qed.

Lemma book_Update_wf (st : db) (m : BookDBModel) (d : BookBaseModel) :
  wf st -> wf (Update st m d).1.
Proof.
  intros Hwf. unfold Update. case_match. unfold sql_update in *. go_cases;
    try (apply wf_rollback; simpl; [done|lia|lia]); apply wf_replace_book; eauto.
Qed.

Lemma book_Delete_wf (st : db) (m : BookDBModel) : wf st -> wf (Delete st m).1.
Proof.
  intros Hwf. unfold Delete. case_match. unfold sql_delete in *.
  go_cases; first [done | by apply wf_remove_book | apply wf_rollback; simpl; [done|lia|lia]].
Qed.

(** A successful insert: the statement's row, the author it refers to. *)
Lemma Insert_Ok_inv (st st' : db) (m b : BookDBModel) (d : BookBaseModel) :
  Insert st m d = (st', Ok b) ->
  exists pd aid r, pg_date_in (BBase.PubDate d) = Ok pd /\ pg_int8_in (AuthorID d) = Ok aid /\
    authors st !! aid = Some r /\
    st' = mk_db (authors st) (<[books_seq st + 1 := mk_book_row (BBase.Title d) (BBase.Desc d) pd aid]>
                (books st)) (authors_seq st) (books_seq st + 1) /\
    b = BDB.mk (books_seq st + 1) (BBase.Title d) (BBase.Desc d) (Some pd) (author_view st aid r).
Proof.
  intros H. unfold Insert in H. case_match.
  unfold sql_insert, AuthorModel.Detail, AuthorModel.sql_detail in *. go_cases. eauto 10.
Qed.

(** A successful update: the row present, the new author present, the
    row replaced, and the author embedded as read before the update. *)
Lemma book_Update_Ok_inv (st st' : db) (m b : BookDBModel) (d : BookBaseModel) :
  Update st m d = (st', Ok b) ->
  exists pd aid old r, pg_date_in (BBase.PubDate d) = Ok pd /\ pg_int8_in (AuthorID d) = Ok aid /\
    books st !! BDB.ID m = Some old /\ authors st !! aid = Some r /\
    st' = mk_db (authors st) (<[BDB.ID m := mk_book_row (BBase.Title d) (BBase.Desc d) pd aid]>
                (books st)) (authors_seq st) (books_seq st) /\
    b = BDB.mk (BDB.ID m) (BBase.Title d) (BBase.Desc d) (Some pd) (author_view st aid r).
Proof.
  intros H. unfold Update in H. case_match.
  unfold sql_update, AuthorModel.Detail, AuthorModel.sql_detail in *. go_cases. eauto 12.
Qed.

(** The rows of a listing carry the book's id and its author's id. *)
Lemma book_view_ids (st : db) (id : Z) (b : book_row) (x : BookDBModel) :
  book_view st id b = Ok x -> BDB.ID x = id /\ DB.ID (Author x) = br_author_id b.
Proof. unfold book_view. intros H. go_cases. auto. Qed.

(** The book writes never change the author table. *)
Lemma book_writes_authors (st : db) (m : BookDBModel) (d : BookBaseModel) :
  authors (Insert st m d).1 = authors st /\ authors (Update st m d).1 = authors st /\
  authors (Delete st m).1 = authors st.
Proof.
  unfold Insert, Update, Delete.
  repeat split; case_match; unfold sql_insert, sql_update, sql_delete in *; go_cases; done.
Qed.

(** The book writes are all-or-nothing: on an error the book table is as
    before.  For [Insert] this needs the code's order of events: the
    author [Detail] reads after the insert cannot fail, as the foreign
    key has just found that author. *)
Lemma book_write_errors_atomic (st : db) (m : BookDBModel) (d : BookBaseModel) (e : goerr) :
  ((Insert st m d).2 = Err e -> books (Insert st m d).1 = books st) /\
  ((Update st m d).2 = Err e -> books (Update st m d).1 = books st) /\
  ((Delete st m).2 = Err e -> books (Delete st m).1 = books st).
Proof.
  unfold Insert, Update, Delete.
  repeat split; case_match;
    unfold sql_insert, sql_update, sql_delete, AuthorModel.Detail, AuthorModel.sql_detail in *;
    go_cases; done.
Qed.

(** The row each book write may change. *)
Lemma book_writes_rows (st : db) (m : BookDBModel) (d : BookBaseModel) (i : Z) :
  (i <> books_seq st + 1 -> books (Insert st m d).1 !! i = books st !! i) /\
  (i <> BDB.ID m -> books (Update st m d).1 !! i = books st !! i) /\
  (i <> BDB.ID m -> books (Delete st m).1 !! i = books st !! i).
Proof.
  unfold Insert, Update, Delete.
  repeat split; intros Hi; case_match; unfold sql_insert, sql_update, sql_delete in *; go_cases;
    rewrite ?lookup_insert_ne, ?lookup_delete_ne by congruence; done.
Qed.

Lemma book_Insert_row_only (st : db) (m : BookDBModel) (d : BookBaseModel) :
  book_row_only st (Insert st m d).1 (books_seq st + 1).
Proof. split; [apply book_writes_authors|]. intros i Hi. by apply (book_writes_rows st m d i). Qed.

Lemma book_Update_row_only (st : db) (m : BookDBModel) (d : BookBaseModel) :
  book_row_only st (Update st m d).1 (BDB.ID m).
Proof. split; [apply book_writes_authors|]. intros i Hi. by apply (book_writes_rows st m d i). Qed.

Lemma book_Delete_row_only (st : db) (m : BookDBModel) :
  book_row_only st (Delete st m).1 (BDB.ID m).
Proof.
  split; [apply (book_writes_authors st m (BBase.mk [] None [] []))|].
  intros i Hi. by apply (book_writes_rows st m (BBase.mk [] None [] []) i).
Qed.

(** A successful delete leaves no book under the receiver's id. *)
Lemma book_Delete_Ok_absent (st st' : db) (m : BookDBModel) :
  Delete st m = (st', Ok tt) -> books st' !! BDB.ID m = None.
Proof.
  unfold Delete, sql_delete.
  destruct (books st !! BDB.ID m) eqn:Hl; simpl; intros [= <-]; simpl; [|done].
  by rewrite lookup_delete_eq.
Qed.

(** [Detail] reads only the receiver's [ID]. *)
Lemma book_Detail_by_ID (st : db) (m1 m2 : BookDBModel) :
  BDB.ID m1 = BDB.ID m2 -> Detail st m1 = Detail st m2.
Proof. unfold Detail. by intros ->. Qed.

(** A concrete store with one author, and a payload for a book of hers. *)
Definition st_ann : db := (AuthorModel.Insert empty_db zero_author ann).1.
Definition dune : BookBaseModel := BBase.mk (gs "Dune") None (gs "1965-08-01") (gs "1").

(** ** Properties *)

(** C13. Each write of the book data access layer changes one book row
    and nothing else: [Insert] at most the row of the id it draws,
    [Update] and [Delete] at most the row of the receiver's id; none of
    them touches the author table; and a write that returns an error
    leaves the book table as it was. *)
Theorem book_writes_frame (st : db) (m : BookDBModel) (d : BookBaseModel) (e : goerr) :
  book_row_only st (Insert st m d).1 (books_seq st + 1) /\
  book_row_only st (Update st m d).1 (BDB.ID m) /\
  book_row_only st (Delete st m).1 (BDB.ID m) /\
  ((Insert st m d).2 = Err e -> books (Insert st m d).1 = books st) /\
  ((Update st m d).2 = Err e -> books (Update st m d).1 = books st) /\
  ((Delete st m).2 = Err e -> books (Delete st m).1 = books st).
Proof.
  destruct (book_write_errors_atomic st m d e) as (Ei & Eu & Ed).
  split; [|split; [|split]]; auto using book_Insert_row_only, book_Update_row_only, book_Delete_row_only.
Qed.

(** A book of an unknown author (id 2) is refused, and deleting book 1 of
    a store without it changes nothing but that row. *)
Lemma book_writes_frame_witness :
  let d2 := BBase.mk (gs "Dune") None (gs "1965-08-01") (gs "2") in
  (Insert st_ann zero_book d2).2 = Err (PgError foreign_key_violation) /\
  books (Insert st_ann zero_book d2).1 = books st_ann /\
  book_row_only st_ann (Delete st_ann zero_book).1 0.
Proof.
  intros d2. assert (He : (Insert st_ann zero_book d2).2 = Err (PgError foreign_key_violation))
    by (vm_compute; reflexivity).
  destruct (book_writes_frame st_ann zero_book d2 (PgError foreign_key_violation))
    as (_ & _ & Hd & Hi & _ & _).
  split; [exact He|]. split; [exact (Hi He)|exact Hd].
Defined.

(** C14. The book [POST /books] returns embeds its author as read before
    the insert commits: reading the new book back gives the same record
    except that the author's book total is one higher, i.e. the response
    of [Insert] under-counts the author's books by one. *)
Theorem Insert_embeds_stale_book_total (st st' : db) (d : BookBaseModel) (b : BookDBModel) :
  wf st -> Insert st zero_book d = (st', Ok b) ->
  Detail st' b = Ok (BDB.mk (BDB.ID b) (BDB.Title b) (BDB.Desc b) (BDB.PubDate b)
                     (DB.mk (DB.ID (Author b)) (DB.Name (Author b)) (DB.Email (Author b))
                            (DB.BirthDate (Author b)) (DB.Bio (Author b)) (BookTotal (Author b) + 1))) /\
  book_count st' (DB.ID (Author b)) = BookTotal (Author b) + 1.
Proof.
  intros Hwf H. apply Insert_Ok_inv in H as (pd & aid & r & Hpd & Haid & Hr & -> & ->).
  pose proof (wf_book_fresh st Hwf) as Hf.
  rewrite (book_count_add st _ _ _ _ _ _ Hf), bool_decide_eq_true_2 by done.
  split; [|done]. unfold Detail, sql_detail, book_view, author_view; simpl.
  rewrite lookup_insert_eq. simpl. rewrite Hr.
  rewrite (book_count_add st _ _ _ _ _ _ Hf), bool_decide_eq_true_2 by done. done.
Qed.

Lemma Insert_embeds_stale_book_total_witness :
  let res := Insert st_ann zero_book dune in
  let b := match res.2 with Ok b => b | Err _ => zero_book end in
  (wf st_ann /\ res = (res.1, Ok b)) /\
  (Detail res.1 b = Ok (BDB.mk (BDB.ID b) (BDB.Title b) (BDB.Desc b) (BDB.PubDate b)
                     (DB.mk (DB.ID (Author b)) (DB.Name (Author b)) (DB.Email (Author b))
                            (DB.BirthDate (Author b)) (DB.Bio (Author b)) (BookTotal (Author b) + 1))) /\
   book_count res.1 (DB.ID (Author b)) = BookTotal (Author b) + 1).
Proof.
  intros res b.
  assert (H : wf st_ann /\ res = (res.1, Ok b))
    by (split; [apply AuthorModel.Insert_wf, wf_empty | vm_compute; reflexivity]).
  split; [exact H|]. exact (Insert_embeds_stale_book_total st_ann res.1 dune b (proj1 H) (proj2 H)).
Defined.

(** C15. Inserting a book whose [author_id] names no author fails with the
    foreign-key SQLSTATE 23503 (mapped to 422 "unknown author" by the
    handler); the tables are unchanged. *)
Theorem Insert_unknown_author (st : db) (m : BookDBModel) (d : BookBaseModel) (pd : date) (aid : Z) :
  pg_date_in (BBase.PubDate d) = Ok pd -> pg_int8_in (AuthorID d) = Ok aid ->
  authors st !! aid = None ->
  Insert st m d = (mk_db (authors st) (books st) (authors_seq st) (books_seq st + 1),
                   Err (PgError foreign_key_violation)).
Proof. intros Hpd Haid Ha. unfold Insert, sql_insert. by rewrite Hpd, Haid, Ha. Qed.

Lemma Insert_unknown_author_witness :
  (pg_date_in (BBase.PubDate dune) = Ok (mk_date 1965 8 1) /\ pg_int8_in (AuthorID dune) = Ok 1 /\
   authors empty_db !! 1 = None) /\
  Insert empty_db zero_book dune =
    (mk_db (authors empty_db) (books empty_db) (authors_seq empty_db) (books_seq empty_db + 1),
     Err (PgError foreign_key_violation)).
Proof.
  assert (H : pg_date_in (BBase.PubDate dune) = Ok (mk_date 1965 8 1) /\
              pg_int8_in (AuthorID dune) = Ok 1 /\ authors empty_db !! 1 = None)
    by (vm_compute; auto).
  split; [exact H|]. destruct H as (H1 & H2 & H3).
  exact (Insert_unknown_author empty_db zero_book dune _ _ H1 H2 H3).
Defined.

(** C16. [GET /authors/:id/books] lists only books of that author, each
    embedding that author, strictly by descending book id. *)
Theorem Fetch_author_books (st : db) (page limit a : Z) (f : FetchBookDBModel) :
  Fetch st page limit (Some a) = Ok f ->
  Forall (fun x => DB.ID (Author x) = a /\ exists b, books st !! BDB.ID x = Some b /\
                   br_author_id b = a) (BData f) /\
  StronglySorted (fun x y => BDB.ID y < BDB.ID x) (BData f).
Proof.
  unfold Fetch. intros H.
  apply bind_Ok_inv in H as ([m d] & Hw & H). apply bind_Ok_inv in H as (rows & Hall & [= <-]).
  simpl in *. apply fetch_window_Ok_slice in Hw as (_ & n & k & ->). simpl. split.
  - eapply all_ok_Forall; [|exact Hall]. apply Forall_take, Forall_drop.
    unfold sql_list. apply Forall_map, Forall_filter_of', Forall_forall.
    intros [i b] Hin%elem_of_desc_by_id Hl x Hx. simpl in *.
    apply book_view_ids in Hx as [-> Ha]. unfold in_listing in Hl.
    apply andb_true_iff in Hl as [Hl%bool_decide_eq_true _]. eauto with congruence.
  - eapply all_ok_StronglySorted; [|exact Hall].
    apply StronglySorted_take, StronglySorted_drop. unfold sql_list. apply StronglySorted_map.
    apply StronglySorted_filter. eapply StronglySorted_impl; [|apply desc_by_id_strict].
    intros [i b] [j c] Hij x y Hx Hy. simpl in *.
    apply book_view_ids in Hx as [-> _]. apply book_view_ids in Hy as [-> _]. lia.
Qed.

(** Deleting a book and then fetching the same id reports no row
    ([pgx.ErrNoRows], mapped to 404 by the handlers). *)
Lemma Delete_then_Detail_book (st st' : db) (m : BookDBModel) :
  Delete st m = (st', Ok tt) -> Detail st' m = Err ErrNoRows.
Proof.
  intros H. unfold Detail, sql_detail. by rewrite (book_Delete_Ok_absent st st' m H).
Qed.


Lemma Fetch_author_books_witness :
  let st := (Insert st_ann zero_book dune).1 in
  let f := match Fetch st 1 10 (Some 1) with Ok f => f | Err _ => mk_bfetch (paginate 1 10 1) [] end in
  Fetch st 1 10 (Some 1) = Ok f /\
  (Forall (fun x => DB.ID (Author x) = 1 /\ exists b, books st !! BDB.ID x = Some b /\
                   br_author_id b = 1) (BData f) /\
   StronglySorted (fun x y => BDB.ID y < BDB.ID x) (BData f)).
Proof.
  intros st f. assert (H : Fetch st 1 10 (Some 1) = Ok f) by (vm_compute; reflexivity).
  split; [exact H|]. exact (Fetch_author_books st 1 10 1 f H).
Defined.

End BookModel.
