(* ===== verification/Handlers.v ===== *)
(** * Handlers: the gin handlers of src/pkg/handlers/author.go and book.go

    Each handler is a function from the database and the request (the
    [:id] path segment, the [page]/[limit] query values, the decoded JSON
    body) to the new database and the response.  The request parts the
    handler reads are modelled as what gin gives the code:
    - [decoded T]: the outcome of decoding the JSON body into the struct;
      Go's decoder leaves the fields it managed to fill even when it
      reports an error, so a decode error carries the partial struct;
    - a query value is [None] when absent ([c.DefaultQuery] then gives the
      default string);
    - [c.ShouldBind] of the Add handlers chooses the binding by content
      type; a JSON body is modelled, form bodies are not.
    A response is a status and the body written by [c.JSON]; a handler that
    writes nothing leaves gin's default status 200 with an empty body; a Go
    panic inside a handler is turned by gin's Recovery middleware into 500
    with an empty body. *)

From S2P Require Import Prelude GoLib Pagination Store Validation AuthorModel BookModel.
Import Time Store Pagination Validation AuthorModel AuthorModel.Base AuthorModel.DB BookModel
  BookModel.BBase BookModel.BDB.
Open Scope Z_scope.
Open Scope bookies_scope.

Module Handlers.

(** ** Requests and responses *)

Inductive body : Type :=
| BMsg (msg : string)
| BValidation (msgs : list ValidationErrorMsg)
| BAuthor (a : AuthorDBModel)
| BAuthors (f : FetchAuthorDBModel)
| BBook (b : BookDBModel)
| BBooks (f : FetchBookDBModel)
| BText (s : string)
| BEmpty.

Record response : Type := mk_resp { status : Z; rbody : body }.

(** Nothing written by the handler. *)
Definition no_write : response := mk_resp 200 BEmpty.
(** gin's Recovery after a panic. *)
Definition panic_response : response := mk_resp 500 BEmpty.

Inductive decoded (T : Type) : Type :=
| Decoded (v : T)
| DecodeError (partial : T).
Arguments Decoded {T} v.
Arguments DecodeError {T} partial.

(** [c.ShouldBind]/[c.ShouldBindJSON]: decode, then validate; a decode
    error is returned without validating. *)
Inductive bind_result (T : Type) : Type :=
| Bound (v : T)
| Invalid (errs : list FieldError)
| BindError (partial : T).
Arguments Bound {T} v.
Arguments Invalid {T} errs.
Arguments BindError {T} partial.

Definition should_bind {T} (validate : T -> list FieldError) (d : decoded T) : bind_result T :=
  match d with
  | DecodeError p => BindError p
  | Decoded v => match validate v with [] => Bound v | errs => Invalid errs end
  end.

(** [strconv.Atoi(c.DefaultQuery(key, default))] *)
Definition query_atoi (q : option gstring) (default : gstring) : Z * option Atoi.atoi_error :=
  Atoi.atoi (match q with Some s => s | None => default end).

(** [page, err := ...; if err != nil || page < 1] *)
Definition parse_page (q : option gstring) : option Z :=
  match query_atoi q (gs "1") with
  | (p, None) => if p <? 1 then None else Some p
  | _ => None
  end.

(** [limit, err := ...; if err != nil || limit < 5 || limit > 100] *)
Definition parse_limit (q : option gstring) : option Z :=
  match query_atoi q (gs "10") with
  | (l, None) => if (l <? 5) || (l >? 100) then None else Some l
  | _ => None
  end.

Definition page_error : response :=
  mk_resp 422 (BMsg "page parameter should be number and greater than 1").
Definition limit_error : response :=
  mk_resp 422 (BMsg "limit parameter should be number and between 5 and 100").
Definition oops : response := mk_resp 500 (BMsg "oops, we made a mistake").
Definition oops_add : response := mk_resp 500 (BMsg "oops we made mistake").
Definition invalid (errs : list FieldError) : response :=
  mk_resp 422 (BValidation (ParseValidationError errs)).

(** The id the handlers use: [x, _ := strconv.Atoi(id)], error ignored. *)
Definition uri_id (id : gstring) : Z := (Atoi.atoi id).1.

(** [errors.Is(err, pgx.ErrNoRows)] then 404, else 500. *)
Definition detail_error (not_found : string) (e : goerr) : response :=
  if decide (e = ErrNoRows) then mk_resp 404 (BMsg not_found) else oops.

Section WithClasses.
Context `{CharClasses}.

(** ** AuthorHandler *)

Definition author_Add (st : db) (req : decoded AuthorBaseModel) : db * response :=
  match should_bind validate_author_base req with
  | BindError _ => (st, panic_response)
  | Invalid errs => (st, invalid errs)
  | Bound a =>
      let '(st', r) := AuthorModel.Insert st zero_author a in
      match r with
      | Ok m => (st', mk_resp 200 (BAuthor m))
      | Err (PgError code) =>
          if String.eqb code unique_violation
          then (st', mk_resp 409 (BMsg "email already registered")) else (st', no_write)
      | Err _ => (st', oops_add)
      end
  end.

Definition author_Fetch (st : db) (page_q limit_q : option gstring) : db * response :=
  match parse_page page_q, parse_limit limit_q with
  | None, _ => (st, page_error)
  | Some _, None => (st, limit_error)
  | Some page, Some limit =>
      match AuthorModel.Fetch st page limit with
      | Ok f => (st, mk_resp 200 (BAuthors f))
      | Err _ => (st, oops)
      end
  end.

Definition author_Get (st : db) (id : gstring) : db * response :=
  match validate_uri id with
  | (_ :: _) as errs => (st, invalid errs)
  | [] =>
      match AuthorModel.Detail st (DB.mk (uri_id id) [] [] None None 0) with
      | Ok a => (st, mk_resp 200 (BAuthor a))
      | Err e => (st, detail_error "author not found" e)
      end
  end.

(** A JSON body that fails to decode is not an error here: the handler
    goes on with whatever the decoder filled in, unvalidated. *)
Definition author_Update (st : db) (id : gstring) (req : decoded AuthorBaseModel) : db * response :=
  match validate_uri id with
  | (_ :: _) as errs => (st, invalid errs)
  | [] =>
      match should_bind validate_author_base req with
      | Invalid errs => (st, invalid errs)
      | BindError body | Bound body =>
          match AuthorModel.Detail st (DB.mk (uri_id id) [] [] None None 0) with
          | Err e => (st, detail_error "author not found" e)
          | Ok a =>
              let '(st', r) := AuthorModel.Update st a body in
              match r with
              | Ok m => (st', mk_resp 200 (BAuthor m))
              | Err _ => (st', oops)
              end
          end
      end
  end.

Definition author_Delete (st : db) (id : gstring) : db * response :=
  match validate_uri id with
  | (_ :: _) as errs => (st, invalid errs)
  | [] =>
      match AuthorModel.Detail st (DB.mk (uri_id id) [] [] None None 0) with
      | Err e => (st, detail_error "author not found" e)
      | Ok a =>
          let '(st', r) := AuthorModel.Delete st a in
          match r with
          | Ok _ => (st', mk_resp 200 (BMsg "Author Removed"))
          | Err _ => (st', oops)
          end
      end
  end.

Definition author_Books (st : db) (id : gstring) (page_q limit_q : option gstring) : db * response :=
  match validate_uri id with
  | (_ :: _) as errs => (st, invalid errs)
  | [] =>
      match parse_page page_q, parse_limit limit_q with
      | None, _ => (st, page_error)
      | Some _, None => (st, limit_error)
      | Some page, Some limit =>
          match BookModel.Fetch st page limit (Some (uri_id id)) with
          | Ok f => (st, mk_resp 200 (BBooks f))
          | Err _ => (st, oops)
          end
      end
  end.

(** ** BookHandler *)

Definition book_Add (st : db) (req : decoded BookBaseModel) : db * response :=
  match should_bind validate_book_base req with
  | BindError _ => (st, panic_response)
  | Invalid errs => (st, invalid errs)
  | Bound d =>
      let '(st', r) := BookModel.Insert st zero_book d in
      match r with
      | Ok b => (st', mk_resp 200 (BBook b))
      | Err (PgError code) =>
          if String.eqb code foreign_key_violation
          then (st', mk_resp 422 (BMsg "unknown author")) else (st', no_write)
      | Err _ => (st', oops_add)
      end
  end.

Definition book_Fetch (st : db) (page_q limit_q : option gstring) : db * response :=
  match parse_page page_q, parse_limit limit_q with
  | None, _ => (st, page_error)
  | Some _, None => (st, limit_error)
  | Some page, Some limit =>
      match BookModel.Fetch st page limit None with
      | Ok f => (st, mk_resp 200 (BBooks f))
      | Err _ => (st, oops)
      end
  end.

Definition book_Get (st : db) (id : gstring) : db * response :=
  match validate_uri id with
  | (_ :: _) as errs => (st, invalid errs)
  | [] =>
      match BookModel.Detail st (BDB.mk (uri_id id) [] None None zero_author) with
      | Ok b => (st, mk_resp 200 (BBook b))
      | Err e => (st, detail_error "book not found" e)
      end
  end.

Definition book_Update (st : db) (id : gstring) (req : decoded BookBaseModel) : db * response :=
  match validate_uri id with
  | (_ :: _) as errs => (st, invalid errs)
  | [] =>
      match should_bind validate_book_base req with
      | Invalid errs => (st, invalid errs)
      | BindError body | Bound body =>
          match BookModel.Detail st (BDB.mk (uri_id id) [] None None zero_author) with
          | Err e => (st, detail_error "book not found" e)
          | Ok b =>
              let '(st', r) := BookModel.Update st b body in
              match r with
              | Ok m => (st', mk_resp 200 (BBook m))
              | Err _ => (st', oops)
              end
          end
      end
  end.

Definition book_Delete (st : db) (id : gstring) : db * response :=
  match validate_uri id with
  | (_ :: _) as errs => (st, invalid errs)
  | [] =>
      match BookModel.Detail st (BDB.mk (uri_id id) [] None None zero_author) with
      | Err e => (st, detail_error "book not found" e)
      | Ok b =>
          let '(st', r) := BookModel.Delete st b in
          match r with
          | Ok _ => (st', mk_resp 200 (BMsg "Book Removed"))
          | Err _ => (st', oops)
          end
      end
  end.

End WithClasses.

(** ** Lemmas *)

(** The records [Detail] returns carry the id they were asked for. *)
Lemma author_Detail_ID (st : db) (m a : AuthorDBModel) :
  AuthorModel.Detail st m = Ok a -> DB.ID a = DB.ID m.
Proof. unfold AuthorModel.Detail, AuthorModel.sql_detail, collect_exactly_one. intros H. by go_cases. Qed.

Lemma book_Detail_ID (st : db) (m b : BookDBModel) :
  BookModel.Detail st m = Ok b -> BDB.ID b = BDB.ID m.
Proof.
  unfold BookModel.Detail, BookModel.sql_detail, scan_one. intros H. go_cases.
  match goal with Hv : book_view _ _ _ = Ok _ |- _ => by apply book_view_ids in Hv as [-> _] end.
Qed.

(** A row [Detail] returns is the stored row with its book count. *)
Lemma author_Detail_Ok (st : db) (m a : AuthorDBModel) :
  AuthorModel.Detail st m = Ok a ->
  exists r, authors st !! DB.ID m = Some r /\ a = AuthorModel.author_view st (DB.ID m) r.
Proof. unfold AuthorModel.Detail, AuthorModel.sql_detail, collect_exactly_one. intros H. go_cases. eauto. Qed.

(** An absent id reads as no row. *)
Lemma author_Detail_absent (st : db) (m : AuthorDBModel) :
  authors st !! DB.ID m = None -> AuthorModel.Detail st m = Err ErrNoRows.
Proof. intros H. unfold AuthorModel.Detail, AuthorModel.sql_detail. by rewrite H. Qed.

Lemma book_Detail_absent (st : db) (m : BookDBModel) :
  books st !! BDB.ID m = None -> BookModel.Detail st m = Err ErrNoRows.
Proof. intros H. unfold BookModel.Detail, BookModel.sql_detail. by rewrite H. Qed.

(** The query values the handlers accept. *)
Lemma parse_page_Some (q : option gstring) (p : Z) : parse_page q = Some p -> 1 <= p <= max_int.
Proof.
  unfold parse_page, query_atoi. destruct (Atoi.atoi _) as [v e] eqn:E.
  destruct e; [done|]. destruct (Z.ltb_spec v 1); [done|]. intros [= <-].
  apply Atoi.atoi_ok_inv in E. destruct (Atoi.split_sign _). unfold fits_int in E. lia.
Qed.

Lemma parse_limit_Some (q : option gstring) (l : Z) : parse_limit q = Some l -> 5 <= l <= 100.
Proof.
  unfold parse_limit. destruct (query_atoi _ _) as [v [e|]]; [done|].
  destruct (Z.ltb_spec v 5), (Z.gtb_spec v 100); simpl; intros; simplify_eq; lia.
Qed.

Lemma parse_inputs (q1 q2 : option gstring) (p l t : Z) :
  parse_page q1 = Some p -> parse_limit q2 = Some l -> 0 <= t <= max_int ->
  handler_inputs p l t.
Proof.
  intros Hp%parse_page_Some Hl%parse_limit_Some Ht. unfold handler_inputs. go_lia.
Qed.

(** Counts of the listings on empty tables. *)
Lemma author_sql_count_empty (st : db) : authors st = ∅ -> AuthorModel.sql_count st = 0.
Proof. intros H. unfold AuthorModel.sql_count. by rewrite H, map_size_empty. Qed.

Lemma book_sql_count_empty (st : db) : books st = ∅ -> BookModel.sql_count st None = 0.
Proof. intros H. unfold BookModel.sql_count. by rewrite H, map_filter_empty, map_size_empty. Qed.

Lemma book_sql_count_author (st : db) (a : Z) :
  book_count st a = 0 -> BookModel.sql_count st (Some a) = 0.
Proof.
  intros Hc0. pose proof (proj1 (book_count_0_iff st a) Hc0) as Hc. unfold BookModel.sql_count.
  rewrite (proj2 (map_empty_filter _ _)); [by rewrite map_size_empty|].
  intros i b Hb Hl. unfold in_listing in Hl. apply andb_true_iff in Hl as [Hl%bool_decide_eq_true _].
  by apply (Hc i b).
Qed.

(** ** The store invariant through the handlers *)

(** The invariant of the state a data-access write returns, from the
    write's equation. *)
Ltac wf_write Hwf :=
  repeat match goal with
  | E : AuthorModel.Insert ?s ?m ?a = (_, _) |- _ =>
      let W := fresh "W" in pose proof (AuthorModel.Insert_wf s m a Hwf) as W; rewrite E in W; clear E
  | E : AuthorModel.Update ?s ?m ?a = (_, _) |- _ =>
      let W := fresh "W" in pose proof (AuthorModel.Update_wf s m a Hwf) as W; rewrite E in W; clear E
  | E : AuthorModel.Delete ?s ?m = (_, _) |- _ =>
      let W := fresh "W" in pose proof (AuthorModel.Delete_wf s m Hwf) as W; rewrite E in W; clear E
  | E : BookModel.Insert ?s ?m ?a = (_, _) |- _ =>
      let W := fresh "W" in pose proof (book_Insert_wf s m a Hwf) as W; rewrite E in W; clear E
  | E : BookModel.Update ?s ?m ?a = (_, _) |- _ =>
      let W := fresh "W" in pose proof (book_Update_wf s m a Hwf) as W; rewrite E in W; clear E
  | E : BookModel.Delete ?s ?m = (_, _) |- _ =>
      let W := fresh "W" in pose proof (book_Delete_wf s m Hwf) as W; rewrite E in W; clear E
  end.

Ltac handler_wf := let Hwf := fresh "Hwf" in intros Hwf; go_cases; wf_write Hwf; assumption.

Section HandlersWf.
Context `{CharClasses} (st : db) (Hwf : wf st).

Lemma author_Add_keeps_wf req : wf (author_Add st req).1.
Proof. revert Hwf. unfold author_Add. handler_wf. Qed.
Lemma author_Fetch_keeps_wf q1 q2 : wf (author_Fetch st q1 q2).1.
Proof. revert Hwf. unfold author_Fetch. handler_wf. Qed.
Lemma author_Get_keeps_wf id : wf (author_Get st id).1.
Proof. revert Hwf. unfold author_Get. handler_wf. Qed.
Lemma author_Update_keeps_wf id req : wf (author_Update st id req).1.
Proof. revert Hwf. unfold author_Update. handler_wf. Qed.
Lemma author_Delete_keeps_wf id : wf (author_Delete st id).1.
Proof. revert Hwf. unfold author_Delete. handler_wf. Qed.
Lemma author_Books_keeps_wf id q1 q2 : wf (author_Books st id q1 q2).1.
Proof. revert Hwf. unfold author_Books. handler_wf. Qed.
Lemma book_Add_keeps_wf req : wf (book_Add st req).1.
Proof. revert Hwf. unfold book_Add. handler_wf. Qed.
Lemma book_Fetch_keeps_wf q1 q2 : wf (book_Fetch st q1 q2).1.
Proof. revert Hwf. unfold book_Fetch. handler_wf. Qed.
Lemma book_Get_keeps_wf id : wf (book_Get st id).1.
Proof. revert Hwf. unfold book_Get. handler_wf. Qed.
Lemma book_Update_keeps_wf id req : wf (book_Update st id req).1.
Proof. revert Hwf. unfold book_Update. handler_wf. Qed.
Lemma book_Delete_keeps_wf id : wf (book_Delete st id).1.
Proof. revert Hwf. unfold book_Delete. handler_wf. Qed.

End HandlersWf.

#[export] Hint Resolve author_Add_keeps_wf author_Fetch_keeps_wf author_Get_keeps_wf author_Update_keeps_wf author_Delete_keeps_wf
  author_Books_keeps_wf book_Add_keeps_wf book_Fetch_keeps_wf book_Get_keeps_wf book_Update_keeps_wf book_Delete_keeps_wf : bookies.

Section Props.
Context `{CharClasses}.

(** C21. A birth date round trips through [POST /authors]: when the
    request answers 200 with the new author, the author's birth date,
    printed as JSON prints a [pgtype.Date], is exactly the string the
    payload submitted. *)
Theorem author_Add_birth_date_echo (st st' : db) (a : AuthorBaseModel) (m : AuthorDBModel) (s : gstring) :
  author_Add st (Decoded a) = (st', mk_resp 200 (BAuthor m)) -> Base.BirthDate a = Some s ->
  option_map format_date (DB.BirthDate m) = Some s.
Proof.
  intros Hadd Hb. unfold author_Add, should_bind in Hadd.
  destruct (validate_author_base a) eqn:Hv; [|by go_cases].
  destruct (AuthorModel.Insert st zero_author a) as [st1 [m1|e]] eqn:E; [|by go_cases].
  simplify_eq/=. apply author_Insert_Ok_inv in E as (bd & Hd & _ & _ & ->).
  unfold validate_author_base in Hv. rewrite Hb in Hv, Hd.
  apply app_nil in Hv as [_ [_ Hv%birth_date_binds]%app_nil].
  destruct Hv as [?|(s' & d & [= <-] & Hp)]; [done|].
  simpl in Hd. destruct (pg_date_in s) as [d'|] eqn:Hpg; simplify_eq/=.
  by destruct (date_roundtrip s d d' Hp Hpg) as [-> ->].
Qed.

(** C22. [POST /authors] with a valid payload whose email another author
    already has answers 409 "email already registered"; only the id drawn
    from the sequence stays drawn. *)
Theorem author_Add_duplicate_email_409 (st : db) (a : AuthorBaseModel) (i : Z) (r : author_row)
    (bd : option date) :
  validate_author_base a = [] -> authors st !! i = Some r -> Base.Email a = ar_email r ->
  pg_date_opt (Base.BirthDate a) = Ok bd ->
  author_Add st (Decoded a) = (mk_db (authors st) (books st) (authors_seq st + 1) (books_seq st),
                               mk_resp 409 (BMsg "email already registered")).
Proof.
  intros Hv Hi He Hd. unfold author_Add, should_bind, AuthorModel.Insert, AuthorModel.sql_insert.
  rewrite Hv, Hd. rewrite (proj2 (email_taken_spec st _ None)) by eauto. done.
Qed.

(** C23. [POST /books] with a valid payload whose [author_id] names no
    author answers 422 "unknown author"; the tables are unchanged. *)
Theorem book_Add_unknown_author_422 (st : db) (d : BookBaseModel) (pd : date) (aid : Z) :
  validate_book_base d = [] -> pg_date_in (BBase.PubDate d) = Ok pd ->
  pg_int8_in (AuthorID d) = Ok aid -> authors st !! aid = None ->
  book_Add st (Decoded d) = (mk_db (authors st) (books st) (authors_seq st) (books_seq st + 1),
                             mk_resp 422 (BMsg "unknown author")).
Proof.
  intros Hv Hd Ha Hn. unfold book_Add, should_bind, BookModel.Insert, BookModel.sql_insert.
  by rewrite Hv, Hd, Ha, Hn.
Qed.

(** C24. [GET] and [DELETE] on [/authors/:id] or [/books/:id] with a
    well-formed id that names no row answer 404 "author not found" /
    "book not found" and change nothing. *)
Theorem Get_Delete_missing_404 (st : db) (id : gstring) :
  validate_uri id = [] ->
  (authors st !! uri_id id = None ->
   author_Get st id = (st, mk_resp 404 (BMsg "author not found")) /\
   author_Delete st id = (st, mk_resp 404 (BMsg "author not found"))) /\
  (books st !! uri_id id = None ->
   book_Get st id = (st, mk_resp 404 (BMsg "book not found")) /\
   book_Delete st id = (st, mk_resp 404 (BMsg "book not found"))).
Proof.
  intros Hv. unfold author_Get, author_Delete, book_Get, book_Delete. rewrite Hv.
  split; intros Hn.
  - by rewrite author_Detail_absent.
  - by rewrite book_Detail_absent.
Qed.

(** C25. After [DELETE /authors/:id] (resp. [/books/:id]) answers 200,
    [GET] on the same path answers 404. *)
Theorem Delete_then_Get_404 (st st' : db) (id : gstring) :
  (author_Delete st id = (st', mk_resp 200 (BMsg "Author Removed")) ->
   author_Get st' id = (st', mk_resp 404 (BMsg "author not found"))) /\
  (book_Delete st id = (st', mk_resp 200 (BMsg "Book Removed")) ->
   book_Get st' id = (st', mk_resp 404 (BMsg "book not found"))).
Proof.
  unfold author_Delete, author_Get, book_Delete, book_Get.
  split; intros Hd; destruct (validate_uri id); unfold invalid in Hd; simplify_eq.
  - destruct (AuthorModel.Detail st _) as [a|e] eqn:Hdet;
      [|unfold detail_error in Hd; case_decide; simplify_eq].
    destruct (AuthorModel.Delete st a) as [s [[]|e]] eqn:Hdel; simplify_eq.
    rewrite author_Detail_absent; [done|].
    rewrite <- (author_Detail_ID _ _ _ Hdet). by eapply AuthorModel.Delete_Ok_absent.
  - destruct (BookModel.Detail st _) as [b|e] eqn:Hdet;
      [|unfold detail_error in Hd; case_decide; simplify_eq].
    destruct (BookModel.Delete st b) as [s [[]|e]] eqn:Hdel; simplify_eq.
    rewrite book_Detail_absent; [done|].
    rewrite <- (book_Detail_ID _ _ _ Hdet). by eapply book_Delete_Ok_absent.
Qed.

(** C26. Round trip through the handlers: when [POST /authors] answers 200
    with an author, [GET /authors/:id] on that author's id answers 200 with
    the same record, whose book total is 0. *)
Theorem Add_then_Get (st st' : db) (a : AuthorBaseModel) (m : AuthorDBModel) (id : gstring) :
  wf st -> author_Add st (Decoded a) = (st', mk_resp 200 (BAuthor m)) ->
  validate_uri id = [] -> uri_id id = DB.ID m ->
  author_Get st' id = (st', mk_resp 200 (BAuthor m)) /\ BookTotal m = 0.
Proof.
  intros Hwf Hadd Hv Hid. unfold author_Add, should_bind in Hadd. go_cases.
  match goal with H : AuthorModel.Insert _ _ _ = _ |- _ => rename H into Hins end.
  unfold author_Get. rewrite Hv.
  rewrite (AuthorModel.Detail_by_ID _ _ m) by done.
  rewrite (AuthorModel.Insert_Detail_Ok _ _ _ m Hwf Hins). split; [done|].
  by apply AuthorModel.author_Insert_Ok_inv in Hins as (? & _ & _ & _ & ->).
Qed.

(** C35. Round trip of an update through the handlers: when [PUT
    /authors/:id] answers 200 with an author, [GET /authors/:id] answers
    200 with the same record, book total included. *)
Theorem Update_then_Get (st st' : db) (id : gstring) (req : decoded AuthorBaseModel) (m : AuthorDBModel) :
  author_Update st id req = (st', mk_resp 200 (BAuthor m)) ->
  author_Get st' id = (st', mk_resp 200 (BAuthor m)).
Proof.
  intros Hu. unfold author_Update in Hu.
  destruct (validate_uri id) eqn:Hv; [|unfold invalid in Hu; simplify_eq].
  destruct (should_bind _ _) as [d|errs|d]; [|unfold invalid in Hu; simplify_eq|].
  all: destruct (AuthorModel.Detail st _) as [a|e] eqn:Hd;
    [|unfold detail_error in Hu; case_decide; simplify_eq].
  all: destruct (AuthorModel.Update st a d) as [s' [m0|e]] eqn:E; simplify_eq.
  all: apply author_Detail_Ok in Hd as (r & Hr & ->); simpl in *.
  all: apply author_Update_Ok_inv in E as (bd & r' & _ & _ & _ & -> & ->).
  all: unfold author_Get; rewrite Hv; unfold AuthorModel.Detail, AuthorModel.sql_detail; simpl.
  all: by rewrite lookup_insert_eq.
Qed.

(** A book record with its author's book total replaced. *)
Definition with_book_total (b : BookDBModel) (n : Z) : BookDBModel :=
  BDB.mk (BDB.ID b) (BDB.Title b) (BDB.Desc b) (BDB.PubDate b)
         (DB.mk (DB.ID (Author b)) (DB.Name (Author b)) (DB.Email (Author b))
                (DB.BirthDate (Author b)) (DB.Bio (Author b)) n).

(** C10. [PUT /books/:id] embeds the book's author as read before the
    update commits: when it answers 200, [GET /books/:id] answers 200
    with the same record except the author's book total, which is one
    higher when the update moved the book to another author. *)
Theorem book_Update_then_Get (st st' : db) (id : gstring) (req : decoded BookBaseModel) (b : BookDBModel) :
  book_Update st id req = (st', mk_resp 200 (BBook b)) ->
  exists old, books st !! uri_id id = Some old /\
    book_Get st' id = (st', mk_resp 200 (BBook (with_book_total b
      (BookTotal (Author b) + if bool_decide (br_author_id old = DB.ID (Author b)) then 0 else 1)))).
Proof.
  intros Hu. unfold book_Update in Hu.
  destruct (validate_uri id) eqn:Hv; [|unfold invalid in Hu; simplify_eq].
  destruct (should_bind _ _) as [d|errs|d]; [|unfold invalid in Hu; simplify_eq|].
  all: destruct (BookModel.Detail st _) as [b0|e] eqn:Hd;
    [|unfold detail_error in Hu; case_decide; simplify_eq].
  all: pose proof (book_Detail_ID _ _ _ Hd) as HID; simpl in HID.
  all: destruct (BookModel.Update st b0 d) as [s' [m0|e]] eqn:E; simplify_eq.
  all: apply book_Update_Ok_inv in E as (pd & aid & old & r & _ & _ & Hold & Hr & -> & ->).
  all: rewrite HID in Hold |- *; exists old; split; [done|].
  all: pose proof (book_count_replace st (authors st) (authors_seq st) (books_seq st) _ old
                     (mk_book_row (BBase.Title d) (BBase.Desc d) pd aid) aid Hold) as Hc.
  all: cbn [br_author_id] in Hc; rewrite (bool_decide_eq_true_2 (aid = aid)) in Hc by done.
  all: unfold book_Get; rewrite Hv; unfold BookModel.Detail, BookModel.sql_detail; simpl.
  all: rewrite lookup_insert_eq; simpl; unfold book_view; simpl; rewrite Hr.
  all: unfold with_book_total, AuthorModel.author_view; simpl; do 5 f_equal.
  all: case_bool_decide; lia.
Qed.

(** C27. A payload that passes validation but whose birth date PostgreSQL
    rejects (year 0, which [time.Parse] reads and PostgreSQL's date input
    refuses with SQLSTATE 22008) makes [POST /authors] write no response
    at all: the handler only answers SQLSTATE 23505, so gin sends 200
    with an empty body. *)
Theorem author_Add_date_rejected_no_write (st : db) (a : AuthorBaseModel) (e : goerr) :
  validate_author_base a = [] -> pg_date_opt (Base.BirthDate a) = Err e ->
  author_Add st (Decoded a) = (st, no_write).
Proof.
  intros Hv Hd. unfold author_Add, should_bind, AuthorModel.Insert, AuthorModel.sql_insert.
  rewrite Hv, Hd. destruct (pg_date_opt_Err _ _ Hd) as [-> | ->]; simpl; by destruct st.
Qed.

(** C11. A book payload that passes validation but that PostgreSQL
    refuses to convert (an [author_id] of digits beyond the 64-bit range,
    which the [number] tag accepts, or a publication date in year 0) makes
    [POST /books] write no response: the handler answers only SQLSTATE
    23503, so gin sends 200 with an empty body; nothing is stored. *)
Theorem book_Add_conversion_error_no_write (st : db) (d : BookBaseModel) (e : goerr) :
  validate_book_base d = [] ->
  (pg_date_in (BBase.PubDate d) = Err e \/
   exists pd, pg_date_in (BBase.PubDate d) = Ok pd /\ pg_int8_in (AuthorID d) = Err e) ->
  book_Add st (Decoded d) = (st, no_write).
Proof.
  intros Hv He. unfold book_Add, should_bind, BookModel.Insert, BookModel.sql_insert. rewrite Hv.
  destruct He as [Hd|(pd & Hd & Ha)]; rewrite Hd; [|rewrite Ha];
    [destruct (pg_date_in_Err _ _ Hd) as [-> | ->] | destruct (pg_int8_in_Err _ _ Ha) as [-> | ->]];
    simpl; by destruct st.
Qed.

(** C28. [PUT /authors/:id] with a body that fails to decode skips
    validation: the handler stores whatever the decoder filled in (e.g. an
    empty name and email) and answers 200. *)
Theorem author_Update_decode_error_unvalidated (st : db) (id : gstring) (p : AuthorBaseModel)
    (r : author_row) (bd : option date) :
  validate_uri id = [] -> authors st !! uri_id id = Some r ->
  pg_date_opt (Base.BirthDate p) = Ok bd -> email_taken st (Base.Email p) (Some (uri_id id)) = false ->
  author_Update st id (DecodeError p) =
    (mk_db (<[uri_id id := mk_author_row (Base.Name p) (Base.Email p) bd (Base.Bio p)]> (authors st))
           (books st) (authors_seq st) (books_seq st),
     mk_resp 200 (BAuthor (DB.mk (uri_id id) (Base.Name p) (Base.Email p) bd (Base.Bio p)
                                 (book_count st (uri_id id))))).
Proof.
  intros Hv Hr Hd Hfree. unfold author_Update, should_bind. rewrite Hv.
  unfold AuthorModel.Detail, AuthorModel.sql_detail. simpl. rewrite Hr. simpl.
  unfold AuthorModel.Update, AuthorModel.sql_update. simpl. by rewrite Hd, Hr, Hfree.
Qed.

(** C29. [PUT /authors/:id] with a valid payload whose email another
    author has answers 500 "oops, we made a mistake" (not the 409 the
    create path gives) and changes nothing. *)
Theorem author_Update_duplicate_email_500 (st : db) (id : gstring) (a : AuthorBaseModel)
    (r s : author_row) (j : Z) (bd : option date) :
  validate_uri id = [] -> validate_author_base a = [] -> authors st !! uri_id id = Some r ->
  pg_date_opt (Base.BirthDate a) = Ok bd -> authors st !! j = Some s -> j <> uri_id id ->
  Base.Email a = ar_email s ->
  author_Update st id (Decoded a) = (st, oops).
Proof.
  intros Hv Hva Hr Hd Hj Hne He. unfold author_Update, should_bind. rewrite Hv, Hva.
  unfold AuthorModel.Detail, AuthorModel.sql_detail. simpl. rewrite Hr. simpl.
  unfold AuthorModel.Update, AuthorModel.sql_update. simpl. rewrite Hd, Hr.
  assert (Ht : email_taken st (Base.Email a) (Some (uri_id id)) = true).
  { apply email_taken_spec. exists j, s. split; [done|]. split; [done|congruence]. }
  rewrite Ht.
  simpl. by destruct st.
Qed.

(** C30. [PUT /books/:id] with a valid payload whose [author_id] names no
    author answers 500 (not the 422 "unknown author" of the create path)
    and changes nothing. *)
Theorem book_Update_unknown_author_500 (st : db) (id : gstring) (d : BookBaseModel) (b : book_row)
    (pd : date) (aid : Z) :
  wf st -> validate_uri id = [] -> validate_book_base d = [] -> books st !! uri_id id = Some b ->
  pg_date_in (BBase.PubDate d) = Ok pd -> pg_int8_in (AuthorID d) = Ok aid -> authors st !! aid = None ->
  book_Update st id (Decoded d) = (st, oops).
Proof.
  intros Hwf Hv Hvd Hb Hd Ha Hn. unfold book_Update, should_bind. rewrite Hv, Hvd.
  destruct (wf_book_author _ Hwf _ _ Hb) as [r Hr].
  unfold BookModel.Detail, BookModel.sql_detail. simpl. rewrite Hb. simpl. unfold book_view. rewrite Hr.
  unfold BookModel.Update, BookModel.sql_update. simpl. rewrite Hd, Ha, Hb, Hn. simpl. by destruct st.
Qed.

(** C31. [DELETE /authors/:id] on an author who still has books answers
    500 (the foreign key refuses the delete) and changes nothing. *)
Theorem author_Delete_with_books_500 (st : db) (id : gstring) (r : author_row) :
  validate_uri id = [] -> authors st !! uri_id id = Some r -> book_count st (uri_id id) <> 0 ->
  author_Delete st id = (st, oops).
Proof.
  intros Hv Hr Hc. unfold author_Delete. rewrite Hv.
  unfold AuthorModel.Detail, AuthorModel.sql_detail. simpl. rewrite Hr. simpl.
  unfold AuthorModel.Delete, AuthorModel.sql_delete. simpl. rewrite Hr, bool_decide_false by done.
  simpl. by destruct st.
Qed.

(** C32. Listing an empty table answers 500: [GET /authors] when there is
    no author, [GET /books] when there is no book, and
    [GET /authors/:id/books] for an id with no book, whatever accepted
    [page] and [limit] are asked. *)
Theorem empty_listing_500 (st : db) (q1 q2 : option gstring) (id : gstring) :
  is_Some (parse_page q1) -> is_Some (parse_limit q2) ->
  (authors st = ∅ -> author_Fetch st q1 q2 = (st, oops)) /\
  (books st = ∅ -> book_Fetch st q1 q2 = (st, oops)) /\
  (validate_uri id = [] -> book_count st (uri_id id) = 0 -> author_Books st id q1 q2 = (st, oops)).
Proof.
  intros [p Hp] [l Hl]. assert (Hin : handler_inputs p l 0) by (eapply parse_inputs; [exact Hp | exact Hl | go_lia]).
  unfold author_Fetch, book_Fetch, author_Books, AuthorModel.Fetch, BookModel.Fetch.
  rewrite Hp, Hl. split; [|split].
  - intros He. by rewrite author_sql_count_empty, fetch_window_zero.
  - intros He. by rewrite book_sql_count_empty, fetch_window_zero.
  - intros Hv Hc. rewrite Hv. by rewrite book_sql_count_author, fetch_window_zero.
Qed.

(** C33. A 200 answer of [GET /authors] holds the metadata of an accepted
    request ([page >= 1], [5 <= limit <= 100]) over the author count and at
    most [limit] authors; the store is not changed. *)
Theorem author_Fetch_page (st st' : db) (q1 q2 : option gstring) (f : FetchAuthorDBModel) :
  author_Fetch st q1 q2 = (st', mk_resp 200 (BAuthors f)) ->
  st' = st /\ exists p l, parse_page q1 = Some p /\ parse_limit q2 = Some l /\
    1 <= p /\ 5 <= l <= 100 /\ meta f = paginate p l (AuthorModel.sql_count st) /\
    (length (Data f) <= Z.to_nat l)%nat.
Proof.
  unfold author_Fetch, AuthorModel.Fetch. intros Hf.
  destruct (parse_page q1) as [p|] eqn:Hp, (parse_limit q2) as [l|] eqn:Hl; simplify_eq.
  destruct (fetch_window _ _ _ _) as [[m d]|e] eqn:Hw; simplify_eq/=. split; [done|].
  exists p, l. pose proof (parse_page_Some _ _ Hp). pose proof (parse_limit_Some _ _ Hl).
  apply fetch_window_Ok_slice in Hw as Hs. destruct Hs as [-> _].
  apply fetch_window_Ok_length in Hw. repeat split; done || lia.
Qed.

End Props.

(** ** Concrete requests *)

(** A hypothesis about concrete data, settled by evaluation. *)
Ltac concrete := vm_compute; first [reflexivity | eexists; reflexivity | lia].

Definition ann_row : author_row :=
  mk_author_row (gs "Ann Lee") (gs "ann@example.org") (Some (mk_date 1970 5 17)) None.
Definition bob : AuthorBaseModel := Base.mk (gs "Bob Ray") (gs "bob@example.org") None None.
(** Ann and Bob, no book. *)
Definition st_ann_bob : db := (AuthorModel.Insert st_ann zero_author bob).1.
(** Ann with her book. *)
Definition st_dune : db := (BookModel.Insert st_ann zero_book dune).1.
(** A birth date in year 0: [time.Parse] reads it, PostgreSQL refuses it. *)
Definition ann_year0 : AuthorBaseModel :=
  Base.mk (gs "Ann Lee") (gs "ann@example.org") (Some (gs "0000-01-01")) None.
(** What the decoder leaves of a body like [{"name": 1, "email": 2}]. *)
Definition blank_author : AuthorBaseModel := Base.mk [] [] None None.
Definition dune7 : BookBaseModel := BBase.mk (gs "Dune") None (gs "1965-08-01") (gs "7").

Lemma wf_st_ann : wf st_ann.
Proof. apply AuthorModel.Insert_wf, wf_empty. Qed.

Lemma wf_st_dune : wf st_dune.
Proof. apply book_Insert_wf, wf_st_ann. Qed.

(** Ann as [POST /authors] returns her into the empty store. *)
Definition ann_model : AuthorDBModel :=
  DB.mk 1 (gs "Ann Lee") (gs "ann@example.org") (Some (mk_date 1970 5 17)) None 0.

Lemma author_Add_birth_date_echo_witness :
  (author_Add empty_db (Decoded ann) = (st_ann, mk_resp 200 (BAuthor ann_model)) /\
   Base.BirthDate ann = Some (gs "1970-05-17")) /\
  option_map format_date (DB.BirthDate ann_model) = Some (gs "1970-05-17").
Proof.
  assert (Hs : author_Add empty_db (Decoded ann) = (st_ann, mk_resp 200 (BAuthor ann_model)) /\
               Base.BirthDate ann = Some (gs "1970-05-17")) by (split; concrete).
  split; [exact Hs|]. exact (author_Add_birth_date_echo _ _ _ _ _ (proj1 Hs) (proj2 Hs)).
Defined.

Lemma author_Add_duplicate_email_409_witness :
  (validate_author_base ann = [] /\ authors st_ann !! 1 = Some ann_row /\
   Base.Email ann = ar_email ann_row /\ pg_date_opt (Base.BirthDate ann) = Ok (Some (mk_date 1970 5 17))) /\
  author_Add st_ann (Decoded ann) =
    (mk_db (authors st_ann) (books st_ann) (authors_seq st_ann + 1) (books_seq st_ann),
     mk_resp 409 (BMsg "email already registered")).
Proof.
  assert (Hs : validate_author_base ann = [] /\ authors st_ann !! 1 = Some ann_row /\
   Base.Email ann = ar_email ann_row /\ pg_date_opt (Base.BirthDate ann) = Ok (Some (mk_date 1970 5 17)))
    by (repeat split; concrete).
  split; [exact Hs|]. destruct Hs as (H1 & H2 & H3 & H4).
  exact (author_Add_duplicate_email_409 st_ann ann 1 ann_row _ H1 H2 H3 H4).
Defined.

Lemma book_Add_unknown_author_422_witness :
  (validate_book_base dune7 = [] /\ pg_date_in (BBase.PubDate dune7) = Ok (mk_date 1965 8 1) /\
   pg_int8_in (AuthorID dune7) = Ok 7 /\ authors st_ann !! 7 = None) /\
  book_Add st_ann (Decoded dune7) =
    (mk_db (authors st_ann) (books st_ann) (authors_seq st_ann) (books_seq st_ann + 1),
     mk_resp 422 (BMsg "unknown author")).
Proof.
  assert (Hs : validate_book_base dune7 = [] /\ pg_date_in (BBase.PubDate dune7) = Ok (mk_date 1965 8 1) /\
   pg_int8_in (AuthorID dune7) = Ok 7 /\ authors st_ann !! 7 = None) by (repeat split; concrete).
  split; [exact Hs|]. destruct Hs as (H1 & H2 & H3 & H4).
  exact (book_Add_unknown_author_422 st_ann dune7 _ _ H1 H2 H3 H4).
Defined.

Lemma Get_Delete_missing_404_witness :
  validate_uri (gs "9") = [] /\
  ((authors st_dune !! uri_id (gs "9") = None ->
    author_Get st_dune (gs "9") = (st_dune, mk_resp 404 (BMsg "author not found")) /\
    author_Delete st_dune (gs "9") = (st_dune, mk_resp 404 (BMsg "author not found"))) /\
   (books st_dune !! uri_id (gs "9") = None ->
    book_Get st_dune (gs "9") = (st_dune, mk_resp 404 (BMsg "book not found")) /\
    book_Delete st_dune (gs "9") = (st_dune, mk_resp 404 (BMsg "book not found")))).
Proof.
  assert (Hv : validate_uri (gs "9") = []) by concrete.
  split; [exact Hv|]. exact (Get_Delete_missing_404 st_dune (gs "9") Hv).
Defined.

Lemma Add_then_Get_witness :
  let res := author_Add st_ann (Decoded bob) in
  let m := match rbody res.2 with BAuthor m => m | _ => zero_author end in
  (wf st_ann /\ res = (res.1, mk_resp 200 (BAuthor m)) /\ validate_uri (gs "2") = [] /\
   uri_id (gs "2") = DB.ID m) /\
  (author_Get res.1 (gs "2") = (res.1, mk_resp 200 (BAuthor m)) /\ BookTotal m = 0).
Proof.
  intros res m.
  assert (Hs : res = (res.1, mk_resp 200 (BAuthor m)) /\ validate_uri (gs "2") = [] /\
                uri_id (gs "2") = DB.ID m) by (repeat split; concrete).
  split; [split; [exact wf_st_ann | exact Hs]|]. destruct Hs as (H1 & H2 & H3).
  exact (Add_then_Get st_ann res.1 bob m (gs "2") wf_st_ann H1 H2 H3).
Defined.

Lemma author_Add_date_rejected_no_write_witness :
  (validate_author_base ann_year0 = [] /\
   pg_date_opt (Base.BirthDate ann_year0) = Err (PgError datetime_field_overflow)) /\
  author_Add empty_db (Decoded ann_year0) = (empty_db, no_write).
Proof.
  assert (Hs : validate_author_base ann_year0 = [] /\
   pg_date_opt (Base.BirthDate ann_year0) = Err (PgError datetime_field_overflow))
    by (split; concrete).
  split; [exact Hs|]. exact (author_Add_date_rejected_no_write empty_db _ _ (proj1 Hs) (proj2 Hs)).
Defined.

Lemma author_Update_decode_error_unvalidated_witness :
  (validate_uri (gs "1") = [] /\ authors st_ann !! uri_id (gs "1") = Some ann_row /\
   pg_date_opt (Base.BirthDate blank_author) = Ok None /\
   email_taken st_ann (Base.Email blank_author) (Some (uri_id (gs "1"))) = false) /\
  author_Update st_ann (gs "1") (DecodeError blank_author) =
    (mk_db (<[uri_id (gs "1") := mk_author_row [] [] None None]> (authors st_ann))
           (books st_ann) (authors_seq st_ann) (books_seq st_ann),
     mk_resp 200 (BAuthor (DB.mk (uri_id (gs "1")) [] [] None None (book_count st_ann (uri_id (gs "1")))))).
Proof.
  assert (Hs : validate_uri (gs "1") = [] /\ authors st_ann !! uri_id (gs "1") = Some ann_row /\
   pg_date_opt (Base.BirthDate blank_author) = Ok None /\
   email_taken st_ann (Base.Email blank_author) (Some (uri_id (gs "1"))) = false)
    by (repeat split; concrete).
  split; [exact Hs|]. destruct Hs as (H1 & H2 & H3 & H4).
  exact (author_Update_decode_error_unvalidated st_ann (gs "1") blank_author _ _ H1 H2 H3 H4).
Defined.

Lemma author_Update_duplicate_email_500_witness :
  (validate_uri (gs "2") = [] /\ validate_author_base ann = [] /\
   authors st_ann_bob !! uri_id (gs "2") = Some (mk_author_row (gs "Bob Ray") (gs "bob@example.org") None None) /\
   pg_date_opt (Base.BirthDate ann) = Ok (Some (mk_date 1970 5 17)) /\
   authors st_ann_bob !! 1 = Some ann_row /\ 1 <> uri_id (gs "2") /\ Base.Email ann = ar_email ann_row) /\
  author_Update st_ann_bob (gs "2") (Decoded ann) = (st_ann_bob, oops).
Proof.
  assert (Hs : validate_uri (gs "2") = [] /\ validate_author_base ann = [] /\
   authors st_ann_bob !! uri_id (gs "2") = Some (mk_author_row (gs "Bob Ray") (gs "bob@example.org") None None) /\
   pg_date_opt (Base.BirthDate ann) = Ok (Some (mk_date 1970 5 17)) /\
   authors st_ann_bob !! 1 = Some ann_row /\ 1 <> uri_id (gs "2") /\ Base.Email ann = ar_email ann_row)
    by (repeat split; concrete).
  split; [exact Hs|]. destruct Hs as (H1 & H2 & H3 & H4 & H5 & H6 & H7).
  exact (author_Update_duplicate_email_500 st_ann_bob (gs "2") ann _ _ 1 _ H1 H2 H3 H4 H5 H6 H7).
Defined.

Lemma book_Update_unknown_author_500_witness :
  (wf st_dune /\ validate_uri (gs "1") = [] /\ validate_book_base dune7 = [] /\
   books st_dune !! uri_id (gs "1") = Some (mk_book_row (gs "Dune") None (mk_date 1965 8 1) 1) /\
   pg_date_in (BBase.PubDate dune7) = Ok (mk_date 1965 8 1) /\ pg_int8_in (AuthorID dune7) = Ok 7 /\
   authors st_dune !! 7 = None) /\
  book_Update st_dune (gs "1") (Decoded dune7) = (st_dune, oops).
Proof.
  assert (Hs : validate_uri (gs "1") = [] /\ validate_book_base dune7 = [] /\
   books st_dune !! uri_id (gs "1") = Some (mk_book_row (gs "Dune") None (mk_date 1965 8 1) 1) /\
   pg_date_in (BBase.PubDate dune7) = Ok (mk_date 1965 8 1) /\ pg_int8_in (AuthorID dune7) = Ok 7 /\
   authors st_dune !! 7 = None) by (repeat split; concrete).
  split; [split; [exact wf_st_dune | exact Hs]|]. destruct Hs as (H1 & H2 & H3 & H4 & H5 & H6).
  exact (book_Update_unknown_author_500 st_dune (gs "1") dune7 _ _ _ wf_st_dune H1 H2 H3 H4 H5 H6).
Defined.

Lemma author_Delete_with_books_500_witness :
  (validate_uri (gs "1") = [] /\ authors st_dune !! uri_id (gs "1") = Some ann_row /\
   book_count st_dune (uri_id (gs "1")) <> 0) /\
  author_Delete st_dune (gs "1") = (st_dune, oops).
Proof.
  assert (Hs : validate_uri (gs "1") = [] /\ authors st_dune !! uri_id (gs "1") = Some ann_row /\
   book_count st_dune (uri_id (gs "1")) <> 0) by (repeat split; concrete).
  split; [exact Hs|]. destruct Hs as (H1 & H2 & H3).
  exact (author_Delete_with_books_500 st_dune (gs "1") _ H1 H2 H3).
Defined.

Lemma empty_listing_500_witness :
  (is_Some (parse_page None) /\ is_Some (parse_limit (Some (gs "20")))) /\
  ((authors empty_db = ∅ -> author_Fetch empty_db None (Some (gs "20")) = (empty_db, oops)) /\
   (books empty_db = ∅ -> book_Fetch empty_db None (Some (gs "20")) = (empty_db, oops)) /\
   (validate_uri (gs "1") = [] -> book_count empty_db (uri_id (gs "1")) = 0 ->
    author_Books empty_db (gs "1") None (Some (gs "20")) = (empty_db, oops))).
Proof.
  assert (Hs : is_Some (parse_page None) /\ is_Some (parse_limit (Some (gs "20"))))
    by (split; concrete).
  split; [exact Hs|]. exact (empty_listing_500 empty_db None (Some (gs "20")) (gs "1") (proj1 Hs) (proj2 Hs)).
Defined.

Lemma author_Fetch_page_witness :
  let res := author_Fetch st_ann_bob (Some (gs "2")) (Some (gs "5")) in
  let f := match rbody res.2 with BAuthors f => f | _ => AuthorModel.mk_fetch (paginate 1 5 0) [] end in
  res = (res.1, mk_resp 200 (BAuthors f)) /\
  (res.1 = st_ann_bob /\ exists p l, parse_page (Some (gs "2")) = Some p /\ parse_limit (Some (gs "5")) = Some l /\
    1 <= p /\ 5 <= l <= 100 /\ AuthorModel.meta f = paginate p l (AuthorModel.sql_count st_ann_bob) /\
    (length (AuthorModel.Data f) <= Z.to_nat l)%nat).
Proof.
  intros res f. assert (Hs : res = (res.1, mk_resp 200 (BAuthors f))) by concrete.
  split; [exact Hs|]. exact (author_Fetch_page st_ann_bob res.1 _ _ f Hs).
Defined.

(** An author id the validator's [number] tag accepts and [int8] does not. *)
Definition dune_big_author : BookBaseModel :=
  BBase.mk (gs "Dune") None (gs "1965-08-01") (gs "99999999999999999999").

Lemma book_Add_conversion_error_no_write_witness :
  (validate_book_base dune_big_author = [] /\
   (pg_date_in (BBase.PubDate dune_big_author) = Err (PgError numeric_value_out_of_range) \/
    exists pd, pg_date_in (BBase.PubDate dune_big_author) = Ok pd /\
               pg_int8_in (AuthorID dune_big_author) = Err (PgError numeric_value_out_of_range))) /\
  book_Add st_ann (Decoded dune_big_author) = (st_ann, no_write).
Proof.
  assert (Hs : validate_book_base dune_big_author = [] /\
   (pg_date_in (BBase.PubDate dune_big_author) = Err (PgError numeric_value_out_of_range) \/
    exists pd, pg_date_in (BBase.PubDate dune_big_author) = Ok pd /\
               pg_int8_in (AuthorID dune_big_author) = Err (PgError numeric_value_out_of_range))).
  { split; [concrete|]. right. exists (mk_date 1965 8 1). split; concrete. }
  split; [exact Hs|]. exact (book_Add_conversion_error_no_write st_ann _ _ (proj1 Hs) (proj2 Hs)).
Defined.

(** Deleting Ann (no books) and reading her back. *)
Lemma Delete_then_Get_404_witness :
  let res := author_Delete st_ann (gs "1") in
  res = (res.1, mk_resp 200 (BMsg "Author Removed")) /\
  author_Get res.1 (gs "1") = (res.1, mk_resp 404 (BMsg "author not found")).
Proof.
  intros res. assert (Hd : res = (res.1, mk_resp 200 (BMsg "Author Removed"))) by concrete.
  split; [exact Hd|]. exact (proj1 (Delete_then_Get_404 st_ann res.1 (gs "1")) Hd).
Defined.

(** Ann renamed as Bob's payload. *)
Lemma Update_then_Get_witness :
  let res := author_Update st_ann (gs "1") (Decoded bob) in
  let m := match rbody res.2 with BAuthor m => m | _ => zero_author end in
  res = (res.1, mk_resp 200 (BAuthor m)) /\ author_Get res.1 (gs "1") = (res.1, mk_resp 200 (BAuthor m)).
Proof.
  intros res m. assert (Hu : res = (res.1, mk_resp 200 (BAuthor m))) by concrete.
  split; [exact Hu|]. exact (Update_then_Get st_ann res.1 (gs "1") (Decoded bob) m Hu).
Defined.

(** Ann with her book and Bob; the book moves to Bob. *)
Definition st_dune_bob : db := (AuthorModel.Insert st_dune zero_author bob).1.
Definition dune_bob : BookBaseModel := BBase.mk (gs "Dune") None (gs "1965-08-01") (gs "2").

Lemma book_Update_then_Get_witness :
  let res := book_Update st_dune_bob (gs "1") (Decoded dune_bob) in
  let b := match rbody res.2 with BBook b => b | _ => zero_book end in
  res = (res.1, mk_resp 200 (BBook b)) /\ BookTotal (Author b) = 0 /\
  exists old, books st_dune_bob !! uri_id (gs "1") = Some old /\
    book_Get res.1 (gs "1") = (res.1, mk_resp 200 (BBook (with_book_total b
      (BookTotal (Author b) + if bool_decide (br_author_id old = DB.ID (Author b)) then 0 else 1)))).
Proof.
  intros res b. assert (Hu : res = (res.1, mk_resp 200 (BBook b))) by concrete.
  split; [exact Hu|]. split; [concrete|].
  exact (book_Update_then_Get st_dune_bob res.1 (gs "1") (Decoded dune_bob) b Hu).
Defined.

End Handlers.
