(* ===== verification/Server.v ===== *)
(** * Server: the route table, request sequences, the pool and startup

    [Router] is [IncludeHandlers] of src/pkg/handlers/handler.go: the two
    route groups and the dispatch of a request to its handler, and a run
    of the server as the sequence of requests it serves.  [Pool] is
    src/pkg/database/pool.go: [GetConnection] with its [sync.Once], both as
    a function on the package globals and as a step relation of concurrent
    callers.  [Main] is the startup sequence of src/cmd/server/main.go. *)

From Stdlib Require Import Inclusion Wf_nat.
From S2P Require Import Prelude GoLib Pagination Store Validation AuthorModel BookModel Handlers.
Import Store Pagination Validation AuthorModel.Base BookModel.BBase Handlers.
Open Scope Z_scope.
Open Scope bookies_scope.

Module Router.

(** The handler methods [IncludeHandlers] registers. *)
Inductive handler_fn : Type :=
| AuthorFetch | AuthorAdd | AuthorGet | AuthorUpdate | AuthorDelete | AuthorBooks
| BookFetch | BookAdd | BookGet | BookUpdate | BookDelete.

#[export] Instance handler_fn_eq_dec : EqDecision handler_fn.
Proof. solve_decision. Defined.

(** A segment of a route pattern: a literal or a [:name] parameter. *)
Inductive seg : Type := Lit (s : gstring) | Param (name : string).

#[export] Instance seg_eq_dec : EqDecision seg.
Proof. solve_decision. Defined.

Record route : Type := mk_route { rmethod : string; rpath : list seg; rhandler : handler_fn }.

#[export] Instance route_eq_dec : EqDecision route.
Proof.
  intros [m1 p1 h1] [m2 p2 h2].
  destruct (decide (m1 = m2)), (decide (p1 = p2)), (decide (h1 = h2));
    [left; congruence | right; congruence ..].
Defined.

(** [app.Group(prefix)]: the group's routes under the prefix. *)
Definition group (prefix : gstring) (rs : list route) : list route :=
  map (fun r => mk_route (rmethod r) (Lit prefix :: rpath r) (rhandler r)) rs.

Definition IncludeHandlers : list route :=
  group (gs "authors")
    [mk_route "GET" [] AuthorFetch;
     mk_route "POST" [] AuthorAdd;
     mk_route "GET" [Param "id"] AuthorGet;
     mk_route "PUT" [Param "id"] AuthorUpdate;
     mk_route "DELETE" [Param "id"] AuthorDelete;
     mk_route "GET" [Param "id"; Lit (gs "books")] AuthorBooks] ++
  group (gs "books")
    [mk_route "GET" [] BookFetch;
     mk_route "POST" [] BookAdd;
     mk_route "GET" [Param "id"] BookGet;
     mk_route "PUT" [Param "id"] BookUpdate;
     mk_route "DELETE" [Param "id"] BookDelete].

(** Matching a path (its segments between slashes) against a pattern: the
    parameter values, a parameter matching a non-empty segment. *)
Fixpoint match_path (pat : list seg) (path : list gstring) : option (list gstring) :=
  match pat, path with
  | [], [] => Some []
  | Lit s :: pat', x :: path' => if decide (s = x) then match_path pat' path' else None
  | Param _ :: pat', x :: path' =>
      match x with [] => None | _ => cons x <$> match_path pat' path' end
  | _, _ => None
  end.

Fixpoint find_route (rs : list route) (m : string) (path : list gstring)
    : option (handler_fn * list gstring) :=
  match rs with
  | [] => None
  | r :: rs' =>
      if String.eqb (rmethod r) m then
        match match_path (rpath r) path with
        | Some ps => Some (rhandler r, ps)
        | None => find_route rs' m path
        end
      else find_route rs' m path
  end.

(** A request: method, path segments, the [page]/[limit] query values and
    the body as each payload struct decodes it. *)
Record request : Type := mk_req {
  method : string;
  path : list gstring;
  page_q : option gstring;
  limit_q : option gstring;
  author_body : decoded AuthorBaseModel;
  book_body : decoded BookBaseModel
}.

(** gin's answer when no route matches. *)
Definition not_found : response := mk_resp 404 (BText "404 page not found").

Section Serve.
Context `{CharClasses}.

Definition call (st : db) (h : handler_fn) (ps : list gstring) (r : request) : db * response :=
  let id := default [] (head ps) in
  match h with
  | AuthorFetch => author_Fetch st (page_q r) (limit_q r)
  | AuthorAdd => author_Add st (author_body r)
  | AuthorGet => author_Get st id
  | AuthorUpdate => author_Update st id (author_body r)
  | AuthorDelete => author_Delete st id
  | AuthorBooks => author_Books st id (page_q r) (limit_q r)
  | BookFetch => book_Fetch st (page_q r) (limit_q r)
  | BookAdd => book_Add st (book_body r)
  | BookGet => book_Get st id
  | BookUpdate => book_Update st id (book_body r)
  | BookDelete => book_Delete st id
  end.

Definition serve (st : db) (r : request) : db * response :=
  match find_route IncludeHandlers (method r) (path r) with
  | Some (h, ps) => call st h ps r
  | None => (st, not_found)
  end.

(** The server answering requests one after the other. *)
Fixpoint run (st : db) (rs : list request) : db * list response :=
  match rs with
  | [] => (st, [])
  | r :: rs' =>
      let '(st1, resp) := serve st r in
      let '(st2, resps) := run st1 rs' in
      (st2, resp :: resps)
  end.

End Serve.

(** ** Lemmas *)

Lemma call_keeps_wf `{CharClasses} (st : db) (h : handler_fn) (ps : list gstring) (r : request) :
  wf st -> wf (call st h ps r).1.
Proof. intros Hwf. destruct h; simpl; auto with bookies. Qed.

Lemma serve_keeps_wf `{CharClasses} (st : db) (r : request) : wf st -> wf (serve st r).1.
Proof. intros Hwf. unfold serve. destruct (find_route _ _ _) as [[h ps]|]; [by apply call_keeps_wf | done]. Qed.

Lemma find_route_sound (rs : list route) (m : string) (path : list gstring) (h : handler_fn) (ps : list gstring) :
  find_route rs m path = Some (h, ps) ->
  exists r, r ∈ rs /\ rmethod r = m /\ match_path (rpath r) path = Some ps /\ rhandler r = h.
Proof.
  induction rs as [|r rs IH]; simpl; [done|]. intros Hf.
  destruct (String.eqb_spec (rmethod r) m); [destruct (match_path _ _) eqn:E|].
  - simplify_eq. exists r. split_and!; [by left|done..].
  - destruct (IH Hf) as (r' & ? & ?). exists r'. split; [by right|done].
  - destruct (IH Hf) as (r' & ? & ?). exists r'. split; [by right|done].
Qed.

(** ** Properties *)

(** C36. The route table of the API: each method and path of the two
    resource groups reaches its handler, with the [:id] segment as the
    parameter. *)
Theorem spec_routes (id : gstring) :
  id <> [] ->
  find_route IncludeHandlers "GET" [gs "authors"] = Some (AuthorFetch, []) /\
  find_route IncludeHandlers "POST" [gs "authors"] = Some (AuthorAdd, []) /\
  find_route IncludeHandlers "GET" [gs "authors"; id] = Some (AuthorGet, [id]) /\
  find_route IncludeHandlers "PUT" [gs "authors"; id] = Some (AuthorUpdate, [id]) /\
  find_route IncludeHandlers "DELETE" [gs "authors"; id] = Some (AuthorDelete, [id]) /\
  find_route IncludeHandlers "GET" [gs "authors"; id; gs "books"] = Some (AuthorBooks, [id]) /\
  find_route IncludeHandlers "GET" [gs "books"] = Some (BookFetch, []) /\
  find_route IncludeHandlers "POST" [gs "books"] = Some (BookAdd, []) /\
  find_route IncludeHandlers "GET" [gs "books"; id] = Some (BookGet, [id]) /\
  find_route IncludeHandlers "PUT" [gs "books"; id] = Some (BookUpdate, [id]) /\
  find_route IncludeHandlers "DELETE" [gs "books"; id] = Some (BookDelete, [id]).
Proof. destruct id as [|c id]; [done|]. intros _. split_and!; reflexivity. Qed.

Lemma spec_routes_witness :
  gs "42" <> [] /\
  (find_route IncludeHandlers "GET" [gs "authors"] = Some (AuthorFetch, []) /\
  find_route IncludeHandlers "POST" [gs "authors"] = Some (AuthorAdd, []) /\
  find_route IncludeHandlers "GET" [gs "authors"; gs "42"] = Some (AuthorGet, [gs "42"]) /\
  find_route IncludeHandlers "PUT" [gs "authors"; gs "42"] = Some (AuthorUpdate, [gs "42"]) /\
  find_route IncludeHandlers "DELETE" [gs "authors"; gs "42"] = Some (AuthorDelete, [gs "42"]) /\
  find_route IncludeHandlers "GET" [gs "authors"; gs "42"; gs "books"] = Some (AuthorBooks, [gs "42"]) /\
  find_route IncludeHandlers "GET" [gs "books"] = Some (BookFetch, []) /\
  find_route IncludeHandlers "POST" [gs "books"] = Some (BookAdd, []) /\
  find_route IncludeHandlers "GET" [gs "books"; gs "42"] = Some (BookGet, [gs "42"]) /\
  find_route IncludeHandlers "PUT" [gs "books"; gs "42"] = Some (BookUpdate, [gs "42"]) /\
  find_route IncludeHandlers "DELETE" [gs "books"; gs "42"] = Some (BookDelete, [gs "42"])).
Proof.
  assert (Hne : gs "42" <> []) by (vm_compute; congruence).
  split; [exact Hne|]. exact (spec_routes (gs "42") Hne).
Defined.

End Router.

Module Pool.

(** [DbPool]: the pool handle; the [pgxpool.Pool] is represented by the
    connection string it was built from. *)
Record DbPool : Type := mk_pool { Conn : string }.

#[export] Instance DbPool_eq_dec : EqDecision DbPool.
Proof. solve_decision. Defined.

(** [os.Getenv] *)
Definition env : Type := string -> string.

(** The connection string [GetConnection] formats. *)
Definition connstr (getenv : env) : string :=
  "postgres://" +:+ getenv "DB_USER" +:+ ":" +:+ getenv "DB_PASS" +:+ "@" +:+
  getenv "DB_HOST" +:+ ":" +:+ getenv "DB_PORT" +:+ "/" +:+ getenv "DB_NAME" +:+
  "?sslmode=disable".

(** The outcome of [Ping]. *)
Inductive ping_result : Type := PingOk | PingErr | PingPanic.

(** [Ping]: [db.Conn.Ping(ctx)].  On a nil [*DbPool] the read of [db.Conn]
    panics; otherwise the store answers, as [alive] says for the pool's
    connection string. *)
Definition Ping (db : option DbPool) (alive : string -> bool) : ping_result :=
  match db with
  | None => PingPanic
  | Some p => if alive (Conn p) then PingOk else PingErr
  end.

Section Once.
(** [pgxpool.New]: whether it accepts a connection string (it parses the
    configuration; it does not connect). *)
Variable pgxpool_new_ok : string -> bool.

(** The body of [dbOnce.Do]: on an error it returns early and leaves
    [dbInstance] as it is. *)
Definition construct (getenv : env) (inst : option DbPool) : option DbPool :=
  if pgxpool_new_ok (connstr getenv) then Some (mk_pool (connstr getenv)) else inst.

(** The package variables [dbInstance] and [dbOnce]. *)
Record globals : Type := mk_globals { once_done : bool; dbInstance : option DbPool }.

Definition init_globals : globals := mk_globals false None.

(** [GetConnection]: the instance and the error it returns, which is
    always nil. *)
Definition GetConnection (g : globals) (getenv : env) : globals * (option DbPool * option string) :=
  let g' := if once_done g then g else mk_globals true (construct getenv (dbInstance g)) in
  (g', (dbInstance g', None)).

(** Successive calls, each with the environment at its time. *)
Fixpoint get_connections (g : globals) (envs : list env) : globals * list (option DbPool * option string) :=
  match envs with
  | [] => (g, [])
  | e :: es =>
      let '(g1, r) := GetConnection g e in
      let '(g2, rs) := get_connections g1 es in
      (g2, r :: rs)
  end.

(** ** Concurrent callers of [GetConnection]

    [sync.Once.Do] checks its done flag; if unset it takes the mutex, runs
    the function and sets the flag; a caller arriving meanwhile waits for
    the mutex and then finds the flag set. *)
Inductive once_state : Type := NotDone | Running (t : nat) | Done.

Inductive thread : Type :=
| Idle                          (* has not called yet *)
| InDo                          (* runs the body of [Do] *)
| Waiting                       (* waits for the mutex held by the runner *)
| Returned (r : option DbPool). (* returned [dbInstance] *)

Record conf : Type := mk_conf {
  once : once_state;
  inst : option DbPool;
  constructed : nat;            (* calls of [pgxpool.New] so far *)
  threads : list thread
}.

Inductive step : conf -> conf -> Prop :=
| step_fast t c :
    threads c !! t = Some Idle -> once c = Done ->
    step c (mk_conf (once c) (inst c) (constructed c) (<[t := Returned (inst c)]> (threads c)))
| step_enter t c :
    threads c !! t = Some Idle -> once c = NotDone ->
    step c (mk_conf (Running t) (inst c) (constructed c) (<[t := InDo]> (threads c)))
| step_wait t u c :
    threads c !! t = Some Idle -> once c = Running u ->
    step c (mk_conf (once c) (inst c) (constructed c) (<[t := Waiting]> (threads c)))
| step_finish t (getenv : env) c :
    threads c !! t = Some InDo -> once c = Running t ->
    step c (mk_conf Done (construct getenv (inst c)) (S (constructed c))
                    (<[t := Returned (construct getenv (inst c))]> (threads c)))
| step_wake t c :
    threads c !! t = Some Waiting -> once c = Done ->
    step c (mk_conf (once c) (inst c) (constructed c) (<[t := Returned (inst c)]> (threads c))).

Definition init_conf (n : nat) : conf := mk_conf NotDone None 0 (replicate n Idle).

Definition reachable (n : nat) (c : conf) : Prop := rtc step (init_conf n) c.

(** ** Lemmas *)

(** The state the concurrent callers keep. *)
Record inv (c : conf) : Prop := {
  inv_constructed : (once c = Done /\ constructed c = 1%nat) \/ (once c <> Done /\ constructed c = 0%nat);
  inv_returned : forall t r, threads c !! t = Some (Returned r) -> once c = Done /\ r = inst c;
  inv_runner : forall t, once c = Running t -> threads c !! t = Some InDo;
  inv_indo : forall t, threads c !! t = Some InDo -> once c = Running t;
  inv_waiting : forall t, threads c !! t = Some Waiting -> once c <> NotDone
}.

Lemma inv_init (n : nat) : inv (init_conf n).
Proof.
  split; simpl; try by left.
  - by right.
  - intros t r [? _]%lookup_replicate. congruence.
  - intros t ?. congruence.
  - intros t [? _]%lookup_replicate. congruence.
  - intros t [? _]%lookup_replicate. congruence.
Qed.

(** A lookup in a list after one thread's state is replaced. *)
Ltac thread_lookup :=
  repeat match goal with
  | H : <[_ := _]> _ !! _ = Some _ |- _ =>
      apply list_lookup_insert_Some in H as [(? & ? & ?)|(? & H)]
  end.

Lemma inv_step (c c' : conf) : inv c -> step c c' -> inv c'.
Proof.
  intros [Hc Hr Hrun Hin Hw] Hs. destruct Hs as [t c Ht Ho|t c Ht Ho|t u c Ht Ho|t e c Ht Ho|t c Ht Ho];
    split; simpl; intros; thread_lookup; simplify_eq; try congruence.
  all: first
    [ by split
    | by eapply Hr | by eapply Hin
    | by destruct (Hr _ _ H) as [? _]; congruence
    | by apply Hin in H; congruence
    | by rewrite list_lookup_insert_eq by (by eapply lookup_lt_Some)
    | rewrite list_lookup_insert_ne; [by apply Hrun | intros ->; rewrite Hrun in Ht by done; congruence]
    | destruct Hc as [[? ?]|[? ?]]; [congruence|]; first [by right | by left; split; [|lia]] ].
Qed.

Lemma inv_rtc (c c' : conf) : rtc step c c' -> inv c -> inv c'.
Proof. induction 1; eauto using inv_step. Qed.

Lemma inv_reachable (n : nat) (c : conf) : reachable n c -> inv c.
Proof. intros H. eapply inv_rtc; [exact H | apply inv_init]. Qed.

(** The work left: two units for a caller that has not called, one for a
    caller inside or waiting on [Do]. *)
Definition weight_of (th : thread) : nat :=
  match th with Idle => 2 | InDo => 1 | Waiting => 1 | Returned _ => 0 end.

Definition weight (c : conf) : nat := sum_list_with weight_of (threads c).

Lemma sum_list_with_insert {A} (f : A -> nat) (l : list A) (i : nat) (x y : A) :
  l !! i = Some y -> (sum_list_with f (<[i := x]> l) + f y = sum_list_with f l + f x)%nat.
Proof.
  revert i. induction l as [|z l IH]; intros [|i] Hi; simpl in *; simplify_eq; [lia|].
  specialize (IH i Hi). lia.
Qed.

Lemma step_weight (c c' : conf) : step c c' -> (weight c' < weight c)%nat.
Proof.
  unfold weight. destruct 1 as [t c Ht|t c Ht|t u c Ht|t e c Ht|t c Ht]; simpl;
    match goal with |- (sum_list_with _ (<[_ := ?x]> _) < _)%nat =>
      pose proof (sum_list_with_insert weight_of _ _ x _ Ht) end; simpl in *; lia.
Qed.

(** No caller is stuck: while one has not returned, some step is possible. *)
Lemma progress (c : conf) (t : nat) (th : thread) :
  inv c -> threads c !! t = Some th -> weight_of th <> 0%nat -> exists c', step c c'.
Proof.
  intros [_ _ Hrun Hin Hw] Ht Hth. pose (e := fun _ : string => ""%string).
  destruct th as [| | |r]; [|apply Hin in Ht as Ho|apply Hw in Ht as Ho|done].
  - destruct (once c) as [|u|] eqn:Ho; eexists;
      [eapply step_enter | eapply step_wait | eapply step_fast]; eauto.
  - eexists. by eapply (step_finish t e).
  - destruct (once c) as [|u|] eqn:Ho'; [done| |eexists; by eapply step_wake].
    eexists. eapply (step_finish u e); [by apply Hrun | done].
Qed.


Lemma get_connections_done (g : globals) (es : list env) :
  once_done g = true ->
  (get_connections g es).1 = g /\ Forall (fun r => r = (dbInstance g, None)) (get_connections g es).2.
Proof.
  intros Hd. induction es as [|e es IH]; simpl; [done|].
  unfold GetConnection. rewrite Hd.
  destruct (get_connections g es) as [g2 rs]. simpl in *. destruct IH as [-> IH]. auto.
Qed.

(** ** Properties *)

(** C37. However the calls of concurrent callers interleave, [pgxpool.New]
    runs at most once, and every caller that has returned got the one
    shared instance (nil if that construction failed). *)
Theorem once_single_instance (n : nat) (c : conf) :
  reachable n c ->
  (constructed c <= 1)%nat /\ forall t r, threads c !! t = Some (Returned r) -> r = inst c.
Proof.
  intros Hr. destruct (inv_reachable n c Hr) as [Hc Hret _ _ _].
  split; [destruct Hc as [[_ ->]|[_ ->]]; lia|]. intros t r Ht. by apply Hret in Ht as [_ ->].
Qed.

(** C38. Every caller of [GetConnection] returns: from any reachable
    state of the concurrent callers there is a continuation in which all
    of them have returned (no caller waits forever on [dbOnce]). *)
Theorem all_callers_return (n : nat) (c : conf) :
  reachable n c ->
  exists c', rtc step c c' /\ Forall (fun th => exists r, th = Returned r) (threads c').
Proof.
  intros Hr. pose proof (inv_reachable n c Hr) as Hinv. clear Hr.
  remember (weight c) as w eqn:Hw. revert c Hinv Hw.
  induction w as [w IH] using lt_wf_ind. intros c Hinv ->.
  destruct (decide (Forall (fun th => weight_of th = 0%nat) (threads c))) as [Hall|Hnot].
  - exists c. split; [done|]. eapply Forall_impl; [exact Hall|]. intros [| | |r] ?; by eauto.
  - apply not_Forall_Exists, Exists_exists in Hnot as (th & Hin & Hth); [|apply _].
    apply list_elem_of_lookup in Hin as [t Ht].
    destruct (progress c t th Hinv Ht Hth) as [c' Hs].
    destruct (IH (weight c') (step_weight c c' Hs) c' (inv_step c c' Hinv Hs) eq_refl) as (c'' & ? & ?).
    exists c''. split; [by eapply rtc_l|done].
Qed.

(** The reverse of [step] is well founded: it is included in the order
    of the weight. *)
Lemma step_wf : well_founded (fun c' c => step c c').
Proof.
  apply (wf_incl _ _ (ltof conf weight)); [|apply well_founded_ltof].
  intros c' c Hs. unfold ltof. by apply step_weight.
Qed.

(** C17. The concurrent callers of [GetConnection] always terminate: there
    is no infinite sequence of steps, whatever the interleaving, the
    number of callers and the environment each construction reads. *)
Theorem no_infinite_interleaving :
  ~ exists s : nat -> conf, forall i, step (s i) (s (S i)).
Proof.
  intros [s Hs].
  assert (H : forall c, forall k, s k = c -> False).
  { intros c. induction (step_wf c) as [c _ IH]. intros k <-. by apply (IH (s (S k)) (Hs k) (S k)). }
  by apply (H (s 0%nat) 0%nat).
Qed.

(** C39. [GetConnection] never returns an error, and every call returns
    what the first call built: a failure of [pgxpool.New] at the first
    call is cached as a nil instance for the life of the process, whatever
    the environment of the later calls. *)
Theorem GetConnection_first_call_wins (e : env) (es : list env) :
  Forall (fun r => r = (construct e None, None)) (get_connections init_globals (e :: es)).2.
Proof.
  simpl. destruct (get_connections_done (mk_globals true (construct e None)) es eq_refl) as [_ H].
  destruct (get_connections _ es) as [g2 rs]. simpl in *. by constructor.
Qed.

End Once.

End Pool.

Module Main.
Import Pool.

Inductive outcome : Type :=
| Fatal (msg : string)          (* [log.Fatal]: exit status 1 *)
| Panic (msg : string)          (* a run-time panic *)
| Serve (addr : string).        (* [app.Run(addr)] *)

(** [APP_HOST] and [APP_PORT] with their defaults. *)
Definition listen_addr (getenv : env) : string :=
  let host := if String.eqb (getenv "APP_HOST") "" then "127.0.0.1" else getenv "APP_HOST" in
  let port := if String.eqb (getenv "APP_PORT") "" then "8000" else getenv "APP_PORT" in
  host +:+ ":" +:+ port.

Section Startup.
Variable pgxpool_new_ok : string -> bool.

(** [main]: load the .env file, get the pool, ping the store, then serve.
    [getenv] is the environment after [godotenv.Load]; [alive] is the
    store's answer to [Ping].  [dbconn.Ping] on a nil [*DbPool] reads
    [db.Conn] through the nil pointer. *)
Definition main (dotenv_ok : bool) (getenv : env) (alive : string -> bool) : outcome :=
  if negb dotenv_ok then Fatal "Unable to find .env file" else
  let '(_, (dbconn, err)) := GetConnection pgxpool_new_ok init_globals getenv in
  match err with
  | Some _ => Fatal "Error create database connection pool"
  | None =>
      match Ping dbconn alive with
      | PingPanic => Panic "invalid memory address or nil pointer dereference"
      | PingErr => Fatal "Failed to connect database"
      | PingOk => Serve (listen_addr getenv)
      end
  end.

(** C40. [main]'s check of the error [GetConnection] returns is dead: it
    never fails with "Error create database connection pool".  When
    [pgxpool.New] refuses the configuration, [main] panics on the nil pool
    at [Ping]; when it accepts it and the store answers, the server listens
    on [APP_HOST:APP_PORT]. *)
Theorem main_startup (dotenv_ok : bool) (getenv : env) (alive : string -> bool) :
  main dotenv_ok getenv alive <> Fatal "Error create database connection pool" /\
  (dotenv_ok = true -> pgxpool_new_ok (connstr getenv) = false ->
   main dotenv_ok getenv alive = Panic "invalid memory address or nil pointer dereference") /\
  (dotenv_ok = true -> pgxpool_new_ok (connstr getenv) = true -> alive (connstr getenv) = true ->
   main dotenv_ok getenv alive = Serve (listen_addr getenv)).
Proof.
  unfold main, GetConnection, construct. simpl.
  destruct dotenv_ok, (pgxpool_new_ok (connstr getenv)) eqn:Hn, (alive (connstr getenv)) eqn:Ha;
    simpl; rewrite ?Ha; split_and!; congruence.
Qed.

End Startup.

End Main.

(** ** Concrete runs *)

Module PoolRuns.
Import Pool Main.

Definition accept_all : string -> bool := fun _ => true.
Definition no_env : env := fun _ => ""%string.
Definition the_pool : option DbPool := Some (mk_pool (connstr no_env)).

(** Caller 0 runs [Do] while caller 1 waits; then both have the pool. *)
Definition two_callers : conf := mk_conf Done the_pool 1 [Returned the_pool; Returned the_pool].

Lemma two_callers_reachable : reachable accept_all 2 two_callers.
Proof.
  unfold reachable, init_conf.
  eapply rtc_l; [by apply (step_enter accept_all 0)|]. simpl.
  eapply rtc_l; [by eapply (step_wait accept_all 1 0)|]. simpl.
  eapply rtc_l; [by apply (step_finish accept_all 0 no_env)|]. simpl.
  eapply rtc_l; [by apply (step_wake accept_all 1)|]. apply rtc_refl.
Qed.

Lemma once_single_instance_witness :
  reachable accept_all 2 two_callers /\
  ((constructed two_callers <= 1)%nat /\
   forall t r, threads two_callers !! t = Some (Returned r) -> r = inst two_callers).
Proof.
  split; [exact two_callers_reachable|].
  exact (once_single_instance accept_all 2 two_callers two_callers_reachable).
Defined.

Lemma all_callers_return_witness :
  reachable accept_all 3 (init_conf 3) /\
  exists c', rtc (step accept_all) (init_conf 3) c' /\
             Forall (fun th => exists r, th = Returned r) (threads c').
Proof.
  assert (H : reachable accept_all 3 (init_conf 3)) by apply rtc_refl.
  split; [exact H|]. exact (all_callers_return accept_all 3 (init_conf 3) H).
Defined.

Lemma main_startup_witness :
  listen_addr no_env = "127.0.0.1:8000"%string /\
  (main accept_all true no_env accept_all <> Fatal "Error create database connection pool" /\
   (true = true -> accept_all (connstr no_env) = false ->
    main accept_all true no_env accept_all = Panic "invalid memory address or nil pointer dereference") /\
   (true = true -> accept_all (connstr no_env) = true -> accept_all (connstr no_env) = true ->
    main accept_all true no_env accept_all = Serve (listen_addr no_env))).
Proof. split; [reflexivity|]. exact (main_startup accept_all true no_env accept_all). Defined.

End PoolRuns.

(** ** The integration test (src/test/author_test.go) *)

Module Test.
Import Router Pool Main.

Section Test.
Context `{CharClasses}.
Variable pgxpool_new_ok : string -> bool.

(** [TestMain]: the start-up of [main] up to building the router, then the
    tests run. *)
Definition TestMain (dotenv_ok : bool) (getenv : env) (alive : string -> bool) : option outcome :=
  if negb dotenv_ok then Some (Fatal "Unable to find .env file") else
  let '(_, (dbconn, err)) := GetConnection pgxpool_new_ok init_globals getenv in
  match err with
  | Some _ => Some (Fatal "Error create database connection pool")
  | None =>
      match Ping dbconn alive with
      | PingPanic => Some (Panic "invalid memory address or nil pointer dereference")
      | PingErr => Some (Fatal "Failed to connect database")
      | PingOk => None
      end
  end.

(** The request of [TestFetchAuthors] (no query, no body). *)
Definition fetch_authors_req : request :=
  mk_req "GET" [gs "authors"] None None (DecodeError (AuthorModel.Base.mk [] [] None None))
         (DecodeError (BookModel.BBase.mk [] None [] [])).

(** [TestFetchAuthors]: [GET /authors] must answer 200. *)
Definition TestFetchAuthors (st : db) : bool := bool_decide (status (serve st fetch_authors_req).2 = 200).

End Test.

(** On a store without authors the repository's own test fails. *)
Lemma TestFetchAuthors_empty `{CharClasses} (st : db) :
  authors st = ∅ -> TestFetchAuthors st = false.
Proof.
  intros He. unfold TestFetchAuthors, serve. simpl.
  unfold author_Fetch, AuthorModel.Fetch. simpl.
  rewrite author_sql_count_empty, fetch_window_zero by (done || (repeat split; go_lia)).
  by rewrite bool_decide_false.
Qed.

End Test.
