(* ===== verification/Contract.v ===== *)
(** * Contract: what the API promises, proved of the whole server

    Two properties of [Router.serve] and [Router.run], the server of
    src/pkg/app/rest_server.go with the routes of
    src/pkg/handlers/handler.go:
    - [repo_step]: the author collection seen abstractly ([repo], the
      author rows without ids' bookkeeping) changes only as the API's
      contract allows: a create, an update or a delete that the request
      asked for and the response acknowledged; every other answer leaves
      it as it was.  The server refines this specification over any
      sequence of requests.
    - [row_target] and [changes_at_most]: the one row of one table a
      request may write, read off its method and path alone; serving the
      request changes nothing else. *)

From S2P Require Import Prelude GoLib Pagination Store Validation AuthorModel BookModel Handlers Server.
Import Time Store Validation AuthorModel AuthorModel.Base AuthorModel.DB BookModel BookModel.BBase
  Handlers Router.
Open Scope Z_scope.
Open Scope bookies_scope.

Module Contract.

(** ** The author collection, abstractly *)

(** What the API stores of an author. *)
Record author_info : Type := mk_info {
  i_name : gstring;
  i_email : gstring;
  i_birth : option date;
  i_bio : option gstring
}.

Abbreviation repo := (gmap Z author_info).

Definition info_of_row (r : author_row) : author_info :=
  mk_info (ar_name r) (ar_email r) (ar_birth_date r) (ar_bio r).

Definition info_of_model (m : AuthorDBModel) : author_info :=
  mk_info (DB.Name m) (DB.Email m) (DB.BirthDate m) (DB.Bio m).

(** The abstraction of a store. *)
Definition abs (st : db) : repo := info_of_row <$> authors st.

(** No author but [except] has the email. *)
Definition email_free (A : repo) (e : gstring) (except : option Z) : Prop :=
  forall j x, A !! j = Some x -> i_email x = e -> Some j = except.

(** The author write a request asks for, by its method and path. *)
Inductive author_write : Type := WCreate | WUpdate (id : gstring) | WDelete (id : gstring).

Definition write_of (m : string) (p : list gstring) : option author_write :=
  match p with
  | [c] => if bool_decide (c = gs "authors") && String.eqb m "POST" then Some WCreate else None
  | [c; id] =>
      if bool_decide (c = gs "authors") then
        if String.eqb m "PUT" then Some (WUpdate id)
        else if String.eqb m "DELETE" then Some (WDelete id) else None
      else None
  | _ => None
  end.

(** Does the response acknowledge the write? *)
Definition acknowledged (w : option author_write) (resp : response) : bool :=
  (status resp =? 200) &&
  match w, rbody resp with
  | Some WCreate, BAuthor _ | Some (WUpdate _), BAuthor _ => true
  | Some (WDelete _), BMsg m => String.eqb m "Author Removed"
  | _, _ => false
  end.

(** The contract: a write the request asked for and the response
    acknowledged, or no change. *)
Inductive repo_step : repo -> option author_write -> repo -> response -> Prop :=
| rs_unchanged A w resp :
    acknowledged w resp = false -> repo_step A w A resp
| rs_create A m :
    A !! DB.ID m = None -> email_free A (DB.Email m) None ->
    repo_step A (Some WCreate) (<[DB.ID m := info_of_model m]> A) (mk_resp 200 (BAuthor m))
| rs_update A id m x :
    DB.ID m = uri_id id -> A !! uri_id id = Some x -> email_free A (DB.Email m) (Some (uri_id id)) ->
    repo_step A (Some (WUpdate id)) (<[uri_id id := info_of_model m]> A) (mk_resp 200 (BAuthor m))
| rs_delete A id x :
    A !! uri_id id = Some x ->
    repo_step A (Some (WDelete id)) (delete (uri_id id) A) (mk_resp 200 (BMsg "Author Removed")).

(** A run of the contract over a sequence of requests. *)
Inductive repo_trace : repo -> list request -> repo -> list response -> Prop :=
| rt_nil A : repo_trace A [] A []
| rt_cons A A' A'' r rs resp resps :
    repo_step A (write_of (method r) (path r)) A' resp -> repo_trace A' rs A'' resps ->
    repo_trace A (r :: rs) A'' (resp :: resps).

(** ** Lemmas *)

Lemma acknowledged_None (resp : response) : acknowledged None resp = false.
Proof. unfold acknowledged. by destruct (status resp =? 200), (rbody resp). Qed.

Lemma acknowledged_status (w : option author_write) (resp : response) :
  status resp <> 200 -> acknowledged w resp = false.
Proof. intros Hs. unfold acknowledged. by rewrite (proj2 (Z.eqb_neq _ _) Hs). Qed.

(** The write a dispatched request asks for, by the handler it reaches. *)
Definition write_of_handler (h : handler_fn) (ps : list gstring) : option author_write :=
  match h with
  | AuthorAdd => Some WCreate
  | AuthorUpdate => Some (WUpdate (default [] (head ps)))
  | AuthorDelete => Some (WDelete (default [] (head ps)))
  | _ => None
  end.

Lemma dispatch_write (m : string) (p ps : list gstring) (h : handler_fn) :
  find_route IncludeHandlers m p = Some (h, ps) -> write_of m p = write_of_handler h ps.
Proof.
  intros (r & Hin & <- & Hm & <-)%find_route_sound.
  apply list_elem_of_In in Hin. simpl in Hin. destruct_or! Hin; subst r; simpl in *;
    destruct p as [|c [|x [|y p]]]; simpl in Hm; go_cases; simplify_eq/=; reflexivity.
Qed.

Lemma abs_authors (st st' : db) : authors st' = authors st -> abs st' = abs st.
Proof. unfold abs. by intros ->. Qed.

Lemma abs_fresh (st : db) : wf st -> abs st !! (authors_seq st + 1) = None.
Proof. intros Hwf. unfold abs. by rewrite lookup_fmap, wf_author_fresh. Qed.

Lemma abs_email_free (st : db) (e : gstring) (except : option Z) :
  email_taken st e except = false -> email_free (abs st) e except.
Proof.
  intros Hfree j x Hj He. unfold abs in Hj. rewrite lookup_fmap in Hj.
  destruct (authors st !! j) as [r|] eqn:Hr; simplify_eq/=. by eapply email_taken_false.
Qed.

(** A payload, for the statements that need one. *)
Definition zero_author_base : AuthorBaseModel := Base.mk [] [] None None.
Definition zero_book_base : BookBaseModel := BBase.mk [] None [] [].

Section Refines.
Context `{CharClasses} (st : db) (Hwf : wf st).

Lemma author_Add_refines (req : decoded AuthorBaseModel) :
  repo_step (abs st) (Some WCreate) (abs (author_Add st req).1) (author_Add st req).2.
Proof.
  unfold author_Add. destruct (should_bind _ _) as [a|errs|p]; [|by apply rs_unchanged..].
  destruct (AuthorModel.Insert st zero_author a) as [st' [m|e]] eqn:E.
  - apply author_Insert_Ok_inv in E as (bd & _ & Hfree & -> & ->). unfold abs at 2. simpl.
    rewrite fmap_insert. apply (rs_create (abs st) (DB.mk _ _ _ _ _ _));
      [by apply abs_fresh | by apply abs_email_free].
  - assert (Ha : abs st' = abs st).
    { pose proof (proj1 (author_write_errors_atomic st zero_author a e)) as Ha. rewrite E in Ha.
      apply abs_authors, Ha. done. }
    destruct e as [code| | | |]; [case_match|..]; simpl; rewrite Ha; by apply rs_unchanged.
Qed.

Lemma author_Update_refines (id : gstring) (req : decoded AuthorBaseModel) :
  repo_step (abs st) (Some (WUpdate id)) (abs (author_Update st id req).1) (author_Update st id req).2.
Proof.
  unfold author_Update. destruct (validate_uri id); [|by apply rs_unchanged].
  destruct (should_bind _ _) as [d|errs|d]; [|by apply rs_unchanged|].
  all: destruct (AuthorModel.Detail st _) as [a|e] eqn:Hd;
    [|unfold detail_error; case_decide; by apply rs_unchanged].
  all: pose proof (author_Detail_ID _ _ _ Hd) as HID; simpl in HID.
  all: destruct (AuthorModel.Update st a d) as [st' [m|e]] eqn:E.
  1,3: apply author_Update_Ok_inv in E as (bd & r & _ & Hr & Hfree & -> & ->);
    rewrite HID in Hr, Hfree |- *; unfold abs at 2; simpl; rewrite fmap_insert;
    eapply (rs_update _ id (DB.mk _ _ _ _ _ _)); [reflexivity | unfold abs; by rewrite lookup_fmap, Hr
    | by apply abs_email_free].
  all: pose proof (proj1 (proj2 (author_write_errors_atomic st a d e))) as Ha; rewrite E in Ha; simpl in Ha;
    simpl; rewrite (abs_authors _ _ (Ha eq_refl)); by apply rs_unchanged.
Qed.

Lemma author_Delete_refines (id : gstring) :
  repo_step (abs st) (Some (WDelete id)) (abs (author_Delete st id).1) (author_Delete st id).2.
Proof.
  unfold author_Delete. destruct (validate_uri id); [|by apply rs_unchanged].
  destruct (AuthorModel.Detail st _) as [a|e] eqn:Hd;
    [|unfold detail_error; case_decide; by apply rs_unchanged].
  pose proof (author_Detail_ID _ _ _ Hd) as HID; simpl in HID.
  destruct (AuthorModel.Delete st a) as [st' [[]|e]] eqn:E.
  - apply author_Delete_Ok_inv in E as [[Hn _]|(r & Hr & ->)].
    + rewrite HID in Hn. unfold AuthorModel.Detail, AuthorModel.sql_detail in Hd.
      simpl in Hd. by rewrite Hn in Hd.
    + rewrite HID in Hr |- *. unfold abs at 2. simpl. rewrite fmap_delete.
      eapply rs_delete. unfold abs. by rewrite lookup_fmap, Hr.
  - pose proof (proj2 (proj2 (author_write_errors_atomic st a zero_author_base e))) as Ha.
    rewrite E in Ha. simpl in Ha. simpl. rewrite (abs_authors _ _ (Ha eq_refl)). by apply rs_unchanged.
Qed.

(** The author table after a book write, from the write's equation. *)
Ltac book_write_authors :=
  repeat match goal with
  | E : BookModel.Insert ?s ?m ?d = (_, _) |- _ =>
      let W := fresh "W" in pose proof (proj1 (book_writes_authors s m d)) as W; rewrite E in W; clear E
  | E : BookModel.Update ?s ?m ?d = (_, _) |- _ =>
      let W := fresh "W" in pose proof (proj1 (proj2 (book_writes_authors s m d))) as W; rewrite E in W; clear E
  | E : BookModel.Delete ?s ?m = (_, _) |- _ =>
      let W := fresh "W" in pose proof (proj2 (proj2 (book_writes_authors s m zero_book_base))) as W;
      rewrite E in W; clear E
  end.

Lemma call_keeps_authors (h : handler_fn) (ps : list gstring) (r : request) :
  write_of_handler h ps = None -> authors (call st h ps r).1 = authors st.
Proof.
  destruct h; simpl; intros Hw; try done;
    [ unfold author_Fetch | unfold author_Get | unfold author_Books | unfold book_Fetch
    | unfold book_Add | unfold book_Get | unfold book_Update | unfold book_Delete ];
    go_cases; book_write_authors; done.
Qed.

Lemma call_refines (h : handler_fn) (ps : list gstring) (r : request) :
  repo_step (abs st) (write_of_handler h ps) (abs (call st h ps r).1) (call st h ps r).2.
Proof.
  destruct (write_of_handler h ps) eqn:Hw.
  - destruct h; simplify_eq/=;
      [apply author_Add_refines | apply author_Update_refines | apply author_Delete_refines].
  - rewrite (abs_authors _ _ (call_keeps_authors h ps r Hw)). by apply rs_unchanged, acknowledged_None.
Qed.

Lemma serve_refines (r : request) :
  repo_step (abs st) (write_of (method r) (path r)) (abs (serve st r).1) (serve st r).2.
Proof.
  unfold serve. destruct (find_route _ _ _) as [[h ps]|] eqn:Hf.
  - rewrite (dispatch_write _ _ _ _ Hf). apply call_refines.
  - apply rs_unchanged, acknowledged_status. done.
Qed.

End Refines.

(** ** What one request may change *)

Inductive table : Type := TAuthors | TBooks.

(** The one row a request may write, by its method and path: the next id
    of the table's sequence for a POST, the [:id] of the path for a PUT
    or a DELETE; no row for anything else. *)
Definition row_target (st : db) (m : string) (p : list gstring) : option (table * Z) :=
  match p with
  | [c] =>
      if String.eqb m "POST" then
        if bool_decide (c = gs "authors") then Some (TAuthors, authors_seq st + 1)
        else if bool_decide (c = gs "books") then Some (TBooks, books_seq st + 1) else None
      else None
  | [c; id] =>
      if String.eqb m "PUT" || String.eqb m "DELETE" then
        if bool_decide (c = gs "authors") then Some (TAuthors, uri_id id)
        else if bool_decide (c = gs "books") then Some (TBooks, uri_id id) else None
      else None
  | _ => None
  end.

(** [st'] differs from [st] at most in the target row. *)
Definition changes_at_most (st st' : db) (t : option (table * Z)) : Prop :=
  match t with
  | None => authors st' = authors st /\ books st' = books st
  | Some (TAuthors, i) => author_row_only st st' i
  | Some (TBooks, i) => book_row_only st st' i
  end.

(** The row a dispatched request may write, by the handler it reaches. *)
Definition handler_target (st : db) (h : handler_fn) (ps : list gstring) : option (table * Z) :=
  let id := uri_id (default [] (head ps)) in
  match h with
  | AuthorAdd => Some (TAuthors, authors_seq st + 1)
  | AuthorUpdate | AuthorDelete => Some (TAuthors, id)
  | BookAdd => Some (TBooks, books_seq st + 1)
  | BookUpdate | BookDelete => Some (TBooks, id)
  | _ => None
  end.

Lemma dispatch_target (st : db) (m : string) (p ps : list gstring) (h : handler_fn) :
  find_route IncludeHandlers m p = Some (h, ps) -> row_target st m p = handler_target st h ps.
Proof.
  intros (r & Hin & <- & Hm & <-)%find_route_sound.
  apply list_elem_of_In in Hin. simpl in Hin. destruct_or! Hin; subst r; simpl in *;
    destruct p as [|c [|x [|y p]]]; simpl in Hm; go_cases; simplify_eq/=; reflexivity.
Qed.

Lemma changes_at_most_refl (st : db) (t : option (table * Z)) : changes_at_most st st t.
Proof. by destruct t as [[[] i]|]. Qed.

#[export] Hint Resolve changes_at_most_refl : bookies.

(** The frame of the data access method a handler called, from its
    equation, at the id the handler read back with [Detail]. *)
Ltac write_frame :=
  repeat match goal with
  | E : AuthorModel.Insert ?s ?m ?a = _ |- _ =>
      let F := fresh "F" in pose proof (Insert_row_only s m a) as F; rewrite E in F; clear E
  | E : AuthorModel.Update ?s ?m ?a = _ |- _ =>
      let F := fresh "F" in pose proof (Update_row_only s m a) as F; rewrite E in F; clear E
  | E : AuthorModel.Delete ?s ?m = _ |- _ =>
      let F := fresh "F" in pose proof (Delete_row_only s m) as F; rewrite E in F; clear E
  | E : BookModel.Insert ?s ?m ?d = _ |- _ =>
      let F := fresh "F" in pose proof (book_Insert_row_only s m d) as F; rewrite E in F; clear E
  | E : BookModel.Update ?s ?m ?d = _ |- _ =>
      let F := fresh "F" in pose proof (book_Update_row_only s m d) as F; rewrite E in F; clear E
  | E : BookModel.Delete ?s ?m = _ |- _ =>
      let F := fresh "F" in pose proof (book_Delete_row_only s m) as F; rewrite E in F; clear E
  | E : AuthorModel.Detail _ _ = Ok _ |- _ => apply author_Detail_ID in E; simpl in E
  | E : BookModel.Detail _ _ = Ok _ |- _ => apply book_Detail_ID in E; simpl in E
  end; simpl in *.

Section Frame.
Context `{CharClasses} (st : db).

Lemma call_frame (h : handler_fn) (ps : list gstring) (r : request) :
  changes_at_most st (call st h ps r).1 (handler_target st h ps).
Proof.
  destruct h; simpl;
    [ unfold author_Fetch | unfold author_Add | unfold author_Get | unfold author_Update
    | unfold author_Delete | unfold author_Books | unfold book_Fetch | unfold book_Add
    | unfold book_Get | unfold book_Update | unfold book_Delete ];
    go_cases; write_frame; first [by auto with bookies | congruence].
Qed.

End Frame.

(** ** Properties *)

(** C9. Refinement of the author contract: for any sequence of requests
    served from a well-formed store, the author collection goes through a
    run of [repo_step]: each request either leaves it unchanged and its
    response does not acknowledge a write, or it creates an author under a
    fresh id with an email nobody has, updates the author its path names
    keeping emails unique, or deletes the author its path names; and the
    response acknowledges exactly that write (200 with the author record,
    or "Author Removed"). *)
Theorem run_refines_repo `{CharClasses} (st : db) (rs : list request) :
  wf st -> repo_trace (abs st) rs (abs (run st rs).1) (run st rs).2.
Proof.
  revert st. induction rs as [|r rs IH]; intros st Hwf; simpl; [constructor|].
  pose proof (serve_refines st Hwf r) as Hs. pose proof (serve_keeps_wf st r Hwf) as Hw.
  destruct (serve st r) as [st1 resp]. specialize (IH st1 Hw).
  destruct (run st1 rs) as [st2 resps]. simpl in *. by econstructor.
Qed.

(** C34. Each request changes at most the one row its method and path
    name, in the table its path names: POST /authors (/books) at most the
    row of the id the table's sequence draws next, PUT and DELETE
    /authors/:id (/books/:id) at most the row [:id], and nothing else
    changes either table; every other request (every GET, an unknown
    route) leaves both tables as they were. *)
Theorem serve_frame `{CharClasses} (st : db) (r : request) :
  changes_at_most st (serve st r).1 (row_target st (method r) (path r)).
Proof.
  unfold serve. destruct (find_route _ _ _) as [[h ps]|] eqn:Hf.
  - rewrite (dispatch_target st _ _ _ _ Hf). apply call_frame.
  - apply changes_at_most_refl.
Qed.

(** A session: create Ann, try again with her email, then delete her. *)
Definition session : list request :=
  [mk_req "POST" [gs "authors"] None None (Decoded AuthorModel.ann) (Decoded BookModel.dune);
   mk_req "POST" [gs "authors"] None None (Decoded AuthorModel.ann) (Decoded BookModel.dune);
   mk_req "DELETE" [gs "authors"; gs "1"] None None (Decoded AuthorModel.ann) (Decoded BookModel.dune)].

Lemma run_refines_repo_witness :
  wf empty_db /\ repo_trace (abs empty_db) session (abs (run empty_db session).1) (run empty_db session).2.
Proof. split; [exact wf_empty|]. exact (run_refines_repo empty_db session wf_empty). Defined.

End Contract.
